(** * A shallow embedding of the Roblox Studio MCP bridge

    Source: [src/server/roblox_mcp_server.py].

    The bridge is a Python program; this development embeds its job
    broker: the [JobQueue] class, the HTTP handler ([do_GET], [do_POST]),
    the dispatcher [McpServer._call_tool] with its helpers, the stdio loop
    [McpServer.run], and the tool catalog ([_ref_schema], [_build_tools]).
    The command line of [main] and the installer are not embedded.

    Conventions of the embedding:
    - Python values that come out of [json.loads] are terms of [json];
      a [dict] is an insertion-ordered association list.
    - A Python [str] is a [string] holding its UTF-8 bytes.
    - [time.time()] yields a rational number of seconds ([Q]); the rounding
      of binary floating point in clock arithmetic is not modelled.
    - Every method of [JobQueue] runs under the one lock of the condition
      variable, hence atomically; what other threads do while a waiter
      sleeps in [Condition.wait], and what the clock shows when it wakes
      up, is an explicit input (a schedule).  A wait whose schedule ends
      before the wait does is [Blocked].
    - An exception that the code does not catch is a result, [Raises]. *)

From Stdlib Require Import String Ascii List ZArith QArith Bool Lia.
From Stdlib Require Import Lqa.
Import ListNotations.

Set Warnings "-register-all".

Local Open Scope list_scope.
Local Open Scope string_scope.

(* ================================================================== *)
(** ** Python values *)
(* ================================================================== *)

Module Py.

(** A Python [float], given by the output of the shortest round-trip
    conversion: sign, significant decimal digits and the position of the
    decimal point ([0.d1d2...dn * 10^decpt]).  Zero is digits [[0]] with
    [decpt = 1]. *)
Inductive pyfloat : Type :=
| FNaN
| FInf (neg : bool)
| FFin (neg : bool) (digits : list nat) (decpt : Z).

(** What [json.loads] can return. *)
Inductive json : Type :=
| JNull
| JBool (b : bool)
| JInt (z : Z)
| JFloat (f : pyfloat)
| JString (s : string)
| JList (l : list json)
| JObject (o : list (string * json)).

(** Exceptions the embedded code can raise and does not catch. *)
Inductive py_exception : Type :=
| AttributeError
| UnicodeDecodeError
| TypeError
| RecursionError
| ValueError.

(** Result of running a piece of code: a value, an uncaught exception, or
    [Blocked] when the schedule given to a blocking wait is used up before
    the wait is over. *)
Inductive outcome (A : Type) : Type :=
| Returns (a : A)
| Raises (e : py_exception)
| Blocked.
Arguments Returns {A} a.
Arguments Raises {A} e.
Arguments Blocked {A}.

Definition float_is_zero (f : pyfloat) : bool :=
  match f with
  | FFin _ ds _ => forallb (Nat.eqb 0) ds
  | _ => false
  end.

(** Truth value testing ([bool(v)], [not v], [a or b]). *)
Definition truthy (v : json) : bool :=
  match v with
  | JNull => false
  | JBool b => b
  | JInt z => negb (z =? 0)%Z
  | JFloat f => negb (float_is_zero f)
  | JString s => negb (s =? EmptyString)
  | JList l => match l with [] => false | _ :: _ => true end
  | JObject o => match o with [] => false | _ :: _ => true end
  end.

(** [a or b] *)
Definition py_or (a b : json) : json := if truthy a then a else b.

(** *** Dictionaries with [str] keys *)

Section StrDict.
Context {V : Type}.

Fixpoint dict_lookup (k : string) (d : list (string * V)) : option V :=
  match d with
  | [] => None
  | (k', v) :: r => if k =? k' then Some v else dict_lookup k r
  end.

(** [k in d] *)
Definition dict_mem (k : string) (d : list (string * V)) : bool :=
  match dict_lookup k d with Some _ => true | None => false end.

(** [d[k] = v]: an existing key keeps its position, a new one goes last. *)
Fixpoint dict_set (k : string) (v : V) (d : list (string * V))
  : list (string * V) :=
  match d with
  | [] => [(k, v)]
  | (k', v') :: r =>
      if k =? k' then (k', v) :: r else (k', v') :: dict_set k v r
  end.

End StrDict.

(** [d.get(k)] : [None] (here [JNull]) when the key is missing. *)
Definition dict_get (k : string) (d : list (string * json)) : json :=
  match dict_lookup k d with Some v => v | None => JNull end.

(** [d.get(k, dflt)] *)
Definition dict_get_default (k : string) (dflt : json)
  (d : list (string * json)) : json :=
  match dict_lookup k d with Some v => v | None => dflt end.

(** *** Hashing and equality of dictionary keys *)

Definition hashable (v : json) : bool :=
  match v with
  | JList _ | JObject _ => false
  | _ => true
  end.

Inductive numval : Type :=
| NumQ (q : Q)
| NumInf (neg : bool)
| NumNaN.

Definition digits_value (ds : list nat) : Z :=
  fold_left (fun acc d => (10 * acc + Z.of_nat d)%Z) ds 0%Z.

Definition float_value (neg : bool) (ds : list nat) (decpt : Z) : Q :=
  let m := digits_value ds in
  let e := (decpt - Z.of_nat (length ds))%Z in
  let a := if (0 <=? e)%Z
           then inject_Z (m * 10 ^ e)
           else (inject_Z m / inject_Z (10 ^ (- e)))%Q in
  if neg then (- a)%Q else a.

(** [bool] is a subclass of [int]; numbers compare by value. *)
Definition numval_of (v : json) : option numval :=
  match v with
  | JBool b => Some (NumQ (if b then 1 else 0))
  | JInt z => Some (NumQ (inject_Z z))
  | JFloat FNaN => Some NumNaN
  | JFloat (FInf n) => Some (NumInf n)
  | JFloat (FFin n ds e) => Some (NumQ (float_value n ds e))
  | _ => None
  end.

(** How a dictionary compares two hashable keys that came out of
    [json.loads]: by [a == b], except that NaN, which is not equal to
    itself, is found by identity, every NaN that [json.loads] returns being
    the one object [json.decoder.NaN]. *)
Definition py_key_eqb (a b : json) : bool :=
  match a, b with
  | JNull, JNull => true
  | JString s, JString t => (s =? t)
  | _, _ =>
      match numval_of a, numval_of b with
      | Some (NumQ p), Some (NumQ q) => Qeq_bool p q
      | Some (NumInf x), Some (NumInf y) => Bool.eqb x y
      | Some NumNaN, Some NumNaN => true
      | _, _ => false
      end
  end.

(** A dictionary whose keys are arbitrary hashable values. *)
Section KeyDict.
Context {V : Type}.

Fixpoint kdict_lookup (k : json) (d : list (json * V)) : option V :=
  match d with
  | [] => None
  | (k', v) :: r => if py_key_eqb k k' then Some v else kdict_lookup k r
  end.

Fixpoint kdict_set (k : json) (v : V) (d : list (json * V))
  : list (json * V) :=
  match d with
  | [] => [(k, v)]
  | (k', v') :: r =>
      if py_key_eqb k k' then (k', v) :: r else (k', v') :: kdict_set k v r
  end.

(** [d.pop(k)]: the dictionary without the key. *)
Fixpoint kdict_remove (k : json) (d : list (json * V))
  : list (json * V) :=
  match d with
  | [] => []
  | (k', v') :: r =>
      if py_key_eqb k k' then kdict_remove k r
      else (k', v') :: kdict_remove k r
  end.
End KeyDict.

End Py.
Export Py.

(* ================================================================== *)
(** ** [str()], [repr()] and [json.dumps] *)
(* ================================================================== *)

Module PyJson.

Definition digit_char (d : nat) : ascii := ascii_of_nat (48 + d).

Definition digits_str (ds : list nat) : string :=
  string_of_list_ascii (map digit_char ds).

Definition zeros (n : nat) : string :=
  string_of_list_ascii (repeat "0"%char n).

(** Decimal digits of a non-negative number, most significant first;
    [fuel] bounds the number of digits. *)
Fixpoint nat_digits_aux (fuel : nat) (n : N) (acc : list nat) : list nat :=
  match fuel with
  | O => acc
  | S fuel' =>
      let acc' := N.to_nat (n mod 10) :: acc in
      if (n <? 10)%N then acc' else nat_digits_aux fuel' (n / 10)%N acc'
  end.

Definition N_digits (n : N) : list nat :=
  nat_digits_aux (S (N.to_nat (N.log2 n))) n [].

(** [int.__repr__] *)
Definition int_repr (z : Z) : string :=
  match z with
  | Z0 => "0"
  | Zpos p => digits_str (N_digits (Npos p))
  | Zneg p => "-" ++ digits_str (N_digits (Npos p))
  end.

(** [float.__repr__] of a finite float: exponent notation when
    [decpt <= -4] or [decpt > 16], positional notation otherwise, with
    [.0] appended to an integral value. *)
Definition float_repr_digits (ds : list nat) (decpt : Z) : string :=
  let n := Z.of_nat (length ds) in
  if ((decpt <=? -4) || (16 <? decpt))%Z then
    let e := (decpt - 1)%Z in
    let mant :=
      match ds with
      | [] => EmptyString
      | [d] => digits_str [d]
      | d :: r => digits_str [d] ++ "." ++ digits_str r
      end in
    let ed := N_digits (Z.to_N (Z.abs e)) in
    let ed2 := match ed with [d] => [0%nat; d] | _ => ed end in
    mant ++ "e" ++ (if (e <? 0)%Z then "-" else "+") ++ digits_str ed2
  else if (decpt <=? 0)%Z then
    "0." ++ zeros (Z.to_nat (- decpt)) ++ digits_str ds
  else if (n <=? decpt)%Z then
    digits_str ds ++ zeros (Z.to_nat (decpt - n)) ++ ".0"
  else
    digits_str (firstn (Z.to_nat decpt) ds) ++ "."
      ++ digits_str (skipn (Z.to_nat decpt) ds).

Definition float_repr (f : pyfloat) : string :=
  match f with
  | FNaN => "nan"
  | FInf neg => if neg then "-inf" else "inf"
  | FFin neg ds decpt =>
      (if neg then "-" else EmptyString) ++ float_repr_digits ds decpt
  end.

(** [json.encoder.floatstr] with [allow_nan=True] *)
Definition floatstr (f : pyfloat) : string :=
  match f with
  | FNaN => "NaN"
  | FInf neg => if neg then "-Infinity" else "Infinity"
  | _ => float_repr f
  end.

Definition hex_char (n : nat) : ascii :=
  if (n <? 10)%nat then ascii_of_nat (48 + n) else ascii_of_nat (87 + n).

(** [ESCAPE_DCT] of [json.encoder]: the replacement of one character under
    [ensure_ascii=False].  Only the quote, the backslash and the control
    characters below 0x20 are replaced; every other byte, in particular
    every byte of a non-ASCII character, stays as it is. *)
Definition escape_char (c : ascii) : string :=
  let n := nat_of_ascii c in
  if (n =? 34)%nat then "\" ++ String c EmptyString
  else if (n =? 92)%nat then "\\"
  else if (n =? 8)%nat then "\b"
  else if (n =? 12)%nat then "\f"
  else if (n =? 10)%nat then "\n"
  else if (n =? 13)%nat then "\r"
  else if (n =? 9)%nat then "\t"
  else if (n <? 32)%nat then
    "\u00" ++ String (hex_char (n / 16)) (String (hex_char (n mod 16)) EmptyString)
  else String c EmptyString.

Fixpoint escape_string (s : string) : string :=
  match s with
  | EmptyString => EmptyString
  | String c r => escape_char c ++ escape_string r
  end.

(** [json.encoder.encode_basestring] *)
Definition encode_basestring (s : string) : string :=
  String (ascii_of_nat 34) (escape_string s ++ String (ascii_of_nat 34) EmptyString).

Definition newline : string := String (ascii_of_nat 10) EmptyString.

Fixpoint spaces (n : nat) : string :=
  match n with O => EmptyString | S k => " " ++ spaces k end.

(** ['\n' + indent * level] with [indent = 2] spaces *)
Definition newline_indent (level : nat) : string :=
  newline ++ spaces (2 * level).

Fixpoint join (sep : string) (l : list string) : string :=
  match l with
  | [] => EmptyString
  | [x] => x
  | x :: r => x ++ sep ++ join sep r
  end.

(** [json.dumps(v, ensure_ascii=False, indent=2)] at nesting depth
    [level]: item separator [","], key separator [": "], every item of a
    non-empty container on a line of its own. *)
Fixpoint iterencode (level : nat) (v : json) : string :=
  match v with
  | JNull => "null"
  | JBool true => "true"
  | JBool false => "false"
  | JInt z => int_repr z
  | JFloat f => floatstr f
  | JString s => encode_basestring s
  | JList [] => "[]"
  | JList l =>
      "[" ++ newline_indent (S level)
        ++ join ("," ++ newline_indent (S level))
             (map (iterencode (S level)) l)
        ++ newline_indent level ++ "]"
  | JObject [] => "{}"
  | JObject o =>
      "{" ++ newline_indent (S level)
        ++ join ("," ++ newline_indent (S level))
             (map (fun kv => encode_basestring (fst kv) ++ ": "
                             ++ iterencode (S level) (snd kv)) o)
        ++ newline_indent level ++ "}"
  end.

Definition json_dumps_indent2 (v : json) : string := iterencode 0 v.

(** [str(v)], as an f-string formats it, for the values that are not
    containers. *)
Definition py_str (v : json) : option string :=
  match v with
  | JNull => Some "None"
  | JBool true => Some "True"
  | JBool false => Some "False"
  | JInt z => Some (int_repr z)
  | JFloat f => Some (float_repr f)
  | JString s => Some s
  | JList _ | JObject _ => None
  end.

End PyJson.
Export PyJson.

(* ================================================================== *)
(** ** [class JobQueue] *)
(* ================================================================== *)

Definition Time : Type := Q.

Definition Qlt_bool (a b : Q) : bool := negb (Qle_bool b a).

(** A job as [_build_job] makes it:
    [{"job_id": .., "type": .., "args": .., "created_at": ..}]. *)
Record Job : Type := mkJob {
  job_id : string;
  type : string;
  args : list (string * json);
  created_at : Time
}.

(** The three dictionaries of a [JobQueue]; the condition variable [_cv]
    is the atomicity of the methods below. *)
Record JobQueue : Type := mkJobQueue {
  _pending : list (string * list Job);
  _results : list (json * list (string * json));
  _last_seen : list (string * Time)
}.

(** [JobQueue()] *)
Definition JobQueue_init : JobQueue := mkJobQueue [] [] [].

(** [mark_seen]; [now] is the value of [time.time()]. *)
Definition mark_seen (q : JobQueue) (client_id : string) (now : Time)
  : JobQueue :=
  mkJobQueue (_pending q) (_results q) (dict_set client_id now (_last_seen q)).

Definition get_last_seen (q : JobQueue) (client_id : string) : option Time :=
  dict_lookup client_id (_last_seen q).

Definition is_connected (q : JobQueue) (client_id : string) (max_age : Q)
  (now : Time) : bool :=
  match dict_lookup client_id (_last_seen q) with
  | None => false
  | Some last => Qlt_bool (now - last) max_age
  end.

(** [self._pending.setdefault(client_id, []).append(job)] *)
Fixpoint setdefault_append (client_id : string) (job : Job)
  (p : list (string * list Job)) : list (string * list Job) :=
  match p with
  | [] => [(client_id, [job])]
  | (c, queue) :: r =>
      if client_id =? c then (c, (queue ++ [job])%list) :: r
      else (c, queue) :: setdefault_append client_id job r
  end.

Definition enqueue (q : JobQueue) (client_id : string) (job : Job)
  : JobQueue :=
  mkJobQueue (setdefault_append client_id job (_pending q))
             (_results q) (_last_seen q).

(** The mailbox of a client; a missing key and an empty list are both
    falsy in [if queue:]. *)
Definition mailbox (q : JobQueue) (client_id : string) : list Job :=
  match dict_lookup client_id (_pending q) with
  | Some queue => queue
  | None => []
  end.

(** [queue = self._pending.get(client_id); if queue: return queue.pop(0)]:
    the head and the queue without it, or [None] when there is no job. *)
Definition take_job (q : JobQueue) (client_id : string)
  : option (Job * JobQueue) :=
  match dict_lookup client_id (_pending q) with
  | Some (j :: rest) =>
      Some (j, mkJobQueue (dict_set client_id rest (_pending q))
                          (_results q) (_last_seen q))
  | _ => None
  end.

Definition store_result (q : JobQueue) (key : json)
  (result : list (string * json)) : JobQueue :=
  mkJobQueue (_pending q) (kdict_set key result (_results q)) (_last_seen q).

(** [if job_id in self._results: return self._results.pop(job_id)] *)
Definition take_result (q : JobQueue) (id : string)
  : option (list (string * json) * JobQueue) :=
  match kdict_lookup (JString id) (_results q) with
  | Some r =>
      Some (r, mkJobQueue (_pending q)
                          (kdict_remove (JString id) (_results q))
                          (_last_seen q))
  | None => None
  end.

(** The inner loop of [cancel_job]: the first job of a queue with this id
    is popped. *)
Fixpoint remove_first_job (id : string) (queue : list Job)
  : option (list Job) :=
  match queue with
  | [] => None
  | j :: r =>
      if job_id j =? id then Some r
      else match remove_first_job id r with
           | Some r' => Some (j :: r')
           | None => None
           end
  end.

(** The outer loop of [cancel_job], over the mailboxes in dictionary
    order; it returns at the first removal. *)
Fixpoint cancel_in (id : string) (p : list (string * list Job))
  : option (list (string * list Job)) :=
  match p with
  | [] => None
  | (c, queue) :: r =>
      match remove_first_job id queue with
      | Some queue' => Some ((c, queue') :: r)
      | None => match cancel_in id r with
                | Some r' => Some ((c, queue) :: r')
                | None => None
                end
      end
  end.

Definition cancel_job (q : JobQueue) (id : string) : bool * JobQueue :=
  match cancel_in id (_pending q) with
  | Some p' => (true, mkJobQueue p' (_results q) (_last_seen q))
  | None => (false, q)
  end.

(** *** Other threads

    The process has one dispatcher thread (the stdio loop) and the HTTP
    worker threads.  While the dispatcher sleeps in [wait_for_result],
    the other threads are the HTTP workers; while a worker sleeps in
    [wait_for_job], they are the other workers and the dispatcher. *)

(** The atomic sections of all the methods of [JobQueue], as any thread
    may run them. *)
Inductive queue_op : Type :=
| OpMarkSeen (client_id : string) (now : Time)
| OpEnqueue (client_id : string) (job : Job)
| OpTakeJob (client_id : string)
| OpStoreResult (key : json) (result : list (string * json))
| OpTakeResult (id : string)
| OpCancelJob (id : string).

(** One operation: the queue after it and, for a pop of [wait_for_job],
    the client and the job delivered. *)
Definition op_step (q : JobQueue) (o : queue_op)
  : JobQueue * list (string * Job) :=
  match o with
  | OpMarkSeen c now => (mark_seen q c now, [])
  | OpEnqueue c j => (enqueue q c j, [])
  | OpTakeJob c =>
      match take_job q c with
      | Some (j, q') => (q', [(c, j)])
      | None => (q, [])
      end
  | OpStoreResult k r => (store_result q k r, [])
  | OpTakeResult id =>
      match take_result q id with
      | Some (_, q') => (q', [])
      | None => (q, [])
      end
  | OpCancelJob id => (snd (cancel_job q id), [])
  end.

(** A run of operations: the final queue and the deliveries in order. *)
Fixpoint exec (q : JobQueue) (ops : list queue_op)
  : JobQueue * list (string * Job) :=
  match ops with
  | [] => (q, [])
  | o :: rest =>
      let (q1, d1) := op_step q o in
      let (q2, d2) := exec q1 rest in
      (q2, (d1 ++ d2)%list)
  end.

(** What the HTTP worker threads do to the queue, one atomic section each:
    [mark_seen] ([/ping], and the first step of [/poll]), the pop of a
    poller inside [wait_for_job], and [store_result] ([/result]). *)
Inductive env_action : Type :=
| EnvMarkSeen (client_id : string) (now : Time)
| EnvTakeJob (client_id : string)
| EnvStoreResult (key : json) (result : list (string * json)).

Definition env_step (q : JobQueue) (a : env_action) : JobQueue :=
  match a with
  | EnvMarkSeen c now => mark_seen q c now
  | EnvTakeJob c =>
      match take_job q c with Some (_, q') => q' | None => q end
  | EnvStoreResult k r => store_result q k r
  end.

Definition run_env (q : JobQueue) (l : list env_action) : JobQueue :=
  fold_left env_step l q.

(** One turn of the waiting loop of the dispatcher when it does not
    return: the value that [time.time()] gives for [remaining], and what
    the HTTP workers do while the dispatcher sleeps in
    [self._cv.wait(timeout=remaining)]. *)
Record tick : Type := mkTick {
  clock : Time;
  during_wait : list env_action
}.

(** One turn of the waiting loop of a poller: the clock value, and what
    the other threads, the dispatcher among them, do while the poller
    sleeps: any atomic sections of the queue. *)
Record poll_tick : Type := mkPollTick {
  poll_clock : Time;
  poll_during_wait : list queue_op
}.

(** The [while True] loop of [wait_for_job]. *)
Fixpoint wait_for_job_loop (q : JobQueue) (client_id : string)
  (deadline : Time) (sched : list poll_tick) {struct sched}
  : outcome (option Job * JobQueue) :=
  match take_job q client_id with
  | Some (j, q') => Returns (Some j, q')
  | None =>
      match sched with
      | [] => Blocked
      | tk :: rest =>
          if Qle_bool (deadline - poll_clock tk) 0 then Returns (None, q)
          else wait_for_job_loop (fst (exec q (poll_during_wait tk)))
                                 client_id deadline rest
      end
  end.

(** [wait_for_job]; [now] is the [time.time()] of the deadline. *)
Definition wait_for_job (q : JobQueue) (client_id : string)
  (timeout_sec : Q) (now : Time) (sched : list poll_tick)
  : outcome (option Job * JobQueue) :=
  wait_for_job_loop q client_id (now + timeout_sec) sched.

(** The [while True] loop of [wait_for_result]. *)
Fixpoint wait_for_result_loop (q : JobQueue) (id : string)
  (deadline : Time) (sched : list tick) {struct sched}
  : outcome (option (list (string * json)) * JobQueue) :=
  match take_result q id with
  | Some (r, q') => Returns (Some r, q')
  | None =>
      match sched with
      | [] => Blocked
      | tk :: rest =>
          if Qle_bool (deadline - clock tk) 0 then Returns (None, q)
          else wait_for_result_loop (run_env q (during_wait tk))
                                    id deadline rest
      end
  end.

Definition wait_for_result (q : JobQueue) (id : string)
  (timeout_sec : Q) (now : Time) (sched : list tick)
  : outcome (option (list (string * json)) * JobQueue) :=
  wait_for_result_loop q id (now + timeout_sec) sched.

(* ================================================================== *)
(** ** [RobloxBridgeHttpHandler.do_POST] *)
(* ================================================================== *)

(** What [json.loads(raw.decode("utf-8"))] does with the bytes of a body:
    [decode] raises [UnicodeDecodeError]; [json.loads] raises
    [JSONDecodeError]; [json.loads] raises something else
    ([RecursionError] on nesting beyond the recursion limit, [ValueError]
    on an integer literal beyond the digit limit); or it returns a
    value. *)
Inductive body_decoding : Type :=
| BodyNotUtf8
| BodyNotJson
| BodyLoadsRaises (x : py_exception)
| BodyJson (payload : json).

(** A POST request: the path that [urlparse] finds, and the body; [None]
    is a request without [Content-Length] or with length zero, which the
    handler reads as [b"{}"]. *)
Record post_request : Type := mkPost {
  post_path : string;
  post_body : option body_decoding
}.

(** What [_json_response] sends: the status and the payload that
    [json.dumps] turns into the body. *)
Record http_response : Type := mkResponse {
  status : Z;
  payload : json
}.

Definition error_payload (tag : string) : json :=
  JObject [("ok", JBool false); ("error", JString tag)].

Definition ok_payload : json := JObject [("ok", JBool true)].

(** [do_POST].  Only [JSONDecodeError] is caught: [UnicodeDecodeError]
    and whatever else [json.loads] raises are not; [payload.get] exists on
    a [dict] only; a [list] or [dict] as key of [self._results] is
    unhashable.  An exception leaves the handler without any response. *)
Definition do_POST (q : JobQueue) (rq : post_request)
  : outcome http_response * JobQueue :=
  if negb (post_path rq =? "/result") then
    (Returns (mkResponse 404 (error_payload "not_found")), q)
  else
    let decoded := match post_body rq with
                   | Some d => d
                   | None => BodyJson (JObject [])
                   end in
    match decoded with
    | BodyNotUtf8 => (Raises UnicodeDecodeError, q)
    | BodyNotJson =>
        (Returns (mkResponse 400 (error_payload "invalid_json")), q)
    | BodyLoadsRaises x => (Raises x, q)
    | BodyJson (JObject o) =>
        let id := dict_get "job_id" o in
        if negb (truthy id) then
          (Returns (mkResponse 400 (error_payload "missing_job_id")), q)
        else if hashable id then
          (Returns (mkResponse 200 ok_payload), store_result q id o)
        else (Raises TypeError, q)
    | BodyJson _ => (Raises AttributeError, q)
    end.

(* ================================================================== *)
(** ** The dispatcher: [_tool_result], [_tool_error], [_build_job],
       [_get_connection_status], [McpServer._call_tool] *)
(* ================================================================== *)

Definition DEFAULT_CLIENT_ID : string := "studio".
Definition DEFAULT_POLL_TIMEOUT_SEC : Q := 5.
Definition DEFAULT_JOB_TIMEOUT_SEC : Q := 30.

Definition text_content (text : json) : json :=
  JList [JObject [("type", JString "text"); ("text", text)]].

Definition _tool_result (payload : json) : json :=
  let text := json_dumps_indent2 payload in
  JObject [("content", text_content (JString text))].

Definition _tool_error (message : json) : json :=
  JObject [("isError", JBool true); ("content", text_content message)].

(** The dictionary [tool_to_job] of [_build_job]. *)
Definition tool_to_job : list (string * string) := [
    ("roblox_list_services", "list_services");
    ("roblox_get_children", "get_children");
    ("roblox_get_descendants", "get_descendants");
    ("roblox_get_instance", "get_instance");
    ("roblox_find_instances", "find_instances");
    ("roblox_create_instance", "create_instance");
    ("roblox_delete_instance", "delete_instance");
    ("roblox_clone_instance", "clone_instance");
    ("roblox_reparent_instance", "reparent_instance");
    ("roblox_set_name", "set_name");
    ("roblox_select_instance", "select_instance");
    ("roblox_get_tree", "get_tree");
    ("roblox_get_attributes", "get_attributes");
    ("roblox_set_attributes", "set_attributes");
    ("roblox_get_properties", "get_properties");
    ("roblox_set_properties", "set_properties");
    ("roblox_get_tags", "get_tags");
    ("roblox_add_tag", "add_tag");
    ("roblox_remove_tag", "remove_tag");
    ("roblox_read_script", "read_script");
    ("roblox_write_script", "write_script");
    ("roblox_patch_script", "patch_script");
    ("roblox_get_script_lines", "get_script_lines");
    ("roblox_search_script", "search_script");
    ("roblox_get_script_functions", "get_script_functions");
    ("roblox_search_across_scripts", "search_across_scripts");
    ("roblox_get_selection", "get_selection");
    ("roblox_open_script", "open_script");
    ("roblox_get_open_scripts", "get_open_scripts");
    ("roblox_close_script", "close_script");
    ("roblox_undo", "undo");
    ("roblox_redo", "redo");
    ("roblox_set_waypoint", "set_waypoint");
    ("roblox_get_all_properties", "get_all_properties");
    ("roblox_run_code", "run_code");
    ("roblox_insert_model", "insert_model");
    ("roblox_get_console_output", "get_console_output");
    ("roblox_start_stop_play", "start_stop_play");
    ("roblox_run_script_in_play_mode", "run_script_in_play_mode");
    ("roblox_get_studio_mode", "get_studio_mode");
    ("roblox_terrain_fill_block", "terrain_fill_block");
    ("roblox_terrain_fill_ball", "terrain_fill_ball");
    ("roblox_terrain_fill_cylinder", "terrain_fill_cylinder");
    ("roblox_terrain_replace_material", "terrain_replace_material");
    ("roblox_terrain_read_voxels", "terrain_read_voxels");
    ("roblox_terrain_clear_region", "terrain_clear_region");
    ("roblox_bulk_create_instances", "bulk_create_instances");
    ("roblox_bulk_set_properties", "bulk_set_properties");
    ("roblox_bulk_delete_instances", "bulk_delete_instances");
    ("roblox_find_and_replace_in_scripts", "find_and_replace_in_scripts");
    ("roblox_get_place_info", "get_place_info");
    ("roblox_set_lighting", "set_lighting");
    ("roblox_get_workspace_info", "get_workspace_info");
    ("roblox_get_team_list", "get_team_list");
    ("roblox_get_lighting_effects", "get_lighting_effects")
  ].

Definition is_str (v : json) (s : string) : bool :=
  match v with JString t => (t =? s) | _ => false end.

(** [job_type in {"run_code", "run_script_in_play_mode"}] *)
Definition takes_code (job_type : string) : bool :=
  (job_type =? "run_code") || (job_type =? "run_script_in_play_mode").

(** The aliasing of [_build_job] on the copy of the arguments. *)
Definition alias_code (job_type : string) (job_args : list (string * json))
  : list (string * json) :=
  if takes_code job_type then
    if negb (truthy (dict_get "code" job_args)) then
      dict_set "code"
        (py_or (dict_get "script" job_args) (dict_get "source" job_args))
        job_args
    else job_args
  else job_args.

(** [_build_job]; [hex12] is [uuid.uuid4().hex[:12]] and [now] is
    [time.time()].  The membership test raises on an unhashable name. *)
Definition _build_job (name : json) (arguments : list (string * json))
  (hex12 : string) (now : Time) : outcome (option Job) :=
  let id := "job_" ++ hex12 in
  match name with
  | JList _ | JObject _ => Raises TypeError
  | JString n =>
      match dict_lookup n tool_to_job with
      | None => Returns None
      | Some job_type =>
          Returns (Some (mkJob id job_type (alias_code job_type arguments) now))
      end
  | _ => Returns None
  end.

(** [round(age, 1)]: the nearest multiple of one tenth, ties to the even
    one, as the float that prints with that one decimal. *)
Definition round_half_even (x : Q) : Z :=
  let n := Qnum x in
  let d := Zpos (Qden x) in
  let f := (n / d)%Z in
  let r := (2 * (n mod d))%Z in
  if (r <? d)%Z then f
  else if (d <? r)%Z then (f + 1)%Z
  else if Z.even f then f else (f + 1)%Z.

Fixpoint strip_zeros_rev (ds : list nat) : list nat :=
  match ds with
  | O :: r => strip_zeros_rev r
  | _ => ds
  end.

Definition float_of_tenths (neg : bool) (tenths : Z) : pyfloat :=
  if (tenths =? 0)%Z then FFin neg [0%nat] 1
  else
    let ds := N_digits (Z.to_N (Z.abs tenths)) in
    FFin neg (rev (strip_zeros_rev (rev ds))) (Z.of_nat (length ds) - 1).

Definition round1 (age : Q) : json :=
  JFloat (float_of_tenths (Qlt_bool age 0) (round_half_even (age * 10))).

(** [arguments.get("client_id") or DEFAULT_CLIENT_ID] *)
Definition resolve_client_id (arguments : list (string * json)) : json :=
  py_or (dict_get "client_id" arguments) (JString DEFAULT_CLIENT_ID).

(** [_get_connection_status]; [now] is its [time.time()].  A key of
    [_last_seen] is always a [str] (it comes from a query string), so a
    hashable value of another type finds nothing. *)
Definition _get_connection_status (q : JobQueue) (arguments : json)
  (now : Time) : outcome json :=
  match arguments with
  | JObject a =>
      let client_id := resolve_client_id a in
      if negb (hashable client_id) then Raises TypeError
      else
        let last_seen :=
          match client_id with
          | JString c => get_last_seen q c
          | _ => None
          end in
        match last_seen with
        | None =>
            Returns (JObject [("connected", JBool false);
                              ("client_id", client_id)])
        | Some last =>
            let age := (now - last)%Q in
            Returns (JObject [("connected", JBool (Qlt_bool age 15));
                              ("client_id", client_id);
                              ("last_seen_seconds", round1 age)])
        end
  | _ => Raises AttributeError
  end.

Record McpServer : Type := mkMcpServer {
  job_timeout_sec : Q
}.

(** What one run of [_call_tool] takes from outside: the clock values it
    reads, the random part of the job id, and what the other threads do
    between its atomic sections on the queue. *)
Record call_env : Type := mkCallEnv {
  now_status : Time;                     (* [_get_connection_status] *)
  now_connected : Time;                  (* [is_connected] *)
  hex12 : string;                        (* [uuid.uuid4().hex[:12]] *)
  now_created : Time;                    (* [created_at] *)
  env_before_enqueue : list env_action;  (* after [is_connected] *)
  env_before_wait : list env_action;     (* after [enqueue] *)
  now_wait : Time;                       (* deadline of [wait_for_result] *)
  sched : list tick;                     (* turns of the waiting loop *)
  env_before_cancel : list env_action    (* after a timed out wait *)
}.

Definition msg_not_connected : string :=
  "Studio is not connected. Make sure the Roblox Studio plugin " ++
  "is installed and 'Start Bridge Polling' has been clicked.".

Definition msg_timed_out : string :=
  "Timed out waiting for Studio to respond. " ++
  "Check that the plugin is running and connected.".

(** [McpServer._call_tool] *)
Definition _call_tool (srv : McpServer) (q : JobQueue) (name : json)
  (arguments : json) (e : call_env) : outcome json * JobQueue :=
  if is_str name "studio_get_connection_status" then
    match _get_connection_status q arguments (now_status e) with
    | Returns st => (Returns (_tool_result st), q)
    | Raises x => (Raises x, q)
    | Blocked => (Blocked, q)
    end
  else
    match arguments with
    | JObject a =>
        let client_id := resolve_client_id a in
        if negb (hashable client_id) then (Raises TypeError, q)
        else
          match client_id with
          | JString c =>
              if negb (is_connected q c 15 (now_connected e)) then
                (Returns (_tool_error (JString msg_not_connected)), q)
              else
                let q0 := run_env q (env_before_enqueue e) in
                match _build_job name a (hex12 e) (now_created e) with
                | Raises x => (Raises x, q0)
                | Blocked => (Blocked, q0)
                | Returns None =>
                    (* a name that is a container has raised above *)
                    match py_str name with
                    | Some s =>
                        (Returns (_tool_error
                                    (JString ("Unknown tool: " ++ s))), q0)
                    | None => (Raises TypeError, q0)
                    end
                | Returns (Some job) =>
                    let id := job_id job in
                    let q1 := run_env (enqueue q0 c job) (env_before_wait e) in
                    match wait_for_result q1 id (job_timeout_sec srv)
                            (now_wait e) (sched e) with
                    | Blocked => (Blocked, q1)
                    | Raises x => (Raises x, q1)
                    | Returns (None, q2) =>
                        let q3 := run_env q2 (env_before_cancel e) in
                        (Returns (_tool_error (JString msg_timed_out)),
                         snd (cancel_job q3 id))
                    | Returns (Some result, q2) =>
                        if negb (truthy (dict_get_default "ok" (JBool false)
                                           result)) then
                          (Returns (_tool_error
                                      (py_or (dict_get "error" result)
                                             (JString "Studio error"))),
                           q2)
                        else
                          (Returns (_tool_result (dict_get "result" result)),
                           q2)
                    end
                end
          | _ => (Returns (_tool_error (JString msg_not_connected)), q)
          end
    | _ => (Raises AttributeError, q)
    end.

(* ================================================================== *)
(** ** The stdio transport: [McpServer._send], [_handle_request], [run] *)
(* ================================================================== *)

(** One line of standard input after [line.strip()] and [json.loads]:
    blank; rejected with [JSONDecodeError]; making [json.loads] raise
    something else ([RecursionError] on nesting beyond the recursion
    limit, [ValueError] on an integer literal beyond the digit limit); or
    decoded to a value. *)
Inductive stdin_line : Type :=
| LineBlank
| LineNotJson
| LineLoadsRaises (x : py_exception)
| LineJson (msg : json).

(** ["method" in msg]: a key test on a [dict], a substring test on a
    [str], an element test on a [list]; any other value is not iterable. *)
Definition has_method (msg : json) : outcome bool :=
  match msg with
  | JObject o => Returns (dict_mem "method" o)
  | JString s =>
      Returns (match index 0 "method" s with Some _ => true | None => false end)
  | JList l => Returns (existsb (fun v => is_str v "method") l)
  | _ => Raises TypeError
  end.

Definition initialize_result : json :=
  JObject [("protocolVersion", JString "2024-11-05");
           ("serverInfo", JObject [("name", JString "roblox-mcp-bridge");
                                   ("version", JString "0.6")]);
           ("capabilities", JObject [("tools", JObject [])])].

Definition rpc_result (msg_id result : json) : json :=
  JObject [("jsonrpc", JString "2.0"); ("id", msg_id); ("result", result)].

Definition rpc_method_not_found (msg_id : json) : json :=
  JObject [("jsonrpc", JString "2.0"); ("id", msg_id);
           ("error", JObject [("code", JInt (-32601));
                              ("message", JString "Method not found")])].

Section Stdio.

(** The value of [_build_tools()]: a constant list of tool descriptors
    (lines 417 to 1108 of the source), which nothing below looks into. *)
Variable tools : json.

Variable srv : McpServer.

(** Standard output is the list of the payloads given to [_send], each
    of which it writes as one line; the newest is first. *)
Definition _send (out : list json) (payload : json) : list json :=
  payload :: out.

(** [_handle_request] on a message; the result is what happened, the
    standard output and the queue. *)
Definition _handle_request (q : JobQueue) (out : list json) (msg : json)
  (e : call_env) : outcome unit * list json * JobQueue :=
  match msg with
  | JObject m =>
      let method := dict_get "method" m in
      let msg_id := dict_get "id" m in
      if is_str method "initialize" then
        (Returns tt, _send out (rpc_result msg_id initialize_result), q)
      else if is_str method "notifications/initialized" then
        (Returns tt, out, q)
      else if is_str method "tools/list" then
        (Returns tt,
         _send out (rpc_result msg_id (JObject [("tools", tools)])), q)
      else if is_str method "tools/call" then
        match py_or (dict_get "params" m) (JObject []) with
        | JObject params =>
            let name := dict_get "name" params in
            let arguments :=
              py_or (dict_get "arguments" params) (JObject []) in
            match _call_tool srv q name arguments e with
            | (Returns result, q') =>
                (Returns tt, _send out (rpc_result msg_id result), q')
            | (Raises x, q') => (Raises x, out, q')
            | (Blocked, q') => (Blocked, out, q')
            end
        | _ => (Raises AttributeError, out, q)
        end
      else
        match msg_id with
        | JNull => (Returns tt, out, q)
        | _ => (Returns tt, _send out (rpc_method_not_found msg_id), q)
        end
  | _ => (Raises AttributeError, out, q)
  end.

(** The body of the [for line in sys.stdin] loop of [run]; only
    [JSONDecodeError] is caught. *)
Definition run_line (q : JobQueue) (out : list json) (line : stdin_line)
  (e : call_env) : outcome unit * list json * JobQueue :=
  match line with
  | LineBlank => (Returns tt, out, q)
  | LineNotJson => (Returns tt, out, q)
  | LineLoadsRaises x => (Raises x, out, q)
  | LineJson msg =>
      match has_method msg with
      | Returns true => _handle_request q out msg e
      | Returns false => (Returns tt, out, q)
      | Raises x => (Raises x, out, q)
      | Blocked => (Blocked, out, q)
      end
  end.

(** [McpServer.run]: an exception ends the loop, and with it the lines
    that follow are never read. *)
Fixpoint run (q : JobQueue) (out : list json)
  (lines : list (stdin_line * call_env))
  : outcome unit * list json * JobQueue :=
  match lines with
  | [] => (Returns tt, out, q)
  | (line, e) :: rest =>
      match run_line q out line e with
      | (Returns _, out', q') => run q' out' rest
      | stopped => stopped
      end
  end.

End Stdio.

(* ================================================================== *)
(** ** Vocabulary of the statements *)
(* ================================================================== *)

(** Successive calls of [wait_for_job] on one client, each with its own
    timeout, clock and schedule; the list of what they return. *)
Fixpoint successive_waits (q : JobQueue) (client_id : string)
  (calls : list (Q * Time * list poll_tick))
  : list (outcome (option Job)) :=
  match calls with
  | [] => []
  | (timeout_sec, now, sched) :: rest =>
      match wait_for_job q client_id timeout_sec now sched with
      | Returns (r, q') => Returns r :: successive_waits q' client_id rest
      | Raises x => [Raises x]
      | Blocked => [Blocked]
      end
  end.

(** An action of another thread that fills the result slot of [id]. *)
Definition stores_for (id : string) (a : env_action) : bool :=
  match a with
  | EnvStoreResult k _ => py_key_eqb (JString id) k
  | _ => false
  end.

Definition quiet_for (id : string) (l : list env_action) : bool :=
  forallb (fun a => negb (stores_for id a)) l.

(** No turn of the schedule stores a result for [id]. *)
Definition no_store_for (id : string) (sched : list tick) : bool :=
  forallb (fun tk => quiet_for id (during_wait tk)) sched.

(** Some turn of the schedule reads a clock at or past the deadline. *)
Definition expires (deadline : Time) (sched : list tick) : bool :=
  existsb (fun tk => Qle_bool (deadline - clock tk) 0) sched.

(** Number of jobs with this id in a queue, and in all the mailboxes. *)
Definition count_in_queue (id : string) (queue : list Job) : nat :=
  length (filter (fun j => job_id j =? id) queue).

Fixpoint count_pending (id : string) (p : list (string * list Job)) : nat :=
  match p with
  | [] => O
  | (_, queue) :: r => (count_in_queue id queue + count_pending id r)%nat
  end.

(** A scan of the pending mailboxes for a job with this id. *)
Definition pending_has (q : JobQueue) (id : string) : bool :=
  existsb (fun cq => existsb (fun j => job_id j =? id) (snd cq)) (_pending q).

(** The queue on which [_call_tool] starts its [wait_for_result]: the
    job is enqueued, and other threads have run before and after that. *)
Definition queue_at_wait (q : JobQueue) (c : string) (job : Job)
  (e : call_env) : JobQueue :=
  run_env (enqueue (run_env q (env_before_enqueue e)) c job)
          (env_before_wait e).

(** The envelopes, written out. *)
Definition success_envelope (text : string) : json :=
  JObject [("content",
            JList [JObject [("type", JString "text");
                            ("text", JString text)]])].

Definition error_envelope (text : string) : json :=
  JObject [("isError", JBool true);
           ("content",
            JList [JObject [("type", JString "text");
                            ("text", JString text)]])].

Definition dq : string := String (ascii_of_nat 34) EmptyString.

(** A [POST /result] with this JSON value as body. *)
Definition post_result (v : json) : post_request :=
  mkPost "/result" (Some (BodyJson v)).

(** Arguments with an empty [script] next to a [source]. *)
Definition args_empty_script : list (string * json) :=
  [("script", JString EmptyString); ("source", JString "print(2)")].

(** A body that has a [job_id] field, holding the empty string. *)
Definition body_empty_job_id : json :=
  JObject [("job_id", JString EmptyString); ("ok", JBool true)].

(** A well-formed result for a job id that no call has minted. *)
Definition body_never_minted : list (string * json) :=
  [("job_id", JString "job_never_minted"); ("ok", JBool true);
   ("result", JInt 1)].

(** Messages without an [id]. *)
Definition initialize_notification : json :=
  JObject [("jsonrpc", JString "2.0"); ("method", JString "initialize")].

Definition tools_list_notification : json :=
  JObject [("jsonrpc", JString "2.0"); ("method", JString "tools/list")].

Definition status_call_notification : json :=
  JObject [("jsonrpc", JString "2.0"); ("method", JString "tools/call");
           ("params",
            JObject [("name", JString "studio_get_connection_status")])].

(** Order-preserving sublists: [sublist l1 l2] when [l1] is [l2] with
    some elements left out. *)
Inductive sublist {A : Type} : list A -> list A -> Prop :=
| sublist_nil : sublist [] []
| sublist_skip (x : A) (l1 l2 : list A) :
    sublist l1 l2 -> sublist l1 (x :: l2)
| sublist_cons (x : A) (l1 l2 : list A) :
    sublist l1 l2 -> sublist (x :: l1) (x :: l2).

Definition delivered_to (c : string) (log : list (string * Job))
  : list Job :=
  map snd (filter (fun d => fst d =? c) log).

Fixpoint enqueued_for (c : string) (ops : list queue_op) : list Job :=
  match ops with
  | [] => []
  | OpEnqueue c' j :: rest =>
      if c' =? c then j :: enqueued_for c rest else enqueued_for c rest
  | _ :: rest => enqueued_for c rest
  end.

(* ================================================================== *)
(** ** [RobloxBridgeHttpHandler.do_GET] *)
(* ================================================================== *)

(** [RobloxBridgeHttpServer]: what a handler reads of its server. *)
Record HttpServer : Type := mkHttpServer {
  poll_timeout_sec : Q
}.

(** A GET request: the path that [urlparse] finds, and the list that
    [parse_qs] holds under [client_id] (empty when the query has no such
    parameter, or only blank ones). *)
Record get_request : Type := mkGet {
  get_path : string;
  get_client_ids : list string
}.

(** What one run of [do_GET] takes from outside: its clock values, what
    the other threads (workers and dispatcher) do between [mark_seen] and
    [wait_for_job], and the turns of the waiting loop. *)
Record get_env : Type := mkGetEnv {
  now_seen : Time;                     (* [mark_seen] *)
  env_before_poll : list queue_op;     (* after [mark_seen] *)
  now_poll : Time;                     (* deadline of [wait_for_job] *)
  poll_sched : list poll_tick;         (* turns of the waiting loop *)
  now_reply : Time                     (* [server_time], [uptime] *)
}.

(** The payloads of [do_GET], by endpoint. *)
Inductive get_payload : Type :=
| PollPayload (job : option Job)     (* [{"ok": True, "job": job}] *)
| PingPayload (server_time : Time)   (* [{"ok": True, "server_time": t}] *)
| HealthPayload (uptime : Time)      (* [{"ok": True, "uptime": t}] *)
| NotFoundPayload.                   (* [{"ok": False, "error": "not_found"}] *)

Record get_response : Type := mkGetResponse {
  get_status : Z;
  get_body : get_payload
}.

(** [(qs.get("client_id") or [DEFAULT_CLIENT_ID])[0]] *)
Definition query_client_id (rq : get_request) : string :=
  match get_client_ids rq with
  | c :: _ => c
  | [] => DEFAULT_CLIENT_ID
  end.

(** [do_GET] *)
Definition do_GET (hs : HttpServer) (q : JobQueue) (rq : get_request)
  (e : get_env) : outcome get_response * JobQueue :=
  if get_path rq =? "/poll" then
    let client_id := query_client_id rq in
    let q1 := fst (exec (mark_seen q client_id (now_seen e))
                        (env_before_poll e)) in
    match wait_for_job q1 client_id (poll_timeout_sec hs) (now_poll e)
            (poll_sched e) with
    | Returns (job, q2) => (Returns (mkGetResponse 200 (PollPayload job)), q2)
    | Raises x => (Raises x, q1)
    | Blocked => (Blocked, q1)
    end
  else if get_path rq =? "/ping" then
    let client_id := query_client_id rq in
    (Returns (mkGetResponse 200 (PingPayload (now_reply e))),
     mark_seen q client_id (now_seen e))
  else if get_path rq =? "/health" then
    (Returns (mkGetResponse 200 (HealthPayload (now_reply e))), q)
  else
    (Returns (mkGetResponse 404 NotFoundPayload), q).

(* ================================================================== *)
(** ** The tool catalog: [_ref_schema], [_build_tools] *)
(* ================================================================== *)

(** [d.update(extra)] *)
Definition dict_update (d extra : list (string * json))
  : list (string * json) :=
  fold_left (fun acc kv => dict_set (fst kv) (snd kv) acc) extra d.

(** [_INSTANCE_REF_PROPS] *)
Definition _INSTANCE_REF_PROPS : list (string * json) :=
  [
    ("path", JObject [
       ("type", JString "string");
       ("description", JString "Dot-separated path, e.g. 'Workspace.Baseplate'.")]);
    ("pathArray", JObject [
       ("type", JString "array");
       ("items", JObject [("type", JString "string")]);
       ("description", JString "Path as array of names, e.g. ['Workspace','Baseplate'].")]);
    ("id", JObject [
       ("type", JString "string");
       ("description", JString "Debug id returned by a previous call.")]);
    ("client_id", JObject [("type", JString "string")])].

(** [_REGION_PROPS] *)
Definition _REGION_PROPS : list (string * json) :=
  [
    ("regionMin", JObject [
       ("type", JString "object");
       ("description", JString ("{" ++ dq ++ "x" ++ dq ++ ":0," ++ dq ++ "y" ++ dq ++ ":0," ++ dq ++ "z" ++ dq ++ ":0} minimum corner of the region."))]);
    ("regionMax", JObject [
       ("type", JString "object");
       ("description", JString ("{" ++ dq ++ "x" ++ dq ++ ":100," ++ dq ++ "y" ++ dq ++ ":50," ++ dq ++ "z" ++ dq ++ ":100} maximum corner."))]);
    ("resolution", JObject [
       ("type", JString "integer");
       ("description", JString "Voxel resolution in studs (multiple of 4, default 4).")]);
    ("client_id", JObject [("type", JString "string")])].


(** [_ref_schema]; an argument left out is [None]. *)
Definition _ref_schema (extra_props : option (list (string * json)))
  (required : option (list json)) : json :=
  let props := _INSTANCE_REF_PROPS in
  let props := match extra_props with
               | Some ((_ :: _) as extra) => dict_update props extra
               | _ => props
               end in
  let schema := [("type", JString "object"); ("properties", JObject props)] in
  match required with
  | Some ((_ :: _) as req) => JObject (dict_set "required" (JList req) schema)
  | _ => JObject schema
  end.

(** [_build_tools()] *)
Definition _build_tools : list json := [
  JObject [
    ("name", JString "studio_get_connection_status");
    ("description", JString "Check if the Roblox Studio plugin is connected to the bridge.");
    ("inputSchema", JObject [
       ("type", JString "object");
       ("properties", JObject [("client_id", JObject [("type", JString "string")])])])];
  JObject [
    ("name", JString "roblox_list_services");
    ("description", JString "List top-level services in the current place.");
    ("inputSchema", JObject [
       ("type", JString "object");
       ("properties", JObject [("client_id", JObject [("type", JString "string")])])])];
  JObject [
    ("name", JString "roblox_get_children");
    ("description", JString "Get the direct children of an instance.");
    ("inputSchema", _ref_schema None None)];
  JObject [
    ("name", JString "roblox_get_descendants");
    ("description", JString "Get all descendants of an instance. Can be large - prefer get_tree for an overview.");
    ("inputSchema", _ref_schema None None)];
  JObject [
    ("name", JString "roblox_get_instance");
    ("description", JString "Get info (name, className, fullName) for a single instance.");
    ("inputSchema", _ref_schema None None)];
  JObject [
    ("name", JString "roblox_find_instances");
    ("description", JString "Find instances matching name, className, and/or tag under an ancestor.");
    ("inputSchema", JObject [
       ("type", JString "object");
       ("properties", JObject [
          ("name", JObject [
             ("type", JString "string");
             ("description", JString "Exact Name match.")]);
          ("className", JObject [
             ("type", JString "string");
             ("description", JString "Exact ClassName match.")]);
          ("tag", JObject [
             ("type", JString "string");
             ("description", JString "Must have this CollectionService tag.")]);
          ("ancestorPath", JObject [("type", JString "string")]);
          ("ancestorPathArray", JObject [
             ("type", JString "array");
             ("items", JObject [("type", JString "string")])]);
          ("client_id", JObject [("type", JString "string")])])])];
  JObject [
    ("name", JString "roblox_get_tree");
    ("description", JString "Get a compact recursive tree of an instance hierarchy. Returns name, className, and for scripts the line count. Use maxDepth to limit depth (default 5) and maxChildren to cap children per node (default 50).");
    ("inputSchema", _ref_schema (Some [
           ("maxDepth", JObject [
              ("type", JString "integer");
              ("description", JString "Max tree depth (default 5).")]);
           ("maxChildren", JObject [
              ("type", JString "integer");
              ("description", JString "Max children per node (default 50).")])]) None)];
  JObject [
    ("name", JString "roblox_create_instance");
    ("description", JString "Create a new instance. Set properties (including Name, Source for scripts) via the properties dict. Supports rich types via _type objects.");
    ("inputSchema", JObject [
       ("type", JString "object");
       ("properties", JObject [
          ("className", JObject [("type", JString "string")]);
          ("parentPath", JObject [("type", JString "string")]);
          ("parentPathArray", JObject [
             ("type", JString "array");
             ("items", JObject [("type", JString "string")])]);
          ("properties", JObject [
             ("type", JString "object");
             ("description", JString "Key/value map of properties to set. Use _type objects for rich types.")]);
          ("client_id", JObject [("type", JString "string")])]);
       ("required", JList [JString "className"])])];
  JObject [
    ("name", JString "roblox_delete_instance");
    ("description", JString "Destroy an instance and all its descendants. Undoable via Ctrl+Z.");
    ("inputSchema", _ref_schema None None)];
  JObject [
    ("name", JString "roblox_clone_instance");
    ("description", JString "Clone an instance (and its descendants). Optionally place under a new parent and rename. Undoable.");
    ("inputSchema", _ref_schema (Some [
           ("newParentPath", JObject [("type", JString "string")]);
           ("newParentPathArray", JObject [
              ("type", JString "array");
              ("items", JObject [("type", JString "string")])]);
           ("newName", JObject [
              ("type", JString "string");
              ("description", JString "Rename the clone.")])]) None)];
  JObject [
    ("name", JString "roblox_reparent_instance");
    ("description", JString "Move an instance to a new parent. Undoable.");
    ("inputSchema", _ref_schema (Some [
           ("newParentPath", JObject [("type", JString "string")]);
           ("newParentPathArray", JObject [
              ("type", JString "array");
              ("items", JObject [("type", JString "string")])])]) (Some [JString "newParentPath"]))];
  JObject [
    ("name", JString "roblox_set_name");
    ("description", JString "Rename an instance. Undoable.");
    ("inputSchema", _ref_schema (Some [("name", JObject [("type", JString "string")])]) (Some [JString "name"]))];
  JObject [
    ("name", JString "roblox_select_instance");
    ("description", JString "Select an instance in the Studio Explorer (for visibility).");
    ("inputSchema", _ref_schema None None)];
  JObject [
    ("name", JString "roblox_get_selection");
    ("description", JString "Get the instances currently selected in the Studio Explorer.");
    ("inputSchema", JObject [
       ("type", JString "object");
       ("properties", JObject [("client_id", JObject [("type", JString "string")])])])];
  JObject [
    ("name", JString "roblox_get_properties");
    ("description", JString "Read specific properties from an instance. Returns rich type objects with _type field for complex types (Color3, Vector3, CFrame, UDim2, BrickColor, EnumItem, etc.).");
    ("inputSchema", _ref_schema (Some [
           ("properties", JObject [
              ("type", JString "array");
              ("items", JObject [("type", JString "string")]);
              ("description", JString "Property names to read.")])]) (Some [JString "properties"]))];
  JObject [
    ("name", JString "roblox_set_properties");
    ("description", JString ("Set properties on an instance. Undoable. For complex types, use _type objects: {" ++ dq ++ "_type" ++ dq ++ ":" ++ dq ++ "Color3" ++ dq ++ "," ++ dq ++ "r" ++ dq ++ ":255," ++ dq ++ "g" ++ dq ++ ":0," ++ dq ++ "b" ++ dq ++ ":0}, {" ++ dq ++ "_type" ++ dq ++ ":" ++ dq ++ "Vector3" ++ dq ++ "," ++ dq ++ "x" ++ dq ++ ":1," ++ dq ++ "y" ++ dq ++ ":2," ++ dq ++ "z" ++ dq ++ ":3}, etc."));
    ("inputSchema", _ref_schema (Some [
           ("properties", JObject [
              ("type", JString "object");
              ("description", JString "Key/value map of properties to set. Use _type objects for rich types.")])]) (Some [JString "properties"]))];
  JObject [
    ("name", JString "roblox_get_attributes");
    ("description", JString "Get all custom attributes on an instance. Returns rich type objects for complex attribute values.");
    ("inputSchema", _ref_schema None None)];
  JObject [
    ("name", JString "roblox_set_attributes");
    ("description", JString "Set custom attributes on an instance. Undoable. Supports rich type objects.");
    ("inputSchema", _ref_schema (Some [("attributes", JObject [("type", JString "object")])]) (Some [JString "attributes"]))];
  JObject [
    ("name", JString "roblox_get_tags");
    ("description", JString "Get all CollectionService tags on an instance.");
    ("inputSchema", _ref_schema None None)];
  JObject [
    ("name", JString "roblox_add_tag");
    ("description", JString "Add a CollectionService tag to an instance. Undoable.");
    ("inputSchema", _ref_schema (Some [("tag", JObject [("type", JString "string")])]) (Some [JString "tag"]))];
  JObject [
    ("name", JString "roblox_remove_tag");
    ("description", JString "Remove a CollectionService tag from an instance. Undoable.");
    ("inputSchema", _ref_schema (Some [("tag", JObject [("type", JString "string")])]) (Some [JString "tag"]))];
  JObject [
    ("name", JString "roblox_read_script");
    ("description", JString "Read the full Source of a Script/LocalScript/ModuleScript. For large scripts prefer get_script_lines to read a specific range.");
    ("inputSchema", _ref_schema None None)];
  JObject [
    ("name", JString "roblox_write_script");
    ("description", JString "Overwrite the full Source of a script. Undoable. WARNING: For partial edits use patch_script instead.");
    ("inputSchema", _ref_schema (Some [("source", JObject [("type", JString "string")])]) (Some [JString "source"]))];
  JObject [
    ("name", JString "roblox_patch_script");
    ("description", JString "Apply line-based patches to a script without rewriting the entire source. Undoable. Ops: insert, replace, delete, append, prepend. ALWAYS provide expectedContent for replace/delete and expectedContext for insert.");
    ("inputSchema", _ref_schema (Some [
           ("patches", JObject [
              ("type", JString "array");
              ("items", JObject [
                 ("type", JString "object");
                 ("properties", JObject [
                    ("op", JObject [
                       ("type", JString "string");
                       ("enum", JList [
                          JString "insert";
                          JString "replace";
                          JString "delete";
                          JString "append";
                          JString "prepend"])]);
                    ("lineStart", JObject [("type", JString "integer")]);
                    ("lineEnd", JObject [("type", JString "integer")]);
                    ("content", JObject [("type", JString "string")]);
                    ("expectedContent", JObject [("type", JString "string")]);
                    ("expectedContext", JObject [("type", JString "string")])]);
                 ("required", JList [JString "op"])])])]) (Some [JString "patches"]))];
  JObject [
    ("name", JString "roblox_get_script_lines");
    ("description", JString "Read a specific line range from a script. Omit startLine/endLine to get line count only.");
    ("inputSchema", _ref_schema (Some [
           ("startLine", JObject [("type", JString "integer")]);
           ("endLine", JObject [("type", JString "integer")])]) None)];
  JObject [
    ("name", JString "roblox_search_script");
    ("description", JString "Search a script's source for a string or Lua pattern.");
    ("inputSchema", _ref_schema (Some [
           ("query", JObject [("type", JString "string")]);
           ("usePattern", JObject [("type", JString "boolean")]);
           ("caseSensitive", JObject [("type", JString "boolean")]);
           ("contextLines", JObject [("type", JString "integer")]);
           ("maxResults", JObject [("type", JString "integer")])]) (Some [JString "query"]))];
  JObject [
    ("name", JString "roblox_get_script_functions");
    ("description", JString "List all function definitions in a script with line numbers and types.");
    ("inputSchema", _ref_schema None None)];
  JObject [
    ("name", JString "roblox_search_across_scripts");
    ("description", JString "Search ALL scripts under an ancestor for a query string.");
    ("inputSchema", JObject [
       ("type", JString "object");
       ("properties", JObject [
          ("query", JObject [("type", JString "string")]);
          ("ancestorPath", JObject [("type", JString "string")]);
          ("ancestorPathArray", JObject [
             ("type", JString "array");
             ("items", JObject [("type", JString "string")])]);
          ("usePattern", JObject [("type", JString "boolean")]);
          ("caseSensitive", JObject [("type", JString "boolean")]);
          ("maxScripts", JObject [("type", JString "integer")]);
          ("maxMatchesPerScript", JObject [("type", JString "integer")]);
          ("client_id", JObject [("type", JString "string")])]);
       ("required", JList [JString "query"])])];
  JObject [
    ("name", JString "roblox_run_code");
    ("description", JString "Execute arbitrary Lua code within Studio and return a serialized result.");
    ("inputSchema", JObject [
       ("type", JString "object");
       ("properties", JObject [
          ("code", JObject [("type", JString "string")]);
          ("client_id", JObject [("type", JString "string")])]);
       ("required", JList [JString "code"])])];
  JObject [
    ("name", JString "roblox_insert_model");
    ("description", JString "Insert a Marketplace asset into Workspace using InsertService.");
    ("inputSchema", JObject [
       ("type", JString "object");
       ("properties", JObject [
          ("assetId", JObject [("type", JString "string")]);
          ("client_id", JObject [("type", JString "string")])]);
       ("required", JList [JString "assetId"])])];
  JObject [
    ("name", JString "roblox_get_console_output");
    ("description", JString "Read the buffered Studio Output log captured by the plugin.");
    ("inputSchema", JObject [
       ("type", JString "object");
       ("properties", JObject [
          ("since", JObject [("type", JString "number")]);
          ("maxEntries", JObject [("type", JString "integer")]);
          ("client_id", JObject [("type", JString "string")])])])];
  JObject [
    ("name", JString "roblox_start_stop_play");
    ("description", JString "Switch Studio between Edit, Play, Run, or Test modes.");
    ("inputSchema", JObject [
       ("type", JString "object");
       ("properties", JObject [
          ("mode", JObject [("type", JString "string")]);
          ("action", JObject [("type", JString "string")]);
          ("client_id", JObject [("type", JString "string")])]);
       ("required", JList [JString "mode"])])];
  JObject [
    ("name", JString "roblox_get_studio_mode");
    ("description", JString "Query the current Studio run mode and whether play mode is active.");
    ("inputSchema", JObject [
       ("type", JString "object");
       ("properties", JObject [("client_id", JObject [("type", JString "string")])])])];
  JObject [
    ("name", JString "roblox_run_script_in_play_mode");
    ("description", JString "Run a Lua snippet while Studio is in Play or Run mode.");
    ("inputSchema", JObject [
       ("type", JString "object");
       ("properties", JObject [
          ("code", JObject [("type", JString "string")]);
          ("client_id", JObject [("type", JString "string")])]);
       ("required", JList [JString "code"])])];
  JObject [
    ("name", JString "roblox_open_script");
    ("description", JString "Open a script in the Studio script editor tab and optionally navigate to a line.");
    ("inputSchema", _ref_schema (Some [("line", JObject [("type", JString "integer")])]) None)];
  JObject [
    ("name", JString "roblox_get_open_scripts");
    ("description", JString "List all scripts currently open in the Studio script editor.");
    ("inputSchema", JObject [
       ("type", JString "object");
       ("properties", JObject [("client_id", JObject [("type", JString "string")])])])];
  JObject [
    ("name", JString "roblox_close_script");
    ("description", JString "Close a script's tab in the Studio script editor.");
    ("inputSchema", _ref_schema None None)];
  JObject [
    ("name", JString "roblox_undo");
    ("description", JString "Undo the last action in Studio. Equivalent to Ctrl+Z.");
    ("inputSchema", JObject [
       ("type", JString "object");
       ("properties", JObject [("client_id", JObject [("type", JString "string")])])])];
  JObject [
    ("name", JString "roblox_redo");
    ("description", JString "Redo the last undone action in Studio. Equivalent to Ctrl+Y.");
    ("inputSchema", JObject [
       ("type", JString "object");
       ("properties", JObject [("client_id", JObject [("type", JString "string")])])])];
  JObject [
    ("name", JString "roblox_set_waypoint");
    ("description", JString "Set a named undo/redo waypoint.");
    ("inputSchema", JObject [
       ("type", JString "object");
       ("properties", JObject [
          ("name", JObject [("type", JString "string")]);
          ("client_id", JObject [("type", JString "string")])])])];
  JObject [
    ("name", JString "roblox_get_all_properties");
    ("description", JString "Read ALL properties from an instance using ReflectionService. Returns every readable, non-deprecated property with its current value.");
    ("inputSchema", _ref_schema None None)];
  JObject [
    ("name", JString "roblox_terrain_fill_block");
    ("description", JString "Fill a box-shaped volume with a terrain material. Undoable. cframe specifies the centre (position + optional rotation). size specifies the bounding box in studs. Common materials: Grass, Rock, Water, Sand, Snow, Ground, Mud, Asphalt, Brick, Concrete, Ice, Salt, Sandstone, Slate, SmoothPlastic, WoodPlanks.");
    ("inputSchema", JObject [
       ("type", JString "object");
       ("properties", JObject [
          ("cframe", JObject [
             ("type", JString "object");
             ("description", JString ("Position as {" ++ dq ++ "x" ++ dq ++ ":0," ++ dq ++ "y" ++ dq ++ ":0," ++ dq ++ "z" ++ dq ++ ":0} or full 12-component CFrame {" ++ dq ++ "components" ++ dq ++ ":[…]}."))]);
          ("size", JObject [
             ("type", JString "object");
             ("description", JString ("{" ++ dq ++ "x" ++ dq ++ ":10," ++ dq ++ "y" ++ dq ++ ":5," ++ dq ++ "z" ++ dq ++ ":10} in studs."))]);
          ("material", JObject [
             ("type", JString "string");
             ("description", JString "Terrain material name.")]);
          ("client_id", JObject [("type", JString "string")])]);
       ("required", JList [JString "cframe"; JString "size"; JString "material"])])];
  JObject [
    ("name", JString "roblox_terrain_fill_ball");
    ("description", JString "Fill a sphere of terrain material at a given centre and radius. Undoable.");
    ("inputSchema", JObject [
       ("type", JString "object");
       ("properties", JObject [
          ("center", JObject [
             ("type", JString "object");
             ("description", JString ("{" ++ dq ++ "x" ++ dq ++ ":0," ++ dq ++ "y" ++ dq ++ ":0," ++ dq ++ "z" ++ dq ++ ":0}"))]);
          ("radius", JObject [
             ("type", JString "number");
             ("description", JString "Radius in studs.")]);
          ("material", JObject [("type", JString "string")]);
          ("client_id", JObject [("type", JString "string")])]);
       ("required", JList [JString "center"; JString "radius"; JString "material"])])];
  JObject [
    ("name", JString "roblox_terrain_fill_cylinder");
    ("description", JString "Fill a cylinder of terrain material. Undoable. The cylinder axis is aligned with the CFrame's Y axis.");
    ("inputSchema", JObject [
       ("type", JString "object");
       ("properties", JObject [
          ("cframe", JObject [
             ("type", JString "object");
             ("description", JString ("Centre of the cylinder {" ++ dq ++ "x" ++ dq ++ ":0," ++ dq ++ "y" ++ dq ++ ":0," ++ dq ++ "z" ++ dq ++ ":0}."))]);
          ("height", JObject [
             ("type", JString "number");
             ("description", JString "Height of the cylinder in studs.")]);
          ("radius", JObject [
             ("type", JString "number");
             ("description", JString "Radius of the cylinder in studs.")]);
          ("material", JObject [("type", JString "string")]);
          ("client_id", JObject [("type", JString "string")])]);
       ("required", JList [
          JString "cframe";
          JString "height";
          JString "radius";
          JString "material"])])];
  JObject [
    ("name", JString "roblox_terrain_replace_material");
    ("description", JString "Replace every voxel of one terrain material with another inside a Region3. Undoable. Great for large-scale reskins, e.g. swap all Sand → Ground across a level.");
    ("inputSchema", JObject [
       ("type", JString "object");
       ("properties", JObject (dict_update _REGION_PROPS
          [
          ("from", JObject [
             ("type", JString "string");
             ("description", JString "Material to replace (e.g. Sand).")]);
          ("to", JObject [
             ("type", JString "string");
             ("description", JString "Replacement material (e.g. Ground).")])]));
       ("required", JList [
          JString "regionMin";
          JString "regionMax";
          JString "from";
          JString "to"])])];
  JObject [
    ("name", JString "roblox_terrain_read_voxels");
    ("description", JString "Read terrain voxel data (material + occupancy) from a region. For regions ≤4096 voxels: returns full per-voxel list. For larger regions: returns a material-frequency summary only. Use a higher resolution (16 or 32) to sample large areas without hitting the limit.");
    ("inputSchema", JObject [
       ("type", JString "object");
       ("properties", JObject _REGION_PROPS);
       ("required", JList [JString "regionMin"; JString "regionMax"])])];
  JObject [
    ("name", JString "roblox_terrain_clear_region");
    ("description", JString "Remove all terrain (fill with Air) within a Region3. Undoable.");
    ("inputSchema", JObject [
       ("type", JString "object");
       ("properties", JObject [
          ("regionMin", JObject [("type", JString "object")]);
          ("regionMax", JObject [("type", JString "object")]);
          ("client_id", JObject [("type", JString "string")])]);
       ("required", JList [JString "regionMin"; JString "regionMax"])])];
  JObject [
    ("name", JString "roblox_bulk_create_instances");
    ("description", JString "Create up to 200 instances in a single round-trip, all in one undo waypoint. Each entry needs className; optionally parentPath/parentPathArray and a properties dict that supports _type rich-type objects. Much faster than calling create_instance N times for large batch work.");
    ("inputSchema", JObject [
       ("type", JString "object");
       ("properties", JObject [
          ("instances", JObject [
             ("type", JString "array");
             ("maxItems", JInt 200);
             ("description", JString "Array of instance specs to create.");
             ("items", JObject [
                ("type", JString "object");
                ("properties", JObject [
                   ("className", JObject [("type", JString "string")]);
                   ("parentPath", JObject [("type", JString "string")]);
                   ("parentPathArray", JObject [
                      ("type", JString "array");
                      ("items", JObject [("type", JString "string")])]);
                   ("properties", JObject [("type", JString "object")])]);
                ("required", JList [JString "className"])])]);
          ("client_id", JObject [("type", JString "string")])]);
       ("required", JList [JString "instances"])])];
  JObject [
    ("name", JString "roblox_bulk_set_properties");
    ("description", JString "Set properties on up to 200 instances in one round-trip, wrapped in one undo waypoint. Each operation is an instance ref (path/pathArray/id) plus a properties dict. Supports rich _type objects. Much faster than N individual set_properties calls.");
    ("inputSchema", JObject [
       ("type", JString "object");
       ("properties", JObject [
          ("operations", JObject [
             ("type", JString "array");
             ("maxItems", JInt 200);
             ("items", JObject [
                ("type", JString "object");
                ("properties", JObject [
                   ("path", JObject [("type", JString "string")]);
                   ("pathArray", JObject [
                      ("type", JString "array");
                      ("items", JObject [("type", JString "string")])]);
                   ("id", JObject [("type", JString "string")]);
                   ("properties", JObject [("type", JString "object")])]);
                ("required", JList [JString "properties"])])]);
          ("client_id", JObject [("type", JString "string")])]);
       ("required", JList [JString "operations"])])];
  JObject [
    ("name", JString "roblox_bulk_delete_instances");
    ("description", JString "Delete multiple instances in one round-trip, wrapped in one undo waypoint. All descendants are destroyed. Provide an array of instance refs.");
    ("inputSchema", JObject [
       ("type", JString "object");
       ("properties", JObject [
          ("instances", JObject [
             ("type", JString "array");
             ("items", JObject [
                ("type", JString "object");
                ("properties", JObject [
                   ("path", JObject [("type", JString "string")]);
                   ("pathArray", JObject [
                      ("type", JString "array");
                      ("items", JObject [("type", JString "string")])]);
                   ("id", JObject [("type", JString "string")])])])]);
          ("client_id", JObject [("type", JString "string")])]);
       ("required", JList [JString "instances"])])];
  JObject [
    ("name", JString "roblox_find_and_replace_in_scripts");
    ("description", JString "Find a plain string in all scripts under an ancestor and replace it everywhere. All changes wrapped in one undo waypoint. Set dryRun=true to preview matches without modifying. caseSensitive defaults to true. maxScripts caps modifications (default 50, max 200). Great for renaming a variable, function, or module require path across a codebase.");
    ("inputSchema", JObject [
       ("type", JString "object");
       ("properties", JObject [
          ("find", JObject [
             ("type", JString "string");
             ("description", JString "Plain string to find.")]);
          ("replace", JObject [
             ("type", JString "string");
             ("description", JString "Replacement string.")]);
          ("ancestorPath", JObject [("type", JString "string")]);
          ("ancestorPathArray", JObject [
             ("type", JString "array");
             ("items", JObject [("type", JString "string")])]);
          ("caseSensitive", JObject [("type", JString "boolean")]);
          ("maxScripts", JObject [
             ("type", JString "integer");
             ("description", JString "Max scripts to modify (default 50).")]);
          ("dryRun", JObject [
             ("type", JString "boolean");
             ("description", JString "Preview without modifying if true.")]);
          ("client_id", JObject [("type", JString "string")])]);
       ("required", JList [JString "find"; JString "replace"])])];
  JObject [
    ("name", JString "roblox_get_place_info");
    ("description", JString "Return metadata about the currently open place: PlaceId, GameId, name, PlaceVersion, gravity, StreamingEnabled, all Lighting service properties, and a summary of child counts for each major service.");
    ("inputSchema", JObject [
       ("type", JString "object");
       ("properties", JObject [("client_id", JObject [("type", JString "string")])])])];
  JObject [
    ("name", JString "roblox_set_lighting");
    ("description", JString "Set one or more Lighting service properties. Undoable. Supports rich _type objects for Color3 values. Useful properties: TimeOfDay ('14:00:00'), Brightness, FogEnd, FogStart, FogColor, GlobalShadows, Technology (EnumItem with enumType='Technology').");
    ("inputSchema", JObject [
       ("type", JString "object");
       ("properties", JObject [
          ("properties", JObject [
             ("type", JString "object");
             ("description", JString "Key/value map of Lighting properties to set.")]);
          ("client_id", JObject [("type", JString "string")])]);
       ("required", JList [JString "properties"])])];
  JObject [
    ("name", JString "roblox_get_workspace_info");
    ("description", JString "Return key Workspace-level settings useful for level design: Gravity, StreamingEnabled, streaming radii, wind settings, and the current camera CFrame.");
    ("inputSchema", JObject [
       ("type", JString "object");
       ("properties", JObject [("client_id", JObject [("type", JString "string")])])])];
  JObject [
    ("name", JString "roblox_get_team_list");
    ("description", JString "Return all teams in the Teams service with their BrickColor and AutoAssignable setting.");
    ("inputSchema", JObject [
       ("type", JString "object");
       ("properties", JObject [("client_id", JObject [("type", JString "string")])])])];
  JObject [
    ("name", JString "roblox_get_lighting_effects");
    ("description", JString "Return all post-processing and lighting effects under the Lighting service (Bloom, DepthOfField, ColorCorrection, SunRays, etc.) including their key property values.");
    ("inputSchema", JObject [
       ("type", JString "object");
       ("properties", JObject [("client_id", JObject [("type", JString "string")])])])]
].

(** The [name] of a tool descriptor. *)
Definition tool_name (d : json) : json :=
  match d with
  | JObject o => dict_get "name" o
  | _ => JNull
  end.

(** The [properties] of the [inputSchema] of a tool descriptor. *)
Definition tool_properties (d : json) : option (list (string * json)) :=
  match d with
  | JObject o =>
      match dict_get "inputSchema" o with
      | JObject sch =>
          match dict_get "properties" sch with
          | JObject props => Some props
          | _ => None
          end
      | _ => None
      end
  | _ => None
  end.

(** A run of operations marks this client as seen. *)
Definition marks (c : string) (ops : list queue_op) : bool :=
  existsb (fun o => match o with
                    | OpMarkSeen c' _ => (c' =? c)
                    | _ => false
                    end) ops.

(** Some turn of a poller's schedule reads a clock at or past the
    deadline. *)
Definition poll_expires (deadline : Time) (sched : list poll_tick) : bool :=
  existsb (fun tk => Qle_bool (deadline - poll_clock tk) 0) sched.

(** No turn of a poller's schedule enqueues a job for this client. *)
Definition no_enqueue_for (c : string) (sched : list poll_tick) : bool :=
  forallb (fun tk => match enqueued_for c (poll_during_wait tk) with
                     | [] => true
                     | _ :: _ => false
                     end) sched.

(** An operation that fills or empties the result slot of [id]. *)
Definition touches_slot (id : string) (o : queue_op) : bool :=
  match o with
  | OpStoreResult k _ => py_key_eqb (JString id) k
  | OpTakeResult id' => (id' =? id)
  | _ => false
  end.

(* ================================================================== *)
(** * Properties *)
(* ================================================================== *)

(** ** Dictionaries *)

Lemma dict_lookup_set_same {V : Type} (k : string) (v : V) d :
  dict_lookup k (dict_set k v d) = Some v.
Proof.
  induction d as [|[k' v'] r IH]; simpl.
  - now rewrite String.eqb_refl.
  - destruct (k =? k') eqn:E; simpl; rewrite E; auto.
Qed.

Lemma dict_lookup_set_other {V : Type} (k k1 : string) (v : V) d :
  k1 <> k -> dict_lookup k1 (dict_set k v d) = dict_lookup k1 d.
Proof.
  intros Hne. induction d as [|[k' v'] r IH]; simpl.
  - destruct (k1 =? k) eqn:E; auto.
    apply String.eqb_eq in E. contradiction.
  - destruct (k =? k') eqn:E; simpl.
    + apply String.eqb_eq in E. subst k'.
      destruct (k1 =? k) eqn:E1; auto.
      apply String.eqb_eq in E1. contradiction.
    + destruct (k1 =? k'); auto.
Qed.

Lemma py_key_eqb_str_l (s : string) (k : json) :
  py_key_eqb (JString s) k = true <-> k = JString s.
Proof.
  split.
  - destruct k; simpl; try discriminate.
    intros E. apply String.eqb_eq in E. now subst.
  - intros ->. simpl. apply String.eqb_refl.
Qed.

Lemma py_key_eqb_str_r (s : string) (k : json) :
  py_key_eqb k (JString s) = true <-> k = JString s.
Proof.
  split.
  - destruct k as [ | b | z | f | t | l | o]; simpl; try discriminate.
    + destruct f; simpl; discriminate.
    + intros E. apply String.eqb_eq in E. now subst.
  - intros ->. simpl. apply String.eqb_refl.
Qed.

Lemma kdict_lookup_remove_str {V : Type} (s : string) (d : list (json * V)) :
  kdict_lookup (JString s) (kdict_remove (JString s) d) = None.
Proof.
  induction d as [|[k' v'] r IH]; cbn [kdict_remove kdict_lookup]; auto.
  destruct (py_key_eqb (JString s) k') eqn:E; auto.
  cbn [kdict_lookup]. now rewrite E.
Qed.

Lemma kdict_lookup_set_str_same {V : Type} (s : string) (v : V) d :
  kdict_lookup (JString s) (kdict_set (JString s) v d) = Some v.
Proof.
  induction d as [|[k' v'] r IH]; cbn [kdict_set kdict_lookup].
  - now rewrite (proj2 (py_key_eqb_str_l s (JString s)) eq_refl).
  - destruct (py_key_eqb (JString s) k') eqn:E;
      cbn [kdict_lookup]; rewrite E; auto.
Qed.

Lemma kdict_lookup_set_str_other {V : Type} (s : string) (k : json) (v : V) d :
  py_key_eqb (JString s) k = false ->
  kdict_lookup (JString s) (kdict_set k v d) = kdict_lookup (JString s) d.
Proof.
  intros Hne. induction d as [|[k' v'] r IH]; cbn [kdict_set kdict_lookup].
  - now rewrite Hne.
  - destruct (py_key_eqb k k') eqn:E; cbn [kdict_lookup].
    + destruct (py_key_eqb (JString s) k') eqn:E1; auto.
      apply py_key_eqb_str_l in E1. subst k'.
      apply py_key_eqb_str_r in E. subst k.
      rewrite (proj2 (py_key_eqb_str_l s (JString s)) eq_refl) in Hne.
      discriminate.
    + destruct (py_key_eqb (JString s) k'); auto.
Qed.

Lemma kdict_lookup_remove_str_other {V : Type} (s s' : string)
  (d : list (json * V)) :
  s' <> s ->
  kdict_lookup (JString s') (kdict_remove (JString s) d)
  = kdict_lookup (JString s') d.
Proof.
  intros Hne.
  induction d as [|[k v] r IH]; cbn [kdict_remove kdict_lookup]; auto.
  destruct (py_key_eqb (JString s) k) eqn:E.
  - apply py_key_eqb_str_l in E. subst k.
    destruct (py_key_eqb (JString s') (JString s)) eqn:E'; auto.
    apply py_key_eqb_str_l in E'. congruence.
  - cbn [kdict_lookup]. destruct (py_key_eqb (JString s') k); auto.
Qed.

(** ** The mailboxes *)

Lemma lookup_setdefault_append_same c j p :
  dict_lookup c (setdefault_append c j p)
  = Some ((match dict_lookup c p with Some l => l | None => [] end) ++ [j])%list.
Proof.
  induction p as [|[c' l] r IH]; simpl.
  - now rewrite String.eqb_refl.
  - destruct (c =? c') eqn:E; simpl; rewrite E; auto.
Qed.

Lemma lookup_setdefault_append_other c c1 j p :
  c1 <> c ->
  dict_lookup c1 (setdefault_append c j p) = dict_lookup c1 p.
Proof.
  intros Hne. induction p as [|[c' l] r IH]; simpl.
  - destruct (c1 =? c) eqn:E; auto.
    apply String.eqb_eq in E. contradiction.
  - destruct (c =? c') eqn:E; simpl.
    + apply String.eqb_eq in E. subst c'.
      destruct (c1 =? c) eqn:E1; auto.
      apply String.eqb_eq in E1. contradiction.
    + destruct (c1 =? c'); auto.
Qed.

(** [enqueue] appends to the tail of the client's mailbox ... *)
Lemma mailbox_enqueue_same q c j :
  mailbox (enqueue q c j) c = (mailbox q c ++ [j])%list.
Proof.
  unfold mailbox, enqueue. simpl.
  now rewrite lookup_setdefault_append_same.
Qed.

(** ... and leaves every other mailbox alone. *)
Lemma mailbox_enqueue_other q c c1 j :
  c1 <> c -> mailbox (enqueue q c j) c1 = mailbox q c1.
Proof.
  intros Hne. unfold mailbox, enqueue. simpl.
  now rewrite lookup_setdefault_append_other.
Qed.

(** The pop of [wait_for_job] takes the head of the mailbox. *)
Lemma take_job_cons q c j rest :
  mailbox q c = j :: rest ->
  exists q', take_job q c = Some (j, q') /\ mailbox q' c = rest
             /\ _results q' = _results q /\ _last_seen q' = _last_seen q
             /\ forall c1, c1 <> c -> mailbox q' c1 = mailbox q c1.
Proof.
  unfold mailbox, take_job. intros H.
  destruct (dict_lookup c (_pending q)) as [l|] eqn:E; [|discriminate].
  subst l. eexists. split; [reflexivity|]. simpl.
  rewrite dict_lookup_set_same. repeat split; auto.
  intros c1 Hne. now rewrite dict_lookup_set_other.
Qed.

Lemma take_job_nil q c :
  mailbox q c = [] -> take_job q c = None.
Proof.
  unfold mailbox, take_job.
  destruct (dict_lookup c (_pending q)) as [[|j l]|]; auto; discriminate.
Qed.

Lemma wait_for_job_available q c j rest timeout now sched :
  mailbox q c = j :: rest ->
  exists q', wait_for_job q c timeout now sched = Returns (Some j, q')
             /\ mailbox q' c = rest.
Proof.
  intros H. destruct (take_job_cons q c j rest H) as (q' & Ht & Hm & _).
  exists q'. split; auto.
  unfold wait_for_job. destruct sched; simpl; now rewrite Ht.
Qed.

(** ** FIFO delivery *)

Lemma successive_waits_drain :
  forall l q c calls,
    mailbox q c = l ->
    length calls = length l ->
    successive_waits q c calls = map (fun j => Returns (Some j)) l.
Proof.
  induction l as [|j rest IH]; intros q c calls Hm Hlen.
  - destruct calls; [reflexivity | discriminate].
  - destruct calls as [|[[t now] sched] calls']; [discriminate|].
    destruct (wait_for_job_available q c j rest t now sched Hm)
      as (q' & Hw & Hm').
    cbn [successive_waits map]. rewrite Hw. f_equal.
    apply IH; auto.
Qed.

(** C3. Two jobs enqueued on the same client, J1 then J2, come out of
    successive [wait_for_job] calls on that client in that order, after
    the jobs that were pending before them and with nothing reordered:
    as many calls as there are jobs return exactly the old mailbox,
    then J1, then J2, whatever the timeouts, clocks and schedules. *)
Theorem enqueue_then_wait_is_fifo :
  forall (q : JobQueue) (c : string) (J1 J2 : Job)
         (calls : list (Q * Time * list poll_tick)),
    length calls = (length (mailbox q c) + 2)%nat ->
    successive_waits (enqueue (enqueue q c J1) c J2) c calls
    = map (fun j => Returns (Some j)) (mailbox q c ++ [J1; J2])%list.
Proof.
  intros q c J1 J2 calls Hlen.
  apply successive_waits_drain.
  - rewrite !mailbox_enqueue_same. now rewrite <- app_assoc.
  - rewrite length_app. simpl. exact Hlen.
Qed.

Lemma enqueue_then_wait_is_fifo_witness :
  successive_waits
    (enqueue (enqueue JobQueue_init "studio"
                (mkJob "job_1" "list_services" [] 0))
       "studio" (mkJob "job_2" "get_tree" [] 1))
    "studio" [(5, 2, []); (0, 3, [])]
  = [Returns (Some (mkJob "job_1" "list_services" [] 0));
     Returns (Some (mkJob "job_2" "get_tree" [] 1))].
Proof.
  apply (enqueue_then_wait_is_fifo JobQueue_init "studio"
           (mkJob "job_1" "list_services" [] 0)
           (mkJob "job_2" "get_tree" [] 1)
           [(5, 2, []); (0, 3, [])]).
  reflexivity.
Defined.

(** ** The result slots *)

Lemma take_result_some q id r :
  kdict_lookup (JString id) (_results q) = Some r ->
  exists q', take_result q id = Some (r, q')
             /\ kdict_lookup (JString id) (_results q') = None
             /\ _pending q' = _pending q /\ _last_seen q' = _last_seen q.
Proof.
  intros H. unfold take_result. rewrite H. eexists. split; [reflexivity|].
  simpl. split; auto. apply kdict_lookup_remove_str.
Qed.

Lemma take_result_none q id :
  kdict_lookup (JString id) (_results q) = None -> take_result q id = None.
Proof. intros H. unfold take_result. now rewrite H. Qed.

Lemma wait_for_result_available q id r timeout now sched :
  kdict_lookup (JString id) (_results q) = Some r ->
  exists q', wait_for_result q id timeout now sched = Returns (Some r, q')
             /\ kdict_lookup (JString id) (_results q') = None
             /\ _pending q' = _pending q.
Proof.
  intros H. destruct (take_result_some q id r H) as (q' & Ht & Hn & Hp & _).
  exists q'. repeat split; auto.
  unfold wait_for_result. destruct sched; simpl; now rewrite Ht.
Qed.

Lemma env_step_quiet q id a :
  stores_for id a = false ->
  kdict_lookup (JString id) (_results (env_step q a))
  = kdict_lookup (JString id) (_results q).
Proof.
  destruct a as [c now | c | k r]; simpl; intros H; auto.
  - unfold take_job.
    destruct (dict_lookup c (_pending q)) as [[|j l]|]; reflexivity.
  - now apply kdict_lookup_set_str_other.
Qed.

Lemma run_env_quiet l : forall q id,
  quiet_for id l = true ->
  kdict_lookup (JString id) (_results (run_env q l))
  = kdict_lookup (JString id) (_results q).
Proof.
  induction l as [|a l IH]; intros q id H; simpl in *; auto.
  apply andb_prop in H. destruct H as [Ha Hl].
  apply negb_true_iff in Ha.
  unfold run_env in *. simpl. rewrite IH by exact Hl.
  now apply env_step_quiet.
Qed.

(** A wait on an empty slot that nobody fills ends with "no result" as
    soon as the clock is read at or past the deadline. *)
Lemma wait_for_result_times_out sched : forall q id deadline,
  kdict_lookup (JString id) (_results q) = None ->
  no_store_for id sched = true ->
  expires deadline sched = true ->
  exists q', wait_for_result_loop q id deadline sched = Returns (None, q')
             /\ kdict_lookup (JString id) (_results q') = None.
Proof.
  induction sched as [|tk rest IH]; intros q id deadline Hq Hs He.
  - discriminate.
  - cbn [wait_for_result_loop]. rewrite (take_result_none _ _ Hq).
    destruct (Qle_bool (deadline - clock tk) 0) eqn:Ec.
    + exists q. auto.
    + simpl in Hs, He. rewrite Ec in He. simpl in He.
      apply andb_prop in Hs. destruct Hs as [Hk Hr].
      apply IH; auto. now rewrite run_env_quiet.
Qed.

(** C4. A result stored under a job id is what the next [wait_for_result]
    on that id returns, for every timeout (so in particular for a positive
    one), and that wait empties the slot: as long as no other thread
    stores a result for the id again, a second [wait_for_result] ends
    with "no result" once its deadline has passed. *)
Theorem stored_result_returned_exactly_once :
  forall (q : JobQueue) (id : string) (r : list (string * json))
         (t : Q) (now : Time) (s : list tick)
         (between : list env_action)
         (t' : Q) (now' : Time) (s' : list tick),
    quiet_for id between = true ->
    no_store_for id s' = true ->
    expires (now' + t') s' = true ->
    exists q' q'',
      wait_for_result (store_result q (JString id) r) id t now s
      = Returns (Some r, q')
      /\ kdict_lookup (JString id) (_results q') = None
      /\ wait_for_result (run_env q' between) id t' now' s'
         = Returns (None, q'').
Proof.
  intros q id r t now s between t' now' s' Hb Hs He.
  destruct (wait_for_result_available (store_result q (JString id) r)
              id r t now s) as (q' & Hw & Hn & _).
  { simpl. apply kdict_lookup_set_str_same. }
  destruct (wait_for_result_times_out s' (run_env q' between) id (now' + t'))
    as (q'' & Hw' & _); auto.
  { now rewrite run_env_quiet. }
  exists q', q''. auto.
Qed.

Lemma stored_result_returned_exactly_once_witness :
  quiet_for "job_1" [EnvMarkSeen "studio" 1] = true /\
  no_store_for "job_1" [mkTick 2 []; mkTick 40 []] = true /\
  expires (2 + 30) [mkTick 2 []; mkTick 40 []] = true /\
  exists q' q'',
    wait_for_result
      (store_result JobQueue_init (JString "job_1") [("ok", JBool true)])
      "job_1" 30 0 []
    = Returns (Some [("ok", JBool true)], q')
    /\ kdict_lookup (JString "job_1") (_results q') = None
    /\ wait_for_result (run_env q' [EnvMarkSeen "studio" 1]) "job_1" 30 2
         [mkTick 2 []; mkTick 40 []]
       = Returns (None, q'').
Proof.
  split; [reflexivity|]. split; [reflexivity|]. split; [reflexivity|].
  apply (stored_result_returned_exactly_once JobQueue_init "job_1"
           [("ok", JBool true)] 30 0 [] [EnvMarkSeen "studio" 1]
           30 2 [mkTick 2 []; mkTick 40 []]); reflexivity.
Defined.

(** ** Availability before deadline *)

(** C10. Both waits look for what they wait for before they look at the
    clock.  With a timeout that is zero or negative, and a clock that does
    not run backwards between the two readings, [wait_for_job] returns
    the head of a non-empty mailbox and [wait_for_result] a stored
    result; when there is nothing, each returns [None] at its first
    reading of the clock, without waiting (the queue is as it was and
    nothing of the schedule beyond that reading is used, whatever the
    other threads, workers or dispatcher, would do next). *)
Theorem nonpositive_timeout_availability_first :
  forall (q : JobQueue) (c id : string) (timeout : Q) (now : Time)
         (tk : tick) (rest : list tick)
         (ops : list queue_op) (prest : list poll_tick),
    timeout <= 0 ->
    now <= clock tk ->
    (forall j l, mailbox q c = j :: l ->
       exists q', wait_for_job q c timeout now
                    (mkPollTick (clock tk) ops :: prest)
                  = Returns (Some j, q') /\ mailbox q' c = l)
    /\ (mailbox q c = [] ->
        wait_for_job q c timeout now (mkPollTick (clock tk) ops :: prest)
        = Returns (None, q))
    /\ (forall r, kdict_lookup (JString id) (_results q) = Some r ->
          exists q', wait_for_result q id timeout now (tk :: rest)
                     = Returns (Some r, q')
                     /\ kdict_lookup (JString id) (_results q') = None)
    /\ (kdict_lookup (JString id) (_results q) = None ->
        wait_for_result q id timeout now (tk :: rest) = Returns (None, q)).
Proof.
  intros q c id timeout now tk rest ops prest Ht Hc.
  assert (Hd : Qle_bool (now + timeout - clock tk) 0 = true).
  { apply Qle_bool_iff. lra. }
  repeat split.
  - intros j l Hm. now apply wait_for_job_available.
  - intros Hm. unfold wait_for_job. cbn [wait_for_job_loop poll_clock].
    rewrite (take_job_nil _ _ Hm). now rewrite Hd.
  - intros r Hr.
    destruct (wait_for_result_available q id r timeout now (tk :: rest) Hr)
      as (q' & Hw & Hn & _).
    exists q'. auto.
  - intros Hr. unfold wait_for_result. cbn [wait_for_result_loop].
    rewrite (take_result_none _ _ Hr). now rewrite Hd.
Qed.

Lemma nonpositive_timeout_availability_first_witness :
  let j := mkJob "job_1" "list_services" [] 0 in
  let q := store_result (enqueue JobQueue_init "studio" j)
             (JString "job_0") [("ok", JBool true)] in
  (-1 <= 0)%Q /\ (10 <= clock (mkTick 10 []))%Q /\
  wait_for_job q "studio" (-1) 10 [mkPollTick 10 []]
  = Returns (Some j, mkJobQueue [("studio", [])] (_results q) [])
  /\ wait_for_job q "other" (-1) 10
       [mkPollTick 10 [OpEnqueue "other" j]] = Returns (None, q)
  /\ wait_for_result q "job_0" (-1) 10 [mkTick 10 []]
     = Returns (Some [("ok", JBool true)],
                mkJobQueue (_pending q) [] [])
  /\ wait_for_result q "job_7" (-1) 10 [mkTick 10 []] = Returns (None, q).
Proof.
  intros j q.
  assert (H1 : (-1 <= 0)%Q) by (unfold Qle; simpl; lia).
  assert (H2 : (10 <= clock (mkTick 10 []))%Q) by (unfold Qle; simpl; lia).
  split; [exact H1|]. split; [exact H2|].
  pose proof (nonpositive_timeout_availability_first
                q "other" "job_7" (-1) 10 (mkTick 10 []) []
                [OpEnqueue "other" j] [] H1 H2)
    as (_ & Hb & _ & Hd).
  split; [reflexivity|]. split; [apply Hb; reflexivity|].
  split; [reflexivity|]. apply Hd; reflexivity.
Defined.

(** ** Jobs with a given id in the mailboxes *)

Lemma count_in_queue_app id l1 l2 :
  count_in_queue id (l1 ++ l2)%list
  = (count_in_queue id l1 + count_in_queue id l2)%nat.
Proof. unfold count_in_queue. now rewrite filter_app, length_app. Qed.

Lemma count_pending_setdefault_append id c j p :
  count_pending id (setdefault_append c j p)
  = (count_pending id p + count_in_queue id [j])%nat.
Proof.
  induction p as [|[c' l] r IH]; cbn [setdefault_append count_pending].
  - cbn [count_pending]. lia.
  - destruct (c =? c'); cbn [count_pending].
    + rewrite count_in_queue_app. lia.
    + rewrite IH. lia.
Qed.

Lemma count_pending_take c p : forall j rest,
  dict_lookup c p = Some (j :: rest) ->
  forall id, (count_pending id (dict_set c rest p) <= count_pending id p)%nat.
Proof.
  induction p as [|[c' l] r IH]; intros j rest H id; [discriminate|].
  cbn [dict_lookup] in H. cbn [dict_set count_pending].
  destruct (c =? c') eqn:E; cbn [count_pending].
  - injection H as ->. unfold count_in_queue. simpl.
    destruct (job_id j =? id); simpl; lia.
  - specialize (IH j rest H id). lia.
Qed.

Lemma count_pending_env_step q a id :
  (count_pending id (_pending (env_step q a))
   <= count_pending id (_pending q))%nat.
Proof.
  destruct a as [c now | c | k r]; simpl; auto.
  unfold take_job.
  destruct (dict_lookup c (_pending q)) as [[|j l]|] eqn:E; auto.
  simpl. eapply count_pending_take; eauto.
Qed.

Lemma count_pending_run_env l : forall q id,
  (count_pending id (_pending (run_env q l))
   <= count_pending id (_pending q))%nat.
Proof.
  induction l as [|a l IH]; intros q id; simpl; auto.
  unfold run_env in *. simpl.
  etransitivity; [apply IH | apply count_pending_env_step].
Qed.

Lemma remove_first_job_count id queue :
  match remove_first_job id queue with
  | Some queue' => count_in_queue id queue = S (count_in_queue id queue')
  | None => count_in_queue id queue = O
  end.
Proof.
  unfold count_in_queue.
  induction queue as [|j r IH]; simpl; auto.
  destruct (job_id j =? id) eqn:E; simpl; auto.
  destruct (remove_first_job id r); simpl; rewrite ?E; auto.
Qed.

Lemma cancel_in_count id p :
  match cancel_in id p with
  | Some p' => count_pending id p = S (count_pending id p')
  | None => count_pending id p = O
  end.
Proof.
  induction p as [|[c l] r IH]; simpl; auto.
  pose proof (remove_first_job_count id l) as Hl.
  destruct (remove_first_job id l) as [l'|]; simpl.
  - lia.
  - destruct (cancel_in id r) as [r'|]; simpl; lia.
Qed.

Lemma pending_has_count q id :
  pending_has q id = false <-> count_pending id (_pending q) = O.
Proof.
  unfold pending_has. induction (_pending q) as [|[c l] r IH]; simpl.
  - tauto.
  - rewrite orb_false_iff, IH. unfold count_in_queue.
    assert (Hl : existsb (fun j => job_id j =? id) l = false
                 <-> length (filter (fun j => job_id j =? id) l) = O).
    { clear. induction l as [|j l IHl]; simpl; [tauto|].
      destruct (job_id j =? id); simpl.
      - split; discriminate.
      - exact IHl. }
    rewrite Hl. lia.
Qed.

(** After [cancel_job], a job id that was pending at most once is pending
    nowhere. *)
Lemma cancel_job_clears q id :
  (count_pending id (_pending q) <= 1)%nat ->
  pending_has (snd (cancel_job q id)) id = false.
Proof.
  intros H. apply pending_has_count. unfold cancel_job.
  pose proof (cancel_in_count id (_pending q)) as Hc.
  destruct (cancel_in id (_pending q)) as [p'|]; simpl; lia.
Qed.

(** ** The dispatcher *)

Lemma take_result_pending q id r q' :
  take_result q id = Some (r, q') -> _pending q' = _pending q.
Proof.
  unfold take_result.
  destruct (kdict_lookup (JString id) (_results q)); [|discriminate].
  intros H. inversion H. reflexivity.
Qed.

Lemma wait_for_result_loop_pending sched : forall q id deadline x q2 id',
  wait_for_result_loop q id deadline sched = Returns (x, q2) ->
  (count_pending id' (_pending q2) <= count_pending id' (_pending q))%nat.
Proof.
  induction sched as [|tk rest IH]; intros q id deadline x q2 id' H;
    cbn [wait_for_result_loop] in H;
    destruct (take_result q id) as [[r q']|] eqn:E.
  - inversion H; subst. rewrite (take_result_pending _ _ _ _ E). lia.
  - discriminate.
  - inversion H; subst. rewrite (take_result_pending _ _ _ _ E). lia.
  - destruct (Qle_bool (deadline - clock tk) 0).
    + inversion H; subst. lia.
    + apply IH with (id' := id') in H.
      etransitivity; [exact H | apply count_pending_run_env].
Qed.

(** A name that [_build_job] accepts is not the local status tool. *)
Lemma build_job_not_status name a hex now job :
  _build_job name a hex now = Returns (Some job) ->
  is_str name "studio_get_connection_status" = false.
Proof.
  destruct name as [ | b | z | f | n | l | o]; simpl; auto.
  destruct (n =? "studio_get_connection_status") eqn:E; auto.
  apply String.eqb_eq in E. subst n. vm_compute. discriminate.
Qed.

Lemma build_job_id name a hex now job :
  _build_job name a hex now = Returns (Some job) ->
  job_id job = "job_" ++ hex.
Proof.
  unfold _build_job.
  destruct name as [ | b | z | f | n | l | o]; try discriminate.
  destruct (dict_lookup n tool_to_job); [|discriminate].
  intros H. inversion H. reflexivity.
Qed.

(** The path of [_call_tool] up to its wait, for a connected client and a
    known tool. *)
Lemma call_tool_reaches_wait srv q name a e c job :
  resolve_client_id a = JString c ->
  is_connected q c 15 (now_connected e) = true ->
  _build_job name a (hex12 e) (now_created e) = Returns (Some job) ->
  _call_tool srv q name (JObject a) e
  = match wait_for_result (queue_at_wait q c job e) (job_id job)
            (job_timeout_sec srv) (now_wait e) (sched e) with
    | Blocked => (Blocked, queue_at_wait q c job e)
    | Raises x => (Raises x, queue_at_wait q c job e)
    | Returns (None, q2) =>
        (Returns (_tool_error (JString msg_timed_out)),
         snd (cancel_job (run_env q2 (env_before_cancel e)) (job_id job)))
    | Returns (Some result, q2) =>
        if negb (truthy (dict_get_default "ok" (JBool false) result)) then
          (Returns (_tool_error (py_or (dict_get "error" result)
                                       (JString "Studio error"))), q2)
        else (Returns (_tool_result (dict_get "result" result)), q2)
    end.
Proof.
  intros Hc Hconn Hb. unfold _call_tool.
  rewrite (build_job_not_status _ _ _ _ _ Hb), Hc.
  cbn [hashable negb]. rewrite Hconn. cbn [negb]. rewrite Hb.
  reflexivity.
Qed.

(** When the slot of the job is empty at the start of the call, no other
    thread stores a result for it, and the clock reaches the deadline,
    the wait of [_call_tool] ends without a result. *)
Lemma no_upload_means_no_result srv q c job e :
  kdict_lookup (JString (job_id job)) (_results q) = None ->
  quiet_for (job_id job) (env_before_enqueue e) = true ->
  quiet_for (job_id job) (env_before_wait e) = true ->
  no_store_for (job_id job) (sched e) = true ->
  expires (now_wait e + job_timeout_sec srv) (sched e) = true ->
  exists q2,
    wait_for_result (queue_at_wait q c job e) (job_id job)
      (job_timeout_sec srv) (now_wait e) (sched e) = Returns (None, q2).
Proof.
  intros Hq H1 H2 Hs He.
  destruct (wait_for_result_times_out (sched e) (queue_at_wait q c job e)
              (job_id job) (now_wait e + job_timeout_sec srv))
    as (q2 & Hw & _); auto.
  - unfold queue_at_wait. rewrite run_env_quiet by exact H2.
    unfold enqueue. cbn [_results]. now rewrite run_env_quiet.
  - exists q2. exact Hw.
Qed.

(** C2. A tool call whose job is enqueued (client connected, tool known,
    job id not already pending) and whose [wait_for_result] ends without a
    result returns the timeout error envelope, letter for letter, and
    leaves a queue in which a scan of the pending mailboxes finds no job
    with that id. *)
Theorem timed_out_call_returns_envelope_and_clears_job :
  forall (srv : McpServer) (q : JobQueue) (name : json)
         (a : list (string * json)) (e : call_env) (c : string)
         (job : Job) (q2 : JobQueue),
    resolve_client_id a = JString c ->
    is_connected q c 15 (now_connected e) = true ->
    _build_job name a (hex12 e) (now_created e) = Returns (Some job) ->
    pending_has q (job_id job) = false ->
    wait_for_result (queue_at_wait q c job e) (job_id job)
      (job_timeout_sec srv) (now_wait e) (sched e) = Returns (None, q2) ->
    exists qf,
      _call_tool srv q name (JObject a) e
      = (Returns
           (JObject
              [("isError", JBool true);
               ("content",
                JList [JObject
                         [("type", JString "text");
                          ("text",
                           JString "Timed out waiting for Studio to respond. Check that the plugin is running and connected.")]])]),
         qf)
      /\ pending_has qf (job_id job) = false.
Proof.
  intros srv q name a e c job q2 Hc Hconn Hb Hfresh Hw.
  rewrite (call_tool_reaches_wait srv q name a e c job Hc Hconn Hb), Hw.
  eexists. split; [reflexivity|].
  apply cancel_job_clears.
  etransitivity; [apply count_pending_run_env|].
  etransitivity; [eapply wait_for_result_loop_pending; exact Hw|].
  unfold queue_at_wait.
  etransitivity; [apply count_pending_run_env|].
  unfold enqueue. cbn [_pending].
  rewrite count_pending_setdefault_append.
  apply pending_has_count in Hfresh.
  assert (count_pending (job_id job)
            (_pending (run_env q (env_before_enqueue e))) = O) as ->.
  { pose proof (count_pending_run_env (env_before_enqueue e) q (job_id job)).
    lia. }
  unfold count_in_queue. simpl. destruct (job_id job =? job_id job); simpl; lia.
Qed.

Lemma timed_out_call_returns_envelope_and_clears_job_witness :
  let srv := mkMcpServer 30 in
  let q := mark_seen JobQueue_init "studio" 100 in
  let a := [("client_id", JString "studio")] in
  let e := mkCallEnv 0 101 "0123456789ab" 101 [] [] 101
             [mkTick 102 [EnvMarkSeen "studio" 103]; mkTick 131 []] [] in
  let job := mkJob "job_0123456789ab" "list_services" a 101 in
  resolve_client_id a = JString "studio" /\
  is_connected q "studio" 15 (now_connected e) = true /\
  _build_job (JString "roblox_list_services") a (hex12 e) (now_created e)
  = Returns (Some job) /\
  pending_has q (job_id job) = false /\
  exists qf,
    _call_tool srv q (JString "roblox_list_services") (JObject a) e
    = (Returns (error_envelope msg_timed_out), qf)
    /\ pending_has qf "job_0123456789ab" = false.
Proof.
  intros srv q a e job.
  split; [reflexivity|]. split; [reflexivity|].
  split; [reflexivity|]. split; [reflexivity|].
  eapply (timed_out_call_returns_envelope_and_clears_job
            srv q (JString "roblox_list_services") a e "studio" job);
    reflexivity.
Defined.

(** C1. A tool call whose job is enqueued and whose [wait_for_result]
    yields an uploaded result with [ok] equal to [true] returns the
    success envelope: one text item whose text is [json.dumps] of the
    [result] field of that result, indented by two spaces, in which no
    byte of a non-ASCII character is escaped. *)
Theorem matched_ok_result_returns_success_envelope :
  forall (srv : McpServer) (q : JobQueue) (name : json)
         (a : list (string * json)) (e : call_env) (c : string)
         (job : Job) (r : list (string * json)) (q2 : JobQueue),
    resolve_client_id a = JString c ->
    is_connected q c 15 (now_connected e) = true ->
    _build_job name a (hex12 e) (now_created e) = Returns (Some job) ->
    wait_for_result (queue_at_wait q c job e) (job_id job)
      (job_timeout_sec srv) (now_wait e) (sched e) = Returns (Some r, q2) ->
    dict_lookup "ok" r = Some (JBool true) ->
    _call_tool srv q name (JObject a) e
    = (Returns
         (JObject
            [("content",
              JList [JObject
                       [("type", JString "text");
                        ("text",
                         JString (json_dumps_indent2 (dict_get "result" r)))]])]),
       q2)
    /\ (forall ch s, (128 <= nat_of_ascii ch)%nat ->
          escape_string (String ch s) = String ch (escape_string s)).
Proof.
  intros srv q name a e c job r q2 Hc Hconn Hb Hw Hok. split.
  - rewrite (call_tool_reaches_wait srv q name a e c job Hc Hconn Hb), Hw.
    unfold dict_get_default. rewrite Hok. reflexivity.
  - intros ch s Hch. cbn [escape_string]. unfold escape_char.
    repeat match goal with
    | |- context [(?x =? ?y)%nat] =>
        let E := fresh in
        destruct (Nat.eqb_spec x y) as [E|E]; [exfalso; lia|]
    end.
    destruct (Nat.ltb_spec (nat_of_ascii ch) 32); [exfalso; lia|].
    reflexivity.
Qed.

(** The happy path of the specification (scenario S1): the plugin has
    pinged, the tool call enqueues its job, the plugin takes it and
    uploads [{"services": ["Workspace", "Lighting"]}]. *)
Lemma matched_ok_result_returns_success_envelope_witness :
  let srv := mkMcpServer 30 in
  let q := mark_seen JobQueue_init "studio" 100 in
  let a := [("client_id", JString "studio")] in
  let r := [("job_id", JString "job_abcdef012345"); ("ok", JBool true);
            ("result",
             JObject [("services",
                       JList [JString "Workspace"; JString "Lighting"])])] in
  let e := mkCallEnv 0 101 "abcdef012345" 101 []
             [EnvMarkSeen "studio" 102; EnvTakeJob "studio";
              EnvStoreResult (JString "job_abcdef012345") r]
             103 [] [] in
  let job := mkJob "job_abcdef012345" "list_services" a 101 in
  resolve_client_id a = JString "studio" /\
  is_connected q "studio" 15 (now_connected e) = true /\
  _build_job (JString "roblox_list_services") a (hex12 e) (now_created e)
  = Returns (Some job) /\
  dict_lookup "ok" r = Some (JBool true) /\
  fst (_call_tool srv q (JString "roblox_list_services") (JObject a) e)
  = Returns
      (success_envelope
         ("{" ++ newline
          ++ "  " ++ dq ++ "services" ++ dq ++ ": [" ++ newline
          ++ "    " ++ dq ++ "Workspace" ++ dq ++ "," ++ newline
          ++ "    " ++ dq ++ "Lighting" ++ dq ++ newline
          ++ "  ]" ++ newline
          ++ "}")).
Proof.
  intros srv q a r e job.
  split; [reflexivity|]. split; [reflexivity|].
  split; [reflexivity|]. split; [reflexivity|].
  rewrite (proj1 (matched_ok_result_returns_success_envelope
                    srv q (JString "roblox_list_services") a e "studio" job r
                    (mkJobQueue [("studio", [])] [] [("studio", 102)])
                    eq_refl eq_refl eq_refl eq_refl eq_refl)).
  reflexivity.
Defined.

(** A string of non-ASCII bytes (here the two bytes of U+00E9) is dumped
    between quotes as it is. *)
Example dumps_keeps_non_ascii :
  let s := String (ascii_of_nat 195) (String (ascii_of_nat 169) EmptyString) in
  json_dumps_indent2 (JString s) = dq ++ s ++ dq.
Proof. reflexivity. Qed.

(** ** Argument aliasing in [_build_job] *)

(** C6, as stated, fails: with no [code], an empty [script] and a
    [source], the job of [roblox_run_code] gets the [source] as its
    [code], not the [script]. *)
Lemma empty_script_is_skipped_for_source :
  dict_lookup "code" args_empty_script = None /\
  dict_lookup "script" args_empty_script = Some (JString EmptyString) /\
  exists job,
    _build_job (JString "roblox_run_code") args_empty_script
      "abcdef012345" 0 = Returns (Some job)
    /\ type job = "run_code"
    /\ dict_lookup "code" (args job) = Some (JString "print(2)")
    /\ dict_lookup "code" (args job)
       <> dict_lookup "script" args_empty_script.
Proof.
  split; [reflexivity|]. split; [reflexivity|].
  eexists. split; [reflexivity|]. split; [reflexivity|].
  split; [reflexivity|]. discriminate.
Qed.

(** C6, amended.  For a tool of the table, [_build_job] makes a job of
    the tool's job type whose [args] are the arguments, except that for
    the job types [run_code] and [run_script_in_play_mode] a [code] that
    is missing or falsy is set to [script] if that is truthy and to
    [source] otherwise ([None] when [source] is missing too); a truthy
    [code] is kept, and for every other job type the arguments are
    passed on as they are. *)
Theorem build_job_aliases_falsy_code :
  forall (n : string) (a : list (string * json)) (hex : string) (now : Time)
         (ty : string),
    dict_lookup n tool_to_job = Some ty ->
    exists job,
      _build_job (JString n) a hex now = Returns (Some job)
      /\ job_id job = "job_" ++ hex
      /\ type job = ty
      /\ (takes_code ty = false -> args job = a)
      /\ (takes_code ty = true -> truthy (dict_get "code" a) = true ->
          args job = a)
      /\ (takes_code ty = true -> truthy (dict_get "code" a) = false ->
          let v := if truthy (dict_get "script" a)
                   then dict_get "script" a else dict_get "source" a in
          args job = dict_set "code" v a
          /\ dict_lookup "code" (args job) = Some v).
Proof.
  intros n a hex now ty Hn. unfold _build_job. rewrite Hn.
  eexists. split; [reflexivity|]. cbn [job_id type args].
  split; [reflexivity|]. split; [reflexivity|].
  unfold alias_code. split; [|split].
  - intros ->. reflexivity.
  - intros -> ->. reflexivity.
  - intros -> ->. cbn [negb py_or]. split; [reflexivity|].
    apply dict_lookup_set_same.
Qed.

(** Scenario S5: [roblox_run_code] with [{"script": "print(1)"}]. *)
Lemma build_job_aliases_falsy_code_witness :
  let a := [("script", JString "print(1)"); ("client_id", JString "studio")] in
  dict_lookup "roblox_run_code" tool_to_job = Some "run_code" /\
  exists job,
    _build_job (JString "roblox_run_code") a "abcdef012345" 7
    = Returns (Some job)
    /\ type job = "run_code"
    /\ dict_lookup "code" (args job) = Some (JString "print(1)").
Proof.
  intros a. split; [reflexivity|].
  destruct (build_job_aliases_falsy_code "roblox_run_code" a
              "abcdef012345" 7 "run_code" eq_refl)
    as (job & Hb & _ & Hty & _ & _ & Hc).
  exists job. split; [exact Hb|]. split; [exact Hty|].
  exact (proj2 (Hc eq_refl eq_refl)).
Defined.

(** ** [POST /result] *)

(** C7, as stated, fails: a body that is valid JSON and has a [job_id]
    field, holding the empty string, is answered with 400
    [missing_job_id], and nothing is stored. *)
Lemma empty_job_id_is_rejected :
  (exists o, body_empty_job_id = JObject o
             /\ dict_lookup "job_id" o = Some (JString EmptyString)) /\
  do_POST JobQueue_init (post_result body_empty_job_id)
  = (Returns (mkResponse 400
                (JObject [("ok", JBool false);
                          ("error", JString "missing_job_id")])),
     JobQueue_init).
Proof.
  split; [|reflexivity]. eexists. split; reflexivity.
Qed.

(** A body that is valid JSON but not an object has no [get]: the handler
    raises and sends no response at all. *)
Lemma non_object_body_raises q :
  do_POST q (post_result (JInt 5)) = (Raises AttributeError, q)
  /\ do_POST q (post_result (JList [])) = (Raises AttributeError, q)
  /\ do_POST q (post_result (JString "job_1")) = (Raises AttributeError, q).
Proof. repeat split. Qed.

(** Nor is there a response when the body is not UTF-8, or when
    [json.loads] raises something other than [JSONDecodeError]. *)
Lemma undecodable_body_raises q x :
  do_POST q (mkPost "/result" (Some BodyNotUtf8))
  = (Raises UnicodeDecodeError, q)
  /\ do_POST q (mkPost "/result" (Some (BodyLoadsRaises x))) = (Raises x, q).
Proof. split; reflexivity. Qed.

(** C7, amended.  On [/result]: a body of UTF-8 text that [json.loads]
    rejects with [JSONDecodeError] is answered with 400 [invalid_json];
    an empty body, and a body that [json.loads] decodes to a JSON object
    whose [job_id] is missing or falsy, are answered with 400
    [missing_job_id]; in these cases nothing is stored.  A body that
    [json.loads] decodes to a JSON object whose [job_id] is truthy and
    hashable is stored under that [job_id] by [store_result] and
    answered with 200 [{"ok": true}]. *)
Theorem post_result_responses :
  forall (q : JobQueue),
    do_POST q (mkPost "/result" (Some BodyNotJson))
    = (Returns (mkResponse 400
                  (JObject [("ok", JBool false);
                            ("error", JString "invalid_json")])), q)
    /\ do_POST q (mkPost "/result" None)
       = (Returns (mkResponse 400
                     (JObject [("ok", JBool false);
                               ("error", JString "missing_job_id")])), q)
    /\ (forall o, truthy (dict_get "job_id" o) = false ->
          do_POST q (post_result (JObject o))
          = (Returns (mkResponse 400
                        (JObject [("ok", JBool false);
                                  ("error", JString "missing_job_id")])), q))
    /\ (forall o, truthy (dict_get "job_id" o) = true ->
          hashable (dict_get "job_id" o) = true ->
          do_POST q (post_result (JObject o))
          = (Returns (mkResponse 200 (JObject [("ok", JBool true)])),
             store_result q (dict_get "job_id" o) o)).
Proof.
  intros q. split; [reflexivity|]. split; [reflexivity|]. split.
  - intros o H. unfold do_POST, post_result. simpl. now rewrite H.
  - intros o H1 H2. unfold do_POST, post_result. simpl.
    now rewrite H1, H2.
Qed.

(** Scenario S6, and a well-formed upload. *)
Lemma post_result_responses_witness :
  let q := JobQueue_init in
  let o := [("job_id", JString "job_1"); ("ok", JBool true)] in
  truthy (dict_get "job_id" [("no", JString "id")]) = false /\
  truthy (dict_get "job_id" o) = true /\
  hashable (dict_get "job_id" o) = true /\
  do_POST q (post_result (JObject [("no", JString "id")]))
  = (Returns (mkResponse 400 (error_payload "missing_job_id")), q) /\
  do_POST q (post_result (JObject o))
  = (Returns (mkResponse 200 ok_payload),
     mkJobQueue [] [(JString "job_1", o)] []).
Proof.
  intros q o.
  split; [reflexivity|]. split; [reflexivity|]. split; [reflexivity|].
  destruct (post_result_responses q) as (_ & _ & H400 & H200).
  split.
  - apply (H400 [("no", JString "id")]). reflexivity.
  - apply (H200 o); reflexivity.
Defined.

(** ** Results for unknown job ids *)

(** C8, as stated, fails: on a fresh queue, where no job has ever been
    minted or enqueued, an uploaded result is accepted with 200 and kept
    in the result store under its job id. *)
Lemma unknown_job_result_is_retained :
  _pending JobQueue_init = [] /\
  exists q',
    do_POST JobQueue_init (post_result (JObject body_never_minted))
    = (Returns (mkResponse 200 (JObject [("ok", JBool true)])), q')
    /\ kdict_lookup (JString "job_never_minted") (_results q')
       = Some body_never_minted.
Proof.
  split; [reflexivity|]. eexists. split; reflexivity.
Qed.

Lemma op_step_slot q o id :
  touches_slot id o = false ->
  kdict_lookup (JString id) (_results (fst (op_step q o)))
  = kdict_lookup (JString id) (_results q).
Proof.
  destruct o as [c now | c j | c | k r | id' | id']; cbn [op_step touches_slot];
    intros H; try reflexivity.
  - unfold take_job.
    destruct (dict_lookup c (_pending q)) as [[|j l]|]; reflexivity.
  - cbn [fst store_result _results]. now apply kdict_lookup_set_str_other.
  - unfold take_result.
    destruct (kdict_lookup (JString id') (_results q)); [|reflexivity].
    cbn [fst _results]. apply kdict_lookup_remove_str_other.
    intros ->. rewrite String.eqb_refl in H. discriminate.
  - unfold cancel_job.
    destruct (cancel_in id' (_pending q)); reflexivity.
Qed.

Lemma exec_slot ops : forall q id,
  existsb (touches_slot id) ops = false ->
  kdict_lookup (JString id) (_results (fst (exec q ops)))
  = kdict_lookup (JString id) (_results q).
Proof.
  induction ops as [|o rest IH]; intros q id H; [reflexivity|].
  cbn [existsb] in H. apply orb_false_iff in H. destruct H as [Ho Hr].
  cbn [exec]. pose proof (op_step_slot q o id Ho) as Hs.
  destruct (op_step q o) as [q1 d1]. cbn [fst] in Hs.
  specialize (IH q1 id Hr). destruct (exec q1 rest) as [q2 d2].
  cbn [fst] in *. congruence.
Qed.

(** C8, amended.  A result uploaded in a body that [json.loads] decodes
    to a JSON object with a non-empty string as [job_id] is stored under
    it whether or not a job with this id was ever minted or enqueued
    (nothing is asked of the queue), and the upload is answered with 200.
    The entry stays in the result store through every later operation on
    the queue by any thread ([mark_seen], [enqueue], the delivery of a
    job, [cancel_job], uploads and waits for other ids), until a
    [wait_for_result] on that id takes it out, which returns it, or a
    later upload for the same id replaces it. *)
Theorem uploaded_result_is_stored_for_any_id :
  forall (q : JobQueue) (o : list (string * json)) (s : string)
         (ops : list queue_op),
    dict_get "job_id" o = JString s ->
    s <> EmptyString ->
    existsb (touches_slot s) ops = false ->
    exists q',
      do_POST q (post_result (JObject o))
      = (Returns (mkResponse 200 (JObject [("ok", JBool true)])), q')
      /\ _pending q' = _pending q
      /\ kdict_lookup (JString s) (_results q') = Some o
      /\ kdict_lookup (JString s) (_results (fst (exec q' ops))) = Some o
      /\ (forall t now sched,
            exists q2,
              wait_for_result (fst (exec q' ops)) s t now sched
              = Returns (Some o, q2)
              /\ kdict_lookup (JString s) (_results q2) = None)
      /\ (forall o',
            kdict_lookup (JString s)
              (_results (store_result (fst (exec q' ops)) (JString s) o'))
            = Some o').
Proof.
  intros q o s ops Hid Hs Hl.
  exists (store_result q (JString s) o).
  assert (Ht : truthy (JString s) = true).
  { simpl. destruct (String.eqb_spec s EmptyString); [contradiction|reflexivity]. }
  assert (Hk : kdict_lookup (JString s)
                 (_results (store_result q (JString s) o)) = Some o).
  { simpl. apply kdict_lookup_set_str_same. }
  assert (Hk' : kdict_lookup (JString s)
                  (_results (fst (exec (store_result q (JString s) o) ops)))
                = Some o).
  { now rewrite exec_slot. }
  split; [|split; [|split; [|split; [|split]]]].
  - unfold do_POST, post_result. simpl. rewrite Hid, Ht. reflexivity.
  - reflexivity.
  - exact Hk.
  - exact Hk'.
  - intros t now sched.
    destruct (wait_for_result_available _ s o t now sched Hk')
      as (q2 & Hw & Hn & _).
    exists q2. auto.
  - intros o'. cbn [store_result _results]. apply kdict_lookup_set_str_same.
Qed.

Lemma uploaded_result_is_stored_for_any_id_witness :
  let ops := [OpMarkSeen "studio" 5;
              OpEnqueue "studio" (mkJob "job_1" "undo" [] 5);
              OpStoreResult (JString "job_1") [("ok", JBool true)];
              OpTakeResult "job_1"; OpTakeJob "studio";
              OpCancelJob "job_1"] in
  dict_get "job_id" body_never_minted = JString "job_never_minted" /\
  "job_never_minted" <> EmptyString /\
  existsb (touches_slot "job_never_minted") ops = false /\
  exists q',
    do_POST JobQueue_init (post_result (JObject body_never_minted))
    = (Returns (mkResponse 200 (JObject [("ok", JBool true)])), q')
    /\ _pending q' = _pending JobQueue_init
    /\ kdict_lookup (JString "job_never_minted") (_results q')
       = Some body_never_minted
    /\ kdict_lookup (JString "job_never_minted")
         (_results (fst (exec q' ops)))
       = Some body_never_minted.
Proof.
  intros ops.
  split; [reflexivity|]. split; [discriminate|]. split; [reflexivity|].
  destruct (uploaded_result_is_stored_for_any_id JobQueue_init
              body_never_minted "job_never_minted" ops)
    as (q' & H1 & H2 & H3 & H4 & _).
  - reflexivity.
  - discriminate.
  - reflexivity.
  - exists q'. auto.
Defined.

(** ** The stdio loop *)

Section StdioProperties.

Variable tools : json.
Variable srv : McpServer.

(** Lines that [run] skips: blank lines, lines that are not JSON, and
    objects without a [method] key.  Nothing is written and the loop
    goes on with the next line. *)
Lemma run_skips_unidentifiable q out e rest line :
  line = LineBlank \/ line = LineNotJson
  \/ (exists o, line = LineJson (JObject o)
                /\ dict_lookup "method" o = None) ->
  run tools srv q out ((line, e) :: rest) = run tools srv q out rest.
Proof.
  intros [-> | [-> | (o & -> & Ho)]]; try reflexivity.
  cbn [run run_line has_method]. unfold dict_mem. now rewrite Ho.
Qed.

(** A message with a method that is none of the known ones is answered
    only if it has an [id]: this branch does check for a notification. *)
Lemma unknown_method_notification_is_silent q out e m s :
  dict_get "method" m = JString s ->
  (s =? "initialize") = false ->
  (s =? "notifications/initialized") = false ->
  (s =? "tools/list") = false ->
  (s =? "tools/call") = false ->
  dict_get "id" m = JNull ->
  _handle_request tools srv q out (JObject m) e = (Returns tt, out, q).
Proof.
  intros Hm H1 H2 H3 H4 Hid. unfold _handle_request.
  rewrite Hm, Hid. cbn [is_str]. now rewrite H1, H2, H3, H4.
Qed.

Lemma handle_initialize_notification q out e :
  _handle_request tools srv q out initialize_notification e
  = (Returns tt, rpc_result JNull initialize_result :: out, q).
Proof. reflexivity. Qed.

Lemma handle_tools_list_notification q out e :
  _handle_request tools srv q out tools_list_notification e
  = (Returns tt, rpc_result JNull (JObject [("tools", tools)]) :: out, q).
Proof. reflexivity. Qed.

Lemma status_without_arguments q now :
  exists st, _get_connection_status q (JObject []) now = Returns st.
Proof.
  unfold _get_connection_status.
  change (resolve_client_id []) with (JString "studio").
  cbn [hashable negb].
  destruct (get_last_seen q "studio"); eexists; reflexivity.
Qed.

Lemma handle_status_call_notification q out e st :
  _get_connection_status q (JObject []) (now_status e) = Returns st ->
  _handle_request tools srv q out status_call_notification e
  = (Returns tt, rpc_result JNull (_tool_result st) :: out, q).
Proof.
  intros H.
  change (_handle_request tools srv q out status_call_notification e)
    with (match _call_tool srv q (JString "studio_get_connection_status")
                  (JObject []) e with
          | (Returns result, q') =>
              (Returns tt, _send out (rpc_result JNull result), q')
          | (Raises x, q') => (Raises x, out, q')
          | (Blocked, q') => (Blocked, out, q')
          end).
  change (_call_tool srv q (JString "studio_get_connection_status")
            (JObject []) e)
    with (match _get_connection_status q (JObject []) (now_status e) with
          | Returns st => (Returns (_tool_result st), q)
          | Raises x => (Raises x, q)
          | Blocked => (Blocked, q)
          end).
  rewrite H. reflexivity.
Qed.

(** C5 on the code.  [initialize], [tools/list] and [tools/call], each
    received without an [id], are each answered on standard output, with
    [id] set to [null]: after these three lines the output holds three
    replies (the newest first). *)
Theorem notifications_of_known_methods_are_answered :
  forall (q : JobQueue) (e : call_env),
  exists st,
    _get_connection_status q (JObject []) (now_status e) = Returns st
    /\ run tools srv q []
         [(LineJson initialize_notification, e);
          (LineJson tools_list_notification, e);
          (LineJson status_call_notification, e)]
       = (Returns tt,
          [rpc_result JNull (_tool_result st);
           rpc_result JNull (JObject [("tools", tools)]);
           rpc_result JNull initialize_result],
          q).
Proof.
  intros q e.
  destruct (status_without_arguments q (now_status e)) as (st & Hst).
  exists st. split; [exact Hst|].
  change (run tools srv q []
            [(LineJson initialize_notification, e);
             (LineJson tools_list_notification, e);
             (LineJson status_call_notification, e)])
    with (match _handle_request tools srv q
                  [rpc_result JNull (JObject [("tools", tools)]);
                   rpc_result JNull initialize_result]
                  status_call_notification e with
          | (Returns _, out', q') => run tools srv q' out' []
          | stopped => stopped
          end).
  rewrite (handle_status_call_notification q _ e st Hst). reflexivity.
Qed.

(** C9 on the code.  A line that holds a JSON number, [true], [false]
    or [null] makes the membership test ["method" in msg] raise
    [TypeError]; a JSON string that contains the word, or an array that
    contains it, reaches [_handle_request], where [msg.get] raises
    [AttributeError].  Either exception leaves [run]: the lines after it
    are not processed. *)
Theorem scalar_line_raises_and_ends_the_loop :
  forall (q : JobQueue) (out : list json) (e : call_env)
         (rest : list (stdin_line * call_env)),
    run tools srv q out ((LineJson (JInt 5), e) :: rest)
    = (Raises TypeError, out, q)
    /\ run tools srv q out ((LineJson (JBool true), e) :: rest)
       = (Raises TypeError, out, q)
    /\ run tools srv q out ((LineJson JNull, e) :: rest)
       = (Raises TypeError, out, q)
    /\ run tools srv q out ((LineJson (JString "method"), e) :: rest)
       = (Raises AttributeError, out, q)
    /\ run tools srv q out
         ((LineJson (JList [JString "method"]), e) :: rest)
       = (Raises AttributeError, out, q).
Proof. intros q out e rest. repeat split. Qed.

(** Strings and arrays that do not contain the word are skipped. *)
Lemma run_skips_other_strings_and_arrays q out e rest :
  run tools srv q out ((LineJson (JString "hello"), e) :: rest)
  = run tools srv q out rest
  /\ run tools srv q out ((LineJson (JList [JInt 1; JInt 2]), e) :: rest)
     = run tools srv q out rest.
Proof. split; reflexivity. Qed.

End StdioProperties.

(** ** Order of a mailbox under any interleaving *)

Lemma sublist_refl {A : Type} (l : list A) : sublist l l.
Proof. induction l; [apply sublist_nil | now apply sublist_cons]. Qed.

Lemma sublist_app_tail {A : Type} (l1 l2 r : list A) :
  sublist l1 l2 -> sublist (l1 ++ r) (l2 ++ r).
Proof.
  induction 1; simpl.
  - apply sublist_refl.
  - now apply sublist_skip.
  - now apply sublist_cons.
Qed.

Lemma sublist_trans {A : Type} (l2 l3 : list A) :
  sublist l2 l3 -> forall l1, sublist l1 l2 -> sublist l1 l3.
Proof.
  induction 1 as [|x l2 l3 H IH|x l2 l3 H IH]; intros l1 H1.
  - exact H1.
  - apply sublist_skip. auto.
  - inversion H1; subst.
    + apply sublist_skip. auto.
    + apply sublist_cons. auto.
Qed.

Lemma remove_first_job_sublist id queue : forall queue',
  remove_first_job id queue = Some queue' -> sublist queue' queue.
Proof.
  induction queue as [|j r IH]; intros queue' H; simpl in H.
  - discriminate.
  - destruct (job_id j =? id).
    + inversion H; subst. apply sublist_skip, sublist_refl.
    + destruct (remove_first_job id r) as [r'|]; [|discriminate].
      inversion H; subst. apply sublist_cons. auto.
Qed.

Lemma cancel_in_sublist id c p : forall p',
  cancel_in id p = Some p' ->
  sublist (match dict_lookup c p' with Some l => l | None => [] end)
          (match dict_lookup c p with Some l => l | None => [] end).
Proof.
  induction p as [|[c0 queue] r IH]; intros p' H; simpl in H.
  - discriminate.
  - destruct (remove_first_job id queue) as [queue'|] eqn:E.
    + inversion H; subst. simpl. destruct (c =? c0).
      * eapply remove_first_job_sublist; eauto.
      * apply sublist_refl.
    + destruct (cancel_in id r) as [r'|]; [|discriminate].
      inversion H; subst. simpl. destruct (c =? c0).
      * apply sublist_refl.
      * auto.
Qed.

(** [cancel_job] only ever leaves a job out of a mailbox. *)
Lemma mailbox_cancel_job q id c :
  sublist (mailbox (snd (cancel_job q id)) c) (mailbox q c).
Proof.
  unfold cancel_job, mailbox.
  destruct (cancel_in id (_pending q)) as [p'|] eqn:E; simpl.
  - now apply cancel_in_sublist with (id := id).
  - apply sublist_refl.
Qed.

Lemma take_job_inv q c j q' :
  take_job q c = Some (j, q') ->
  mailbox q c = j :: mailbox q' c
  /\ forall c1, c1 <> c -> mailbox q' c1 = mailbox q c1.
Proof.
  unfold take_job, mailbox.
  destruct (dict_lookup c (_pending q)) as [[|j0 l]|] eqn:E; try discriminate.
  intros H. inversion H; subst. simpl.
  rewrite dict_lookup_set_same. split; [reflexivity|].
  intros c1 Hne. now rewrite dict_lookup_set_other.
Qed.

Lemma take_result_mailbox q id r q' c :
  take_result q id = Some (r, q') -> mailbox q' c = mailbox q c.
Proof.
  intros H. unfold mailbox. now rewrite (take_result_pending _ _ _ _ H).
Qed.

(** Whatever the threads do with the queue, in whatever order, what a
    client has been delivered followed by what is still in its mailbox is
    what was in its mailbox followed by what was enqueued for it, in that
    order, with some jobs (the cancelled ones) left out: no two jobs of a
    mailbox ever change places. *)
Theorem mailbox_order_is_preserved :
  forall (ops : list queue_op) (q : JobQueue) (c : string),
    sublist (delivered_to c (snd (exec q ops)) ++ mailbox (fst (exec q ops)) c)
            (mailbox q c ++ enqueued_for c ops).
Proof.
  induction ops as [|o rest IH]; intros q c.
  - simpl. rewrite app_nil_r. apply sublist_refl.
  - cbn [exec].
    destruct (op_step q o) as [q1 d1] eqn:Eo.
    specialize (IH q1 c).
    destruct (exec q1 rest) as [q2 d2]. cbn [fst snd] in *.
    destruct o as [c' now | c' j | c' | k r | id | id];
      cbn [op_step enqueued_for] in *.
    + inversion Eo; subst. exact IH.
    + inversion Eo; subst. cbn [app].
      destruct (String.eqb_spec c' c) as [->|Hne].
      * rewrite mailbox_enqueue_same, <- app_assoc in IH. exact IH.
      * rewrite mailbox_enqueue_other in IH by congruence. exact IH.
    + destruct (take_job q c') as [[j q']|] eqn:Et.
      * inversion Eo; subst.
        destruct (take_job_inv _ _ _ _ Et) as [Hm Ho].
        unfold delivered_to. cbn [app filter fst].
        destruct (String.eqb_spec c' c) as [->|Hne].
        -- rewrite Hm. cbn [map snd app]. apply sublist_cons. exact IH.
        -- rewrite <- (Ho c) by congruence. exact IH.
      * inversion Eo; subst. exact IH.
    + inversion Eo; subst. exact IH.
    + destruct (take_result q id) as [[r q']|] eqn:Et.
      * inversion Eo; subst.
        rewrite (take_result_mailbox _ _ _ _ c Et) in IH. exact IH.
      * inversion Eo; subst. exact IH.
    + inversion Eo; subst. cbn [app].
      eapply sublist_trans; [|exact IH].
      apply sublist_app_tail, mailbox_cancel_job.
Qed.

(* ================================================================== *)
(** * Further properties of the code *)
(* ================================================================== *)

(** ** Liveness: [mark_seen], [get_last_seen], [is_connected] *)

Lemma Qlt_bool_iff (a b : Q) : Qlt_bool a b = true <-> (a < b)%Q.
Proof.
  unfold Qlt_bool. rewrite negb_true_iff.
  split.
  - intros H. apply Qnot_le_lt. intros Hle.
    apply Qle_bool_iff in Hle. congruence.
  - intros H. destruct (Qle_bool b a) eqn:E; auto.
    apply Qle_bool_iff in E. exfalso. eapply Qlt_not_le; eauto.
Qed.

(** X1. A client marked seen at time [t] is connected at time [t'] exactly
    when less than [max_age] has passed since, whatever the queue held
    before; the liveness of every other client is as it was. *)
Theorem seen_client_is_connected_within_max_age :
  forall (q : JobQueue) (c : string) (t t' : Time) (max_age : Q),
    (is_connected (mark_seen q c t) c max_age t' = true
     <-> (t' - t < max_age)%Q)
    /\ (forall c', c' <> c ->
          is_connected (mark_seen q c t) c' max_age t'
          = is_connected q c' max_age t').
Proof.
  intros q c t t' m. split.
  - unfold is_connected, mark_seen. cbn [_last_seen].
    rewrite dict_lookup_set_same. apply Qlt_bool_iff.
  - intros c' Hne. unfold is_connected, mark_seen. cbn [_last_seen].
    now rewrite dict_lookup_set_other.
Qed.

Lemma seen_client_is_connected_within_max_age_witness :
  (110 - 100 < 15)%Q /\
  is_connected (mark_seen JobQueue_init "studio" 100) "studio" 15 110 = true.
Proof.
  assert (H : (110 - 100 < 15)%Q) by (unfold Qlt; simpl; lia).
  split; [exact H|].
  apply (proj1 (seen_client_is_connected_within_max_age
                  JobQueue_init "studio" 100 110 15)).
  exact H.
Defined.

Lemma op_step_last_seen q o c :
  (match o with OpMarkSeen c' _ => (c' =? c) | _ => false end) = false ->
  dict_lookup c (_last_seen (fst (op_step q o)))
  = dict_lookup c (_last_seen q).
Proof.
  destruct o as [c' now | c' j | c' | k r | id | id]; cbn [op_step]; intros H.
  - cbn [fst mark_seen _last_seen]. apply dict_lookup_set_other.
    intros ->. rewrite String.eqb_refl in H. discriminate.
  - reflexivity.
  - unfold take_job.
    destruct (dict_lookup c' (_pending q)) as [[|j l]|]; reflexivity.
  - reflexivity.
  - unfold take_result.
    destruct (kdict_lookup (JString id) (_results q)); reflexivity.
  - unfold cancel_job.
    destruct (cancel_in id (_pending q)); reflexivity.
Qed.

(** X2. Only [mark_seen] changes what the queue knows about a client's
    liveness: after any run of queue operations in which the client is not
    marked seen, [get_last_seen] and [is_connected] answer for it as
    before.  Enqueuing a job for a client, delivering one to it or
    storing its result does not make it look connected. *)
Theorem liveness_changes_only_by_mark_seen :
  forall (ops : list queue_op) (q : JobQueue) (c : string),
    marks c ops = false ->
    get_last_seen (fst (exec q ops)) c = get_last_seen q c
    /\ forall max_age now,
         is_connected (fst (exec q ops)) c max_age now
         = is_connected q c max_age now.
Proof.
  intros ops q c H.
  assert (Hl : dict_lookup c (_last_seen (fst (exec q ops)))
               = dict_lookup c (_last_seen q)).
  { revert q. induction ops as [|o rest IH]; intros q; [reflexivity|].
    cbn [marks existsb] in H. apply orb_false_iff in H. destruct H as [Ho Hr].
    cbn [exec]. pose proof (op_step_last_seen q o c Ho) as Hs.
    destruct (op_step q o) as [q1 d1]. cbn [fst] in Hs.
    specialize (IH Hr q1). destruct (exec q1 rest) as [q2 d2].
    cbn [fst] in *. congruence. }
  split.
  - exact Hl.
  - intros m now. unfold is_connected. now rewrite Hl.
Qed.

Lemma liveness_changes_only_by_mark_seen_witness :
  let ops := [OpEnqueue "studio" (mkJob "job_1" "undo" [] 0);
              OpMarkSeen "other" 5; OpTakeJob "studio";
              OpStoreResult (JString "job_1") [("ok", JBool true)]] in
  marks "studio" ops = false /\
  get_last_seen (fst (exec JobQueue_init ops)) "studio" = None /\
  is_connected (fst (exec JobQueue_init ops)) "studio" 15 6 = false.
Proof.
  intros ops. split; [reflexivity|].
  destruct (liveness_changes_only_by_mark_seen ops JobQueue_init "studio"
              eq_refl) as [H1 H2].
  split; [exact H1 | exact (H2 15 6)].
Defined.

(** ** [cancel_job] *)

Lemma cancel_in_some_iff_pending q id :
  match cancel_in id (_pending q) with Some _ => true | None => false end
  = pending_has q id.
Proof.
  pose proof (cancel_in_count id (_pending q)) as Hc.
  pose proof (pending_has_count q id) as Hp.
  destruct (cancel_in id (_pending q)) as [p'|].
  - destruct (pending_has q id) eqn:E; [reflexivity|].
    exfalso. destruct Hp as [Hp _]. specialize (Hp eq_refl). lia.
  - symmetry. apply Hp. exact Hc.
Qed.

(** X3. [cancel_job] returns [True] exactly when a job with this id is in
    some mailbox, and when it returns [False] (the job was never enqueued,
    or was already delivered to a poller) it has changed nothing. *)
Theorem cancel_job_reports_pending :
  forall (q : JobQueue) (id : string),
    fst (cancel_job q id) = pending_has q id
    /\ (pending_has q id = false -> snd (cancel_job q id) = q).
Proof.
  intros q id. pose proof (cancel_in_some_iff_pending q id) as H.
  unfold cancel_job.
  destruct (cancel_in id (_pending q)) as [p'|]; cbn [fst snd].
  - split; [exact H|]. intros E. congruence.
  - split; [exact H | reflexivity].
Qed.

Lemma cancel_job_reports_pending_witness :
  let j := mkJob "job_1" "undo" [] 0 in
  let q := enqueue JobQueue_init "studio" j in
  fst (cancel_job q "job_1") = true /\
  (exists q', take_job q "studio" = Some (j, q')
              /\ pending_has q' "job_1" = false
              /\ cancel_job q' "job_1" = (false, q')).
Proof.
  intros j q.
  split.
  - rewrite (proj1 (cancel_job_reports_pending q "job_1")). reflexivity.
  - eexists. split; [reflexivity|]. split; [reflexivity|].
    apply injective_projections.
    + rewrite (proj1 (cancel_job_reports_pending _ "job_1")). reflexivity.
    + apply (proj2 (cancel_job_reports_pending _ "job_1")). reflexivity.
Defined.

Lemma remove_first_job_count_other id id' queue : forall queue',
  remove_first_job id queue = Some queue' ->
  id' <> id ->
  count_in_queue id' queue' = count_in_queue id' queue.
Proof.
  unfold count_in_queue.
  induction queue as [|j r IH]; intros queue' H Hne; simpl in H.
  - discriminate.
  - destruct (String.eqb_spec (job_id j) id) as [Ej|Ej].
    + inversion H; subst. simpl.
      destruct (String.eqb_spec (job_id j) id'); [congruence|reflexivity].
    + destruct (remove_first_job id r) as [r'|]; [|discriminate].
      inversion H; subst. simpl.
      destruct (job_id j =? id'); simpl; rewrite (IH r' eq_refl Hne);
        reflexivity.
Qed.

Lemma cancel_in_count_other id id' p : forall p',
  cancel_in id p = Some p' ->
  id' <> id ->
  count_pending id' p' = count_pending id' p.
Proof.
  induction p as [|[c l] r IH]; intros p' H Hne; simpl in H.
  - discriminate.
  - destruct (remove_first_job id l) as [l'|] eqn:E.
    + inversion H; subst. simpl.
      now rewrite (remove_first_job_count_other id id' l l' E Hne).
    + destruct (cancel_in id r) as [r'|]; [|discriminate].
      inversion H; subst. simpl. now rewrite (IH r' eq_refl Hne).
Qed.

(** X4. [cancel_job] takes exactly one job out, and only one with the
    given id: the number of pending jobs with that id drops by one when
    there was one, the number of pending jobs with any other id stays,
    and the result slots and the liveness table are not touched. *)
Theorem cancel_job_removes_exactly_one :
  forall (q : JobQueue) (id id' : string),
    count_pending id' (_pending (snd (cancel_job q id)))
    = (if pending_has q id && (id' =? id)
       then pred (count_pending id' (_pending q))
       else count_pending id' (_pending q))
    /\ _results (snd (cancel_job q id)) = _results q
    /\ _last_seen (snd (cancel_job q id)) = _last_seen q.
Proof.
  intros q id id'.
  pose proof (cancel_in_some_iff_pending q id) as Hf.
  unfold cancel_job.
  pose proof (cancel_in_count id (_pending q)) as Hc.
  destruct (cancel_in id (_pending q)) as [p'|] eqn:E; cbn [fst snd] in *.
  - rewrite <- Hf. cbn [andb _pending _results _last_seen].
    repeat split.
    destruct (String.eqb_spec id' id) as [->|Hne].
    + lia.
    + apply (cancel_in_count_other id id' _ _ E Hne).
  - rewrite <- Hf. cbn [andb]. auto.
Qed.

Lemma remove_first_job_none id queue :
  count_in_queue id queue = O -> remove_first_job id queue = None.
Proof.
  intros H. pose proof (remove_first_job_count id queue) as Hc.
  destruct (remove_first_job id queue); [lia | reflexivity].
Qed.

Lemma remove_first_job_app_last id j queue :
  count_in_queue id queue = O ->
  remove_first_job id (queue ++ [j])%list
  = if job_id j =? id then Some queue else None.
Proof.
  unfold count_in_queue.
  induction queue as [|j0 r IH]; simpl; intros H.
  - destruct (job_id j =? id); reflexivity.
  - destruct (job_id j0 =? id); simpl in H; [discriminate|].
    rewrite (IH H). destruct (job_id j =? id); reflexivity.
Qed.

Lemma cancel_in_after_append c j p :
  count_pending (job_id j) p = O ->
  exists p',
    cancel_in (job_id j) (setdefault_append c j p) = Some p'
    /\ forall c', match dict_lookup c' p' with Some l => l | None => [] end
                  = match dict_lookup c' p with Some l => l | None => [] end.
Proof.
  induction p as [|[c0 l] r IH]; cbn [count_pending setdefault_append];
    intros H.
  - exists [(c, [])]. split.
    + cbn [cancel_in remove_first_job]. now rewrite String.eqb_refl.
    + intros c'. cbn [dict_lookup]. destruct (c' =? c); reflexivity.
  - assert (Hl : count_in_queue (job_id j) l = O) by lia.
    assert (Hr : count_pending (job_id j) r = O) by lia.
    destruct (c =? c0) eqn:E.
    + exists ((c0, l) :: r). split; [|reflexivity].
      cbn [cancel_in]. rewrite (remove_first_job_app_last _ _ _ Hl).
      now rewrite String.eqb_refl.
    + destruct (IH Hr) as (r' & Hc & Hm).
      exists ((c0, l) :: r'). split.
      * cbn [cancel_in]. rewrite (remove_first_job_none _ _ Hl). now rewrite Hc.
      * intros c'. cbn [dict_lookup]. destruct (c' =? c0); auto.
Qed.

(** X5. Enqueuing a job whose id is pending nowhere and then cancelling
    that id succeeds and gives back every mailbox as it was before the
    enqueue (the client's mailbox may now exist as an empty list). *)
Theorem enqueue_then_cancel_restores_mailboxes :
  forall (q : JobQueue) (c : string) (j : Job),
    pending_has q (job_id j) = false ->
    fst (cancel_job (enqueue q c j) (job_id j)) = true
    /\ forall c', mailbox (snd (cancel_job (enqueue q c j) (job_id j))) c'
                  = mailbox q c'.
Proof.
  intros q c j H. apply pending_has_count in H.
  destruct (cancel_in_after_append c j (_pending q) H) as (p' & Hc & Hm).
  unfold cancel_job, enqueue. cbn [_pending]. rewrite Hc. cbn [fst snd].
  split; [reflexivity|]. intros c'. unfold mailbox. cbn [_pending]. apply Hm.
Qed.

Lemma enqueue_then_cancel_restores_mailboxes_witness :
  let j0 := mkJob "job_0" "undo" [] 0 in
  let j := mkJob "job_1" "redo" [] 1 in
  let q := enqueue JobQueue_init "studio" j0 in
  pending_has q (job_id j) = false /\
  fst (cancel_job (enqueue q "studio" j) "job_1") = true /\
  mailbox (snd (cancel_job (enqueue q "studio" j) "job_1")) "studio" = [j0].
Proof.
  intros j0 j q. split; [reflexivity|].
  destruct (enqueue_then_cancel_restores_mailboxes q "studio" j eq_refl)
    as [H1 H2].
  split; [exact H1 | exact (H2 "studio")].
Defined.

(** ** The result slots, further *)

Lemma wait_for_result_available_eq q id r timeout now sched :
  kdict_lookup (JString id) (_results q) = Some r ->
  wait_for_result q id timeout now sched
  = Returns (Some r,
             mkJobQueue (_pending q)
                        (kdict_remove (JString id) (_results q))
                        (_last_seen q)).
Proof.
  intros H. unfold wait_for_result.
  destruct sched; cbn [wait_for_result_loop]; unfold take_result;
    now rewrite H.
Qed.

Lemma py_key_eqb_str_neq (s s' : string) :
  s <> s' -> py_key_eqb (JString s) (JString s') = false.
Proof.
  intros Hne. destruct (py_key_eqb (JString s) (JString s')) eqn:E; auto.
  apply py_key_eqb_str_l in E. congruence.
Qed.

(** X6. A result slot is not write-once: a second [store_result] for the
    same job id replaces the first, so the waiter gets the last upload
    and the earlier one is gone with it. *)
Theorem last_stored_result_wins :
  forall (q : JobQueue) (id : string) (r1 r2 : list (string * json))
         (t : Q) (now : Time) (s : list tick),
  exists q',
    wait_for_result
      (store_result (store_result q (JString id) r1) (JString id) r2)
      id t now s = Returns (Some r2, q')
    /\ kdict_lookup (JString id) (_results q') = None.
Proof.
  intros q id r1 r2 t now s. eexists. split.
  - apply wait_for_result_available_eq. cbn [store_result _results].
    apply kdict_lookup_set_str_same.
  - cbn [_results]. apply kdict_lookup_remove_str.
Qed.

(** X7. Result slots of different job ids do not interfere: with results
    stored for two ids, in either order, a wait on the one returns its
    own result and leaves the other's slot filled. *)
Theorem result_slots_are_independent :
  forall (q : JobQueue) (id id' : string) (r r' : list (string * json))
         (t : Q) (now : Time) (s : list tick),
    id <> id' ->
    (exists q',
       wait_for_result
         (store_result (store_result q (JString id) r) (JString id') r')
         id t now s = Returns (Some r, q')
       /\ kdict_lookup (JString id') (_results q') = Some r')
    /\ (exists q',
          wait_for_result
            (store_result (store_result q (JString id') r') (JString id) r)
            id t now s = Returns (Some r, q')
          /\ kdict_lookup (JString id') (_results q') = Some r').
Proof.
  intros q id id' r r' t now s Hne. split; eexists; split.
  - apply wait_for_result_available_eq. cbn [store_result _results].
    rewrite kdict_lookup_set_str_other by (now apply py_key_eqb_str_neq).
    apply kdict_lookup_set_str_same.
  - cbn [_results store_result].
    rewrite kdict_lookup_remove_str_other by congruence.
    apply kdict_lookup_set_str_same.
  - apply wait_for_result_available_eq. cbn [store_result _results].
    apply kdict_lookup_set_str_same.
  - cbn [_results store_result].
    rewrite kdict_lookup_remove_str_other by congruence.
    rewrite kdict_lookup_set_str_other
      by (apply py_key_eqb_str_neq; congruence).
    apply kdict_lookup_set_str_same.
Qed.

Lemma result_slots_are_independent_witness :
  "job_1" <> "job_2" /\
  exists q',
    wait_for_result
      (store_result (store_result JobQueue_init (JString "job_1")
                       [("ok", JBool true)])
         (JString "job_2") [("ok", JBool false)])
      "job_1" 30 0 [] = Returns (Some [("ok", JBool true)], q')
    /\ kdict_lookup (JString "job_2") (_results q')
       = Some [("ok", JBool false)].
Proof.
  assert (H : "job_1" <> "job_2") by discriminate.
  split; [exact H|].
  exact (proj1 (result_slots_are_independent JobQueue_init "job_1" "job_2"
                  [("ok", JBool true)] [("ok", JBool false)] 30 0 [] H)).
Defined.

(** ** The waits, further *)

(** X8. A job that the dispatcher enqueues for a client while a poller
    of that client sleeps is delivered at the next turn of the loop,
    before the clock is looked at: the poller gets it even when it wakes
    up past its deadline or no further turn is scheduled. *)
Theorem job_enqueued_during_wait_is_delivered :
  forall (q : JobQueue) (c : string) (timeout : Q) (now : Time)
         (tk : poll_tick) (rest : list poll_tick) (j : Job) (l : list Job),
    mailbox q c = [] ->
    (poll_clock tk < now + timeout)%Q ->
    mailbox (fst (exec q (poll_during_wait tk))) c = j :: l ->
    exists q',
      wait_for_job q c timeout now (tk :: rest) = Returns (Some j, q')
      /\ mailbox q' c = l.
Proof.
  intros q c timeout now tk rest j l Hq Hc Hm.
  destruct (take_job_cons _ _ _ _ Hm) as (q' & Ht & Hm' & _).
  exists q'. split; [|exact Hm'].
  unfold wait_for_job. cbn [wait_for_job_loop].
  rewrite (take_job_nil _ _ Hq).
  destruct (Qle_bool (now + timeout - poll_clock tk) 0) eqn:E.
  - apply Qle_bool_iff in E. exfalso. lra.
  - destruct rest; cbn [wait_for_job_loop]; now rewrite Ht.
Qed.

Lemma job_enqueued_during_wait_is_delivered_witness :
  let j := mkJob "job_1" "undo" [] 2 in
  let tk := mkPollTick 3 [OpEnqueue "studio" j] in
  mailbox JobQueue_init "studio" = [] /\
  (poll_clock tk < 0 + 5)%Q /\
  exists q',
    wait_for_job JobQueue_init "studio" 5 0 [tk] = Returns (Some j, q')
    /\ mailbox q' "studio" = [].
Proof.
  intros j tk.
  assert (H : (poll_clock tk < 0 + 5)%Q) by (unfold Qlt; simpl; lia).
  split; [reflexivity|]. split; [exact H|].
  apply (job_enqueued_during_wait_is_delivered JobQueue_init "studio" 5 0
           tk [] j [] eq_refl H eq_refl).
Defined.

(** X9. A result that another thread stores while the waiter sleeps is
    returned at the next turn of the loop, before the clock is looked at:
    it is not lost even when the waiter wakes up past its deadline or no
    further turn is scheduled. *)
Theorem result_stored_during_wait_is_returned :
  forall (q : JobQueue) (id : string) (timeout : Q) (now : Time)
         (tk : tick) (rest : list tick) (r : list (string * json)),
    kdict_lookup (JString id) (_results q) = None ->
    (clock tk < now + timeout)%Q ->
    kdict_lookup (JString id) (_results (run_env q (during_wait tk)))
    = Some r ->
    exists q',
      wait_for_result q id timeout now (tk :: rest) = Returns (Some r, q')
      /\ kdict_lookup (JString id) (_results q') = None.
Proof.
  intros q id timeout now tk rest r Hq Hc Hr.
  destruct (take_result_some _ _ _ Hr) as (q' & Ht & Hn & _).
  exists q'. split; [|exact Hn].
  unfold wait_for_result. cbn [wait_for_result_loop].
  rewrite (take_result_none _ _ Hq).
  destruct (Qle_bool (now + timeout - clock tk) 0) eqn:E.
  - apply Qle_bool_iff in E. exfalso. lra.
  - destruct rest; cbn [wait_for_result_loop]; now rewrite Ht.
Qed.

Lemma result_stored_during_wait_is_returned_witness :
  let tk := mkTick 3 [EnvStoreResult (JString "job_1") [("ok", JBool true)]] in
  kdict_lookup (JString "job_1") (_results JobQueue_init) = None /\
  (clock tk < 0 + 30)%Q /\
  exists q',
    wait_for_result JobQueue_init "job_1" 30 0 [tk]
    = Returns (Some [("ok", JBool true)], q')
    /\ kdict_lookup (JString "job_1") (_results q') = None.
Proof.
  intros tk.
  assert (H : (clock tk < 0 + 30)%Q) by (unfold Qlt; simpl; lia).
  split; [reflexivity|]. split; [exact H|].
  apply (result_stored_during_wait_is_returned JobQueue_init "job_1" 30 0
           tk [] [("ok", JBool true)] eq_refl H eq_refl).
Defined.

Lemma exec_app q l1 l2 :
  fst (exec q (l1 ++ l2)%list) = fst (exec (fst (exec q l1)) l2).
Proof.
  revert q. induction l1 as [|o l1 IH]; intros q; [reflexivity|].
  cbn [app exec]. specialize (IH (fst (op_step q o))).
  destruct (op_step q o) as [q1 d1]. cbn [fst] in IH.
  destruct (exec q1 (l1 ++ l2)%list) as [q2 d2].
  destruct (exec q1 l1) as [q3 d3]. cbn [fst] in *.
  destruct (exec q3 l2) as [q4 d4]. cbn [fst] in *. exact IH.
Qed.

Lemma sublist_nil_inv {A : Type} (l : list A) : sublist l [] -> l = [].
Proof. intros H. inversion H. reflexivity. Qed.

(** Without an enqueue for the client, an empty mailbox stays empty. *)
Lemma exec_mailbox_nil ops q c :
  mailbox q c = [] ->
  enqueued_for c ops = [] ->
  mailbox (fst (exec q ops)) c = [].
Proof.
  intros Hm He.
  pose proof (mailbox_order_is_preserved ops q c) as H.
  rewrite Hm, He in H. apply sublist_nil_inv in H.
  apply app_eq_nil in H. tauto.
Qed.

Lemma wait_for_job_loop_empty sched : forall q c deadline,
  mailbox q c = [] ->
  no_enqueue_for c sched = true ->
  poll_expires deadline sched = true ->
  exists k,
    wait_for_job_loop q c deadline sched
    = Returns (None,
               fst (exec q (flat_map poll_during_wait (firstn k sched))))
    /\ mailbox (fst (exec q (flat_map poll_during_wait (firstn k sched)))) c
       = [].
Proof.
  induction sched as [|tk rest IH]; intros q c deadline Hm Hn He;
    [discriminate|].
  cbn [wait_for_job_loop]. rewrite (take_job_nil _ _ Hm).
  cbn [poll_expires existsb] in He. cbn [no_enqueue_for forallb] in Hn.
  apply andb_prop in Hn. destruct Hn as [Hk Hr].
  destruct (Qle_bool (deadline - poll_clock tk) 0).
  - exists O. split; [reflexivity | exact Hm].
  - destruct (IH (fst (exec q (poll_during_wait tk))) c deadline)
      as (k & Hw & Hk').
    + apply exec_mailbox_nil; [exact Hm|].
      destruct (enqueued_for c (poll_during_wait tk)); [reflexivity|].
      discriminate.
    + exact Hr.
    + exact He.
    + exists (S k). cbn [firstn flat_map]. rewrite exec_app. auto.
Qed.

(** X10. A wait for a job of a client whose mailbox is empty, during which
    no job is enqueued for that client, ends with [None] once the clock
    reaches the deadline, even when other clients have jobs pending or
    get new ones: the wait delivers nothing from another mailbox, and the
    queue it leaves is the one the other threads made in the turns that
    passed, with nothing changed by the wait itself. *)
Theorem empty_mailbox_wait_takes_nothing :
  forall (sched : list poll_tick) (q : JobQueue) (c : string)
         (timeout : Q) (now : Time),
    mailbox q c = [] ->
    no_enqueue_for c sched = true ->
    poll_expires (now + timeout) sched = true ->
    exists k,
      wait_for_job q c timeout now sched
      = Returns (None,
                 fst (exec q (flat_map poll_during_wait (firstn k sched))))
      /\ mailbox (fst (exec q (flat_map poll_during_wait (firstn k sched))))
                 c = [].
Proof.
  intros sched q c timeout now Hm Hn He.
  exact (wait_for_job_loop_empty sched q c (now + timeout) Hm Hn He).
Qed.

Lemma empty_mailbox_wait_takes_nothing_witness :
  let j := mkJob "job_1" "undo" [] 0 in
  let sched := [mkPollTick 1 [OpEnqueue "other" j]; mkPollTick 5 []] in
  mailbox JobQueue_init "studio" = [] /\
  no_enqueue_for "studio" sched = true /\
  poll_expires (0 + 5) sched = true /\
  exists k,
    wait_for_job JobQueue_init "studio" 5 0 sched
    = Returns (None,
               fst (exec JobQueue_init
                      (flat_map poll_during_wait (firstn k sched)))).
Proof.
  intros j sched.
  split; [reflexivity|]. split; [reflexivity|]. split; [reflexivity|].
  destruct (empty_mailbox_wait_takes_nothing sched JobQueue_init "studio"
              5 0 eq_refl eq_refl eq_refl) as (k & Hw & _).
  exists k. exact Hw.
Defined.

(** ** [POST /result], further *)

(** X11. No [POST] refreshes liveness or touches a mailbox: whatever the
    path and the body, and whether the request is accepted, rejected or
    raises, the pending jobs and the last-seen times are as before.  A
    plugin that only uploads results and stops polling goes stale. *)
Theorem post_touches_only_result_slots :
  forall (q : JobQueue) (rq : post_request),
    _pending (snd (do_POST q rq)) = _pending q
    /\ _last_seen (snd (do_POST q rq)) = _last_seen q
    /\ forall c max_age now,
         is_connected (snd (do_POST q rq)) c max_age now
         = is_connected q c max_age now.
Proof.
  intros q rq.
  assert (H : _pending (snd (do_POST q rq)) = _pending q
              /\ _last_seen (snd (do_POST q rq)) = _last_seen q).
  { unfold do_POST.
    destruct (negb (post_path rq =? "/result")); [auto|].
    destruct (post_body rq) as [[ | | x | [ | b | z | f | s | l | o]]|];
      try (cbn; auto; fail).
    destruct (negb (truthy (dict_get "job_id" o))); cbn [snd]; auto.
    destruct (hashable (dict_get "job_id" o)); cbn [snd]; auto. }
  destruct H as [Hp Hl]. repeat split; auto.
  intros c m now. unfold is_connected. now rewrite Hl.
Qed.

(** X12. An upload has an effect only when it is answered with 200: a
    request that is answered with anything else (404 for another path,
    400 for a body that is not JSON or has no usable job id), or that
    raises, leaves the queue exactly as it was. *)
Theorem rejected_upload_changes_nothing :
  forall (q : JobQueue) (rq : post_request),
    (forall r, fst (do_POST q rq) = Returns r -> status r <> 200%Z) ->
    snd (do_POST q rq) = q.
Proof.
  intros q rq H. unfold do_POST in *.
  destruct (negb (post_path rq =? "/result")); [reflexivity|].
  destruct (post_body rq) as [[ | | x | [ | b | z | f | s | l | o]]|];
    try reflexivity.
  destruct (negb (truthy (dict_get "job_id" o))); [reflexivity|].
  destruct (hashable (dict_get "job_id" o)); [|reflexivity].
  exfalso. apply (H _ eq_refl). reflexivity.
Qed.

Lemma rejected_upload_changes_nothing_witness :
  let q := store_result JobQueue_init (JString "job_1") [("ok", JBool true)] in
  let rq := mkPost "/results" (Some (BodyJson (JObject
              [("job_id", JString "job_2"); ("ok", JBool true)]))) in
  fst (do_POST q rq) = Returns (mkResponse 404 (error_payload "not_found")) /\
  snd (do_POST q rq) = q.
Proof.
  intros q rq. split; [reflexivity|].
  apply (rejected_upload_changes_nothing q rq).
  intros r Hr. inversion Hr. cbn. discriminate.
Defined.

(** X13. Round trip of a result: when the body of a [POST /result] is one
    that [json.loads] decodes to a JSON object with a non-empty string as
    [job_id], the upload is answered with 200 and a [wait_for_result] on
    that id then returns that object, whole and unchanged, for any
    timeout and without waiting; the slot is empty afterwards. *)
Theorem uploaded_body_is_what_the_waiter_gets :
  forall (q : JobQueue) (o : list (string * json)) (s : string)
         (t : Q) (now : Time) (sched : list tick),
    dict_get "job_id" o = JString s ->
    s <> EmptyString ->
    exists q1 q2,
      do_POST q (post_result (JObject o))
      = (Returns (mkResponse 200 ok_payload), q1)
      /\ wait_for_result q1 s t now sched = Returns (Some o, q2)
      /\ kdict_lookup (JString s) (_results q2) = None.
Proof.
  intros q o s t now sched Hid Hs.
  assert (Ht : truthy (JString s) = true).
  { simpl. destruct (String.eqb_spec s EmptyString); [contradiction|reflexivity]. }
  exists (store_result q (JString s) o). eexists. split; [|split].
  - unfold do_POST, post_result. simpl. rewrite Hid, Ht. reflexivity.
  - apply wait_for_result_available_eq. cbn [store_result _results].
    apply kdict_lookup_set_str_same.
  - cbn [_results]. apply kdict_lookup_remove_str.
Qed.

Lemma uploaded_body_is_what_the_waiter_gets_witness :
  let o := [("job_id", JString "job_1"); ("ok", JBool false);
            ("error", JString "no such instance")] in
  dict_get "job_id" o = JString "job_1" /\
  "job_1" <> EmptyString /\
  exists q1 q2,
    do_POST JobQueue_init (post_result (JObject o))
    = (Returns (mkResponse 200 ok_payload), q1)
    /\ wait_for_result q1 "job_1" 0 7 [] = Returns (Some o, q2)
    /\ kdict_lookup (JString "job_1") (_results q2) = None.
Proof.
  intros o. split; [reflexivity|].
  assert (H : "job_1" <> EmptyString) by discriminate.
  split; [exact H|].
  apply (uploaded_body_is_what_the_waiter_gets JobQueue_init o "job_1"
           0 7 [] eq_refl H).
Defined.

(** ** [do_GET] *)

Lemma op_step_seen q o c :
  get_last_seen q c <> None -> get_last_seen (fst (op_step q o)) c <> None.
Proof.
  unfold get_last_seen. intros H.
  destruct o as [c' now | c' j | c' | k r | id | id]; cbn [op_step].
  - cbn [fst mark_seen _last_seen].
    destruct (String.eqb_spec c c') as [->|Hne].
    + rewrite dict_lookup_set_same. discriminate.
    + now rewrite dict_lookup_set_other.
  - exact H.
  - unfold take_job.
    destruct (dict_lookup c' (_pending q)) as [[|j l]|]; exact H.
  - exact H.
  - unfold take_result.
    destruct (kdict_lookup (JString id) (_results q)); exact H.
  - unfold cancel_job.
    destruct (cancel_in id (_pending q)); exact H.
Qed.

Lemma exec_seen ops : forall q c,
  get_last_seen q c <> None -> get_last_seen (fst (exec q ops)) c <> None.
Proof.
  induction ops as [|o rest IH]; intros q c H; [exact H|].
  cbn [exec]. pose proof (op_step_seen q o c H) as Hs.
  destruct (op_step q o) as [q1 d1]. cbn [fst] in Hs.
  specialize (IH q1 c Hs). destruct (exec q1 rest) as [q2 d2]. exact IH.
Qed.

(** X14. [GET /ping] marks the client of the query as seen, or the client
    ["studio"] when the query names none: for the next 15 seconds
    [is_connected] holds for it.  Nothing else in the queue changes. *)
Theorem ping_marks_client_connected :
  forall (hs : HttpServer) (q : JobQueue) (rq : get_request) (e : get_env),
    get_path rq = "/ping" ->
    let c := match get_client_ids rq with c :: _ => c | [] => "studio" end in
    exists q',
      do_GET hs q rq e
      = (Returns (mkGetResponse 200 (PingPayload (now_reply e))), q')
      /\ (forall t', (t' - now_seen e < 15)%Q ->
            is_connected q' c 15 t' = true)
      /\ _pending q' = _pending q /\ _results q' = _results q.
Proof.
  intros hs q rq e Hp c. unfold do_GET. rewrite Hp. cbn [String.eqb].
  change ("/ping" =? "/poll") with false. change ("/ping" =? "/ping") with true.
  cbv iota. eexists. split; [reflexivity|]. split; [|split; reflexivity].
  intros t' Ht. unfold is_connected, mark_seen. cbn [_last_seen].
  change (query_client_id rq) with c.
  rewrite dict_lookup_set_same. now apply Qlt_bool_iff.
Qed.

Lemma ping_marks_client_connected_witness :
  let e := mkGetEnv 100 [] 100 [] 100 in
  exists q',
    do_GET (mkHttpServer 5) JobQueue_init (mkGet "/ping" []) e
    = (Returns (mkGetResponse 200 (PingPayload 100)), q')
    /\ is_connected q' "studio" 15 114 = true.
Proof.
  intros e.
  destruct (ping_marks_client_connected (mkHttpServer 5) JobQueue_init
              (mkGet "/ping" []) e eq_refl) as (q' & Hg & Hc & _).
  exists q'. split; [exact Hg|].
  apply Hc. unfold Qlt. simpl. lia.
Defined.



(** X16. [GET /poll] for a client with nothing pending, for which no job
    is enqueued while the request is served, answers with [job: null]
    once the poll timeout has passed, and still counts as a sign of life:
    the client has a last-seen time afterwards and its mailbox is still
    empty. *)
Theorem poll_with_nothing_pending_returns_null :
  forall (hs : HttpServer) (q : JobQueue) (rq : get_request) (e : get_env),
    get_path rq = "/poll" ->
    mailbox q (query_client_id rq) = [] ->
    enqueued_for (query_client_id rq) (env_before_poll e) = [] ->
    no_enqueue_for (query_client_id rq) (poll_sched e) = true ->
    poll_expires (now_poll e + poll_timeout_sec hs) (poll_sched e) = true ->
    exists q',
      do_GET hs q rq e = (Returns (mkGetResponse 200 (PollPayload None)), q')
      /\ get_last_seen q' (query_client_id rq) <> None
      /\ mailbox q' (query_client_id rq) = [].
Proof.
  intros hs q rq e Hp Hm Hb Hn He. unfold do_GET. rewrite Hp.
  change ("/poll" =? "/poll") with true. cbv iota.
  set (c := query_client_id rq) in *.
  set (q1 := fst (exec (mark_seen q c (now_seen e)) (env_before_poll e))).
  assert (Hm1 : mailbox q1 c = []).
  { apply exec_mailbox_nil; [exact Hm | exact Hb]. }
  assert (Hs1 : get_last_seen q1 c <> None).
  { apply exec_seen. unfold get_last_seen, mark_seen. cbn [_last_seen].
    rewrite dict_lookup_set_same. discriminate. }
  destruct (wait_for_job_loop_empty (poll_sched e) q1 c
              (now_poll e + poll_timeout_sec hs) Hm1 Hn He) as (k & Hw & Hk).
  unfold wait_for_job. rewrite Hw. eexists. split; [reflexivity|].
  split; [|exact Hk]. now apply exec_seen.
Qed.

Lemma poll_with_nothing_pending_returns_null_witness :
  let j := mkJob "job_1" "undo" [] 0 in
  let e := mkGetEnv 100 [OpEnqueue "other" j] 100
             [mkPollTick 100 [OpMarkSeen "other" 101]; mkPollTick 105 []]
             105 in
  mailbox JobQueue_init "studio" = [] /\
  enqueued_for "studio" (env_before_poll e) = [] /\
  no_enqueue_for "studio" (poll_sched e) = true /\
  poll_expires (now_poll e + 5) (poll_sched e) = true /\
  exists q',
    do_GET (mkHttpServer 5) JobQueue_init (mkGet "/poll" []) e
    = (Returns (mkGetResponse 200 (PollPayload None)), q')
    /\ get_last_seen q' "studio" <> None.
Proof.
  intros j e. split; [reflexivity|]. split; [reflexivity|].
  split; [reflexivity|]. split; [reflexivity|].
  destruct (poll_with_nothing_pending_returns_null (mkHttpServer 5)
              JobQueue_init (mkGet "/poll" []) e
              eq_refl eq_refl eq_refl eq_refl eq_refl)
    as (q' & Hg & Hs & _).
  exists q'. split; [exact Hg | exact Hs].
Defined.

(** Only [/poll] and [/ping] touch the queue: a [GET] of any other
    path ([/health] included) is answered at once, with 200 for
    [/health] and 404 otherwise, and leaves the queue as it was; in
    particular a health probe does not make a client look connected. *)
Theorem other_get_paths_leave_the_queue :
  forall (hs : HttpServer) (q : JobQueue) (rq : get_request) (e : get_env),
    get_path rq <> "/poll" ->
    get_path rq <> "/ping" ->
    do_GET hs q rq e
    = (Returns (if get_path rq =? "/health"
                then mkGetResponse 200 (HealthPayload (now_reply e))
                else mkGetResponse 404 NotFoundPayload), q).
Proof.
  intros hs q rq e H1 H2. unfold do_GET.
  destruct (String.eqb_spec (get_path rq) "/poll"); [contradiction|].
  destruct (String.eqb_spec (get_path rq) "/ping"); [contradiction|].
  destruct (get_path rq =? "/health"); reflexivity.
Qed.

Lemma other_get_paths_leave_the_queue_witness :
  let q := mark_seen JobQueue_init "studio" 1 in
  let e := mkGetEnv 100 [] 100 [] 100 in
  "/health" <> "/poll" /\ "/health" <> "/ping" /\
  do_GET (mkHttpServer 5) q (mkGet "/health" ["other"]) e
  = (Returns (mkGetResponse 200 (HealthPayload 100)), q).
Proof.
  intros q e.
  assert (H1 : "/health" <> "/poll") by discriminate.
  assert (H2 : "/health" <> "/ping") by discriminate.
  split; [exact H1|]. split; [exact H2|].
  exact (other_get_paths_leave_the_queue (mkHttpServer 5) q
           (mkGet "/health" ["other"]) e H1 H2).
Defined.

(** ** The dispatcher, further *)

(** X17. The liveness check comes first: a call for a client that is not
    connected (never seen, or last seen 15 seconds ago or more) is
    answered with the "not connected" error envelope whatever the tool
    name, known or unknown, and the queue is left as it was: no job is
    minted or enqueued, and nothing is waited for. *)
Theorem disconnected_call_is_rejected_without_enqueue :
  forall (srv : McpServer) (q : JobQueue) (name : json)
         (a : list (string * json)) (e : call_env) (c : string),
    is_str name "studio_get_connection_status" = false ->
    resolve_client_id a = JString c ->
    is_connected q c 15 (now_connected e) = false ->
    _call_tool srv q name (JObject a) e
    = (Returns
         (JObject
            [("isError", JBool true);
             ("content",
              JList [JObject
                       [("type", JString "text");
                        ("text",
                         JString "Studio is not connected. Make sure the Roblox Studio plugin is installed and 'Start Bridge Polling' has been clicked.")]])]),
       q).
Proof.
  intros srv q name a e c Hn Hc Hconn. unfold _call_tool.
  rewrite Hn, Hc. cbn [hashable negb]. rewrite Hconn. reflexivity.
Qed.

Lemma disconnected_call_is_rejected_without_enqueue_witness :
  let q := mark_seen JobQueue_init "studio" 100 in
  let a := [("client_id", JString "studio")] in
  let e := mkCallEnv 0 115 "0123456789ab" 115 [] [] 115 [] [] in
  is_connected q "studio" 15 (now_connected e) = false /\
  _call_tool (mkMcpServer 30) q (JString "roblox_undo") (JObject a) e
  = (Returns (error_envelope msg_not_connected), q).
Proof.
  intros q a e. split; [reflexivity|].
  apply (disconnected_call_is_rejected_without_enqueue (mkMcpServer 30) q
           (JString "roblox_undo") a e "studio"); reflexivity.
Defined.

(** X18. A call of a tool that is not in the table, for a connected
    client, is answered with ["Unknown tool: <name>"]; no job is
    enqueued and nothing is waited for: the queue after the call is the
    one the other threads made. *)
Theorem unknown_tool_is_reported_without_enqueue :
  forall (srv : McpServer) (q : JobQueue) (n : string)
         (a : list (string * json)) (e : call_env) (c : string),
    n <> "studio_get_connection_status" ->
    dict_lookup n tool_to_job = None ->
    resolve_client_id a = JString c ->
    is_connected q c 15 (now_connected e) = true ->
    _call_tool srv q (JString n) (JObject a) e
    = (Returns
         (JObject
            [("isError", JBool true);
             ("content",
              JList [JObject [("type", JString "text");
                              ("text", JString ("Unknown tool: " ++ n))]])]),
       run_env q (env_before_enqueue e)).
Proof.
  intros srv q n a e c Hn Ht Hc Hconn. unfold _call_tool.
  cbn [is_str].
  destruct (String.eqb_spec n "studio_get_connection_status");
    [contradiction|].
  rewrite Hc. cbn [hashable negb]. rewrite Hconn. cbn [negb].
  unfold _build_job. rewrite Ht. reflexivity.
Qed.

Lemma unknown_tool_is_reported_without_enqueue_witness :
  let q := mark_seen JobQueue_init "studio" 100 in
  let a := [("client_id", JString "studio")] in
  let e := mkCallEnv 0 101 "0123456789ab" 101 [] [] 101 [] [] in
  "roblox_nonsense" <> "studio_get_connection_status" /\
  dict_lookup "roblox_nonsense" tool_to_job = None /\
  is_connected q "studio" 15 (now_connected e) = true /\
  _call_tool (mkMcpServer 30) q (JString "roblox_nonsense") (JObject a) e
  = (Returns (error_envelope "Unknown tool: roblox_nonsense"), q).
Proof.
  intros q a e.
  assert (H : "roblox_nonsense" <> "studio_get_connection_status")
    by discriminate.
  split; [exact H|]. split; [reflexivity|]. split; [reflexivity|].
  apply (unknown_tool_is_reported_without_enqueue (mkMcpServer 30) q
           "roblox_nonsense" a e "studio" H); reflexivity.
Defined.

(** X19. A result whose [ok] is missing or falsy makes the call an error
    envelope whose text is the result's [error], or ["Studio error"]
    when that is missing or falsy too.  The result is found before the
    clock is read, so this holds for any job timeout and schedule. *)
Theorem plugin_failure_is_reported :
  forall (srv : McpServer) (q : JobQueue) (name : json)
         (a : list (string * json)) (e : call_env) (c : string)
         (job : Job) (r : list (string * json)),
    resolve_client_id a = JString c ->
    is_connected q c 15 (now_connected e) = true ->
    _build_job name a (hex12 e) (now_created e) = Returns (Some job) ->
    kdict_lookup (JString (job_id job)) (_results (queue_at_wait q c job e))
    = Some r ->
    truthy (dict_get_default "ok" (JBool false) r) = false ->
    fst (_call_tool srv q name (JObject a) e)
    = Returns
        (JObject
           [("isError", JBool true);
            ("content",
             JList [JObject
                      [("type", JString "text");
                       ("text",
                        if truthy (dict_get "error" r)
                        then dict_get "error" r
                        else JString "Studio error")]])]).
Proof.
  intros srv q name a e c job r Hc Hconn Hb Hr Hok.
  rewrite (call_tool_reaches_wait srv q name a e c job Hc Hconn Hb).
  rewrite (wait_for_result_available_eq _ _ r _ _ _ Hr).
  rewrite Hok. reflexivity.
Qed.

Lemma plugin_failure_is_reported_witness :
  let q := mark_seen JobQueue_init "studio" 100 in
  let a := [("path", JString "Workspace.Nope")] in
  let r := [("job_id", JString "job_0123456789ab"); ("ok", JBool false);
            ("error", JString "Instance not found")] in
  let e := mkCallEnv 0 101 "0123456789ab" 101 []
             [EnvTakeJob "studio";
              EnvStoreResult (JString "job_0123456789ab") r] 102 [] [] in
  fst (_call_tool (mkMcpServer 30) q (JString "roblox_get_instance")
         (JObject a) e)
  = Returns (error_envelope "Instance not found").
Proof.
  intros q a r e.
  apply (plugin_failure_is_reported (mkMcpServer 30) q
           (JString "roblox_get_instance") a e "studio"
           (mkJob "job_0123456789ab" "get_instance" a 101) r);
    reflexivity.
Defined.

(** X20. The status tool is answered locally: for any queue, clock and
    schedule the call returns at once with a success envelope and leaves
    the queue as it was, also when the client is not connected.  The
    [connected] field of the status is the very test that gates the
    other tools, [is_connected] with 15 seconds, and [last_seen_seconds]
    is there exactly when the client was ever seen. *)
Theorem status_tool_is_local_and_agrees_with_liveness :
  forall (srv : McpServer) (q : JobQueue) (a : list (string * json))
         (e : call_env) (c : string),
    resolve_client_id a = JString c ->
    exists st,
      _call_tool srv q (JString "studio_get_connection_status") (JObject a) e
      = (Returns (_tool_result (JObject st)), q)
      /\ dict_lookup "connected" st
         = Some (JBool (is_connected q c 15 (now_status e)))
      /\ dict_lookup "client_id" st = Some (JString c)
      /\ dict_mem "last_seen_seconds" st
         = match get_last_seen q c with Some _ => true | None => false end.
Proof.
  intros srv q a e c Hc. unfold _call_tool. cbn [is_str].
  change ("studio_get_connection_status" =? "studio_get_connection_status")
    with true. cbv iota.
  unfold _get_connection_status. rewrite Hc. cbn [hashable negb].
  unfold is_connected, get_last_seen.
  destruct (dict_lookup c (_last_seen q)) as [last|];
    eexists; repeat split; reflexivity.
Qed.

Lemma status_tool_is_local_and_agrees_with_liveness_witness :
  let q := mark_seen JobQueue_init "studio" 100 in
  let e := mkCallEnv 103 0 EmptyString 0 [] [] 0 [] [] in
  resolve_client_id [] = JString "studio" /\
  exists st,
    _call_tool (mkMcpServer 30) q
      (JString "studio_get_connection_status") (JObject []) e
    = (Returns (_tool_result (JObject st)), q)
    /\ dict_lookup "connected" st = Some (JBool true)
    /\ dict_mem "last_seen_seconds" st = true.
Proof.
  intros q e. split; [reflexivity|].
  destruct (status_tool_is_local_and_agrees_with_liveness (mkMcpServer 30) q
              [] e "studio" eq_refl) as (st & Hcall & Hconn & _ & Hseen).
  exists st. split; [exact Hcall|]. split; [exact Hconn | exact Hseen].
Defined.

(** The text of a status, three seconds after a ping. *)
Example status_text_after_ping :
  fst (_call_tool (mkMcpServer 30) (mark_seen JobQueue_init "studio" 100)
         (JString "studio_get_connection_status") (JObject [])
         (mkCallEnv 103 0 EmptyString 0 [] [] 0 [] []))
  = Returns
      (success_envelope
         ("{" ++ newline
          ++ "  " ++ dq ++ "connected" ++ dq ++ ": true," ++ newline
          ++ "  " ++ dq ++ "client_id" ++ dq ++ ": "
          ++ dq ++ "studio" ++ dq ++ "," ++ newline
          ++ "  " ++ dq ++ "last_seen_seconds" ++ dq ++ ": 3.0" ++ newline
          ++ "}")).
Proof. reflexivity. Qed.

Lemma wait_for_result_loop_consumes sched : forall q id deadline r q2,
  wait_for_result_loop q id deadline sched = Returns (Some r, q2) ->
  kdict_lookup (JString id) (_results q2) = None.
Proof.
  induction sched as [|tk rest IH]; intros q id deadline r q2 H;
    cbn [wait_for_result_loop] in H; unfold take_result in H;
    destruct (kdict_lookup (JString id) (_results q)) as [r0|] eqn:E.
  - inversion H; subst. cbn [_results]. apply kdict_lookup_remove_str.
  - discriminate.
  - inversion H; subst. cbn [_results]. apply kdict_lookup_remove_str.
  - destruct (Qle_bool (deadline - clock tk) 0); [discriminate|].
    eapply IH; eauto.
Qed.

(** X21. A call that gets a result, good or bad, takes it out of the
    result store: in the queue the call leaves there is no slot for its
    job id, so an answered call leaves nothing behind. *)
Theorem answered_call_consumes_the_slot :
  forall (srv : McpServer) (q : JobQueue) (name : json)
         (a : list (string * json)) (e : call_env) (c : string)
         (job : Job) (r : list (string * json)) (q2 : JobQueue),
    resolve_client_id a = JString c ->
    is_connected q c 15 (now_connected e) = true ->
    _build_job name a (hex12 e) (now_created e) = Returns (Some job) ->
    wait_for_result (queue_at_wait q c job e) (job_id job)
      (job_timeout_sec srv) (now_wait e) (sched e) = Returns (Some r, q2) ->
    snd (_call_tool srv q name (JObject a) e) = q2
    /\ kdict_lookup (JString (job_id job)) (_results q2) = None.
Proof.
  intros srv q name a e c job r q2 Hc Hconn Hb Hw. split.
  - rewrite (call_tool_reaches_wait srv q name a e c job Hc Hconn Hb), Hw.
    destruct (negb (truthy (dict_get_default "ok" (JBool false) r)));
      reflexivity.
  - eapply wait_for_result_loop_consumes. exact Hw.
Qed.

Lemma answered_call_consumes_the_slot_witness :
  let q := mark_seen JobQueue_init "studio" 100 in
  let a := [("client_id", JString "studio")] in
  let r := [("job_id", JString "job_0123456789ab"); ("ok", JBool false)] in
  let e := mkCallEnv 0 101 "0123456789ab" 101 [] [] 102
             [mkTick 103 [EnvTakeJob "studio";
                          EnvStoreResult (JString "job_0123456789ab") r]]
             [] in
  let qf := snd (_call_tool (mkMcpServer 30) q (JString "roblox_undo")
                   (JObject a) e) in
  _results qf = [] /\ mailbox qf "studio" = [].
Proof.
  intros q a r e qf.
  destruct (answered_call_consumes_the_slot (mkMcpServer 30) q
              (JString "roblox_undo") a e "studio"
              (mkJob "job_0123456789ab" "undo" a 101) r
              (mkJobQueue [("studio", [])] [] [("studio", 100)])
              eq_refl eq_refl eq_refl eq_refl) as [Hq _].
  unfold qf. rewrite Hq. split; reflexivity.
Defined.

(** ** [_build_job], further *)

Lemma dict_lookup_In {V : Type} (k : string) (v : V) d :
  dict_lookup k d = Some v -> In (k, v) d.
Proof.
  induction d as [|[k' v'] r IH]; cbn [dict_lookup]; [discriminate|].
  destruct (String.eqb_spec k k') as [->|Hne].
  - intros H. inversion H; subst. now left.
  - intros H. right. auto.
Qed.

Lemma tool_to_job_prefix n ty :
  dict_lookup n tool_to_job = Some ty -> n = "roblox_" ++ ty.
Proof.
  intros H. apply dict_lookup_In in H.
  assert (Hall : forallb (fun kv => fst kv =? "roblox_" ++ snd kv)
                         tool_to_job = true) by (vm_compute; reflexivity).
  rewrite forallb_forall in Hall. specialize (Hall _ H).
  now apply String.eqb_eq in Hall.
Qed.

(** X22. Every job that [_build_job] makes has as its type the tool name
    without the prefix [roblox_], as its id ["job_"] followed by the
    twelve hexadecimal digits drawn for it, and as [created_at] the
    clock read for it. *)
Theorem built_job_type_is_tool_name_without_prefix :
  forall (name : json) (a : list (string * json)) (hex : string)
         (now : Time) (job : Job),
    _build_job name a hex now = Returns (Some job) ->
    name = JString ("roblox_" ++ type job)
    /\ job_id job = "job_" ++ hex
    /\ created_at job = now.
Proof.
  intros name a hex now job. unfold _build_job.
  destruct name as [ | b | z | f | n | l | o]; try discriminate.
  destruct (dict_lookup n tool_to_job) as [ty|] eqn:E; [|discriminate].
  intros H. inversion H; subst. cbn [type job_id created_at].
  now rewrite (tool_to_job_prefix n ty E).
Qed.

Lemma built_job_type_is_tool_name_without_prefix_witness :
  exists job,
    _build_job (JString "roblox_terrain_fill_ball") [] "0123456789ab" 3
    = Returns (Some job)
    /\ type job = "terrain_fill_ball"
    /\ job_id job = "job_0123456789ab".
Proof.
  eexists. split; [reflexivity|].
  destruct (built_job_type_is_tool_name_without_prefix
              (JString "roblox_terrain_fill_ball") [] "0123456789ab" 3 _
              eq_refl) as (Hn & Hid & _).
  split; [|exact Hid]. reflexivity.
Defined.

(** X23. The aliasing touches [code] only: every argument under another
    key reaches the job as the caller gave it, for every tool. *)
Theorem aliasing_keeps_other_arguments :
  forall (name : json) (a : list (string * json)) (hex : string)
         (now : Time) (job : Job) (k : string),
    _build_job name a hex now = Returns (Some job) ->
    k <> "code" ->
    dict_lookup k (args job) = dict_lookup k a.
Proof.
  intros name a hex now job k. unfold _build_job.
  destruct name as [ | b | z | f | n | l | o]; try discriminate.
  destruct (dict_lookup n tool_to_job) as [ty|]; [|discriminate].
  intros H Hk. inversion H; subst. cbn [args]. unfold alias_code.
  destruct (takes_code ty); [|reflexivity].
  destruct (negb (truthy (dict_get "code" a))); [|reflexivity].
  now apply dict_lookup_set_other.
Qed.

Lemma aliasing_keeps_other_arguments_witness :
  let a := [("source", JString "print(3)"); ("client_id", JString "studio")] in
  exists job,
    _build_job (JString "roblox_run_script_in_play_mode") a "0123456789ab" 3
    = Returns (Some job)
    /\ "source" <> "code"
    /\ dict_lookup "source" (args job) = Some (JString "print(3)")
    /\ dict_lookup "code" (args job) = Some (JString "print(3)").
Proof.
  intros a. eexists. split; [reflexivity|].
  assert (H : "source" <> "code") by discriminate.
  split; [exact H|]. split; [|reflexivity].
  apply (aliasing_keeps_other_arguments
           (JString "roblox_run_script_in_play_mode") a "0123456789ab" 3 _
           "source" eq_refl H).
Defined.

(** ** The tool catalog *)

(** X24. The list of [tools/list] and the table of [_build_job] agree:
    every listed tool other than the local status tool is one for which
    [_build_job] makes a job, every tool for which it makes a job is
    listed, and the status tool is listed too. *)
Theorem listed_tools_are_the_dispatchable_ones :
  (forall d a hex now,
      In d _build_tools ->
      tool_name d <> JString "studio_get_connection_status" ->
      exists job, _build_job (tool_name d) a hex now = Returns (Some job))
  /\ (forall name a hex now job,
        _build_job name a hex now = Returns (Some job) ->
        exists d, In d _build_tools /\ tool_name d = name)
  /\ (exists d, In d _build_tools
                /\ tool_name d = JString "studio_get_connection_status").
Proof.
  split; [|split].
  - intros d a hex now Hd Hn.
    assert (Hall : forallb
                     (fun d => match tool_name d with
                               | JString n =>
                                   (n =? "studio_get_connection_status")
                                   || dict_mem n tool_to_job
                               | _ => false
                               end) _build_tools = true)
      by (vm_compute; reflexivity).
    rewrite forallb_forall in Hall. specialize (Hall d Hd).
    destruct (tool_name d) as [ | b | z | f | n | l | o]; try discriminate.
    apply orb_true_iff in Hall. destruct Hall as [E|E].
    + apply String.eqb_eq in E. subst n. contradiction.
    + unfold dict_mem in E. unfold _build_job.
      destruct (dict_lookup n tool_to_job) as [ty|]; [|discriminate].
      eexists. reflexivity.
  - intros name a hex now job. unfold _build_job.
    destruct name as [ | b | z | f | n | l | o]; try discriminate.
    destruct (dict_lookup n tool_to_job) as [ty|] eqn:E; [|discriminate].
    intros _. apply dict_lookup_In in E.
    assert (Hall : forallb
                     (fun kv => existsb (fun d => is_str (tool_name d) (fst kv))
                                        _build_tools) tool_to_job = true)
      by (vm_compute; reflexivity).
    rewrite forallb_forall in Hall. specialize (Hall _ E). cbn [fst] in Hall.
    apply existsb_exists in Hall. destruct Hall as (d & Hd & Hs).
    exists d. split; [exact Hd|].
    destruct (tool_name d) as [ | b' | z' | f' | n' | l' | o'];
      try discriminate.
    cbn [is_str] in Hs. apply String.eqb_eq in Hs. now subst.
  - eexists. split; [left; reflexivity | reflexivity].
Qed.

Lemma listed_tools_are_the_dispatchable_ones_witness :
  exists d job,
    nth_error _build_tools 41 = Some d
    /\ tool_name d = JString "roblox_terrain_fill_block"
    /\ _build_job (tool_name d) [] "0123456789ab" 0 = Returns (Some job).
Proof.
  destruct (nth_error _build_tools 41) as [d|] eqn:E; [|discriminate].
  assert (Hn : tool_name d = JString "roblox_terrain_fill_block").
  { vm_compute in E. inversion E. reflexivity. }
  destruct (proj1 listed_tools_are_the_dispatchable_ones d []
              "0123456789ab" 0) as (job & Hj).
  - eapply nth_error_In. exact E.
  - rewrite Hn. discriminate.
  - exists d, job. auto.
Defined.

(** X25. Every listed tool can be addressed to a client: the input schema
    of each of the 56 descriptors is an object schema whose properties
    include [client_id], of type string. *)
Theorem every_listed_tool_takes_client_id :
  length _build_tools = 56%nat
  /\ forall d, In d _build_tools ->
       exists props,
         tool_properties d = Some props
         /\ dict_lookup "client_id" props
            = Some (JObject [("type", JString "string")]).
Proof.
  split; [reflexivity|]. intros d Hd.
  assert (Hall : forallb
                   (fun d => match tool_properties d with
                             | Some props =>
                                 match dict_lookup "client_id" props with
                                 | Some (JObject [(k, JString v)]) =>
                                     (k =? "type") && (v =? "string")
                                 | _ => false
                                 end
                             | None => false
                             end) _build_tools = true)
    by (vm_compute; reflexivity).
  rewrite forallb_forall in Hall. specialize (Hall d Hd).
  destruct (tool_properties d) as [props|]; [|discriminate].
  exists props. split; [reflexivity|].
  destruct (dict_lookup "client_id" props) as [[ | | | | | |[|[k v] r]]|];
    try discriminate.
  destruct v; try discriminate. destruct r; try discriminate.
  apply andb_true_iff in Hall. destruct Hall as [Hk Hv].
  apply String.eqb_eq in Hk, Hv. now subst.
Qed.

Lemma every_listed_tool_takes_client_id_witness :
  exists d props,
    nth_error _build_tools 2 = Some d
    /\ tool_name d = JString "roblox_get_children"
    /\ tool_properties d = Some props
    /\ dict_lookup "client_id" props
       = Some (JObject [("type", JString "string")]).
Proof.
  destruct (nth_error _build_tools 2) as [d|] eqn:E; [|discriminate].
  assert (Hn : tool_name d = JString "roblox_get_children").
  { vm_compute in E. inversion E. reflexivity. }
  destruct (proj2 every_listed_tool_takes_client_id d) as (props & Hp & Hc).
  - eapply nth_error_In. exact E.
  - exists d, props. auto.
Defined.

Lemma dict_lookup_app {V : Type} (k : string) (l1 l2 : list (string * V)) :
  dict_lookup k (l1 ++ l2)%list
  = match dict_lookup k l1 with
    | Some v => Some v
    | None => dict_lookup k l2
    end.
Proof.
  induction l1 as [|[k' v'] r IH]; cbn [app dict_lookup]; auto.
  destruct (k =? k'); auto.
Qed.

Lemma dict_lookup_update k ex : forall d,
  dict_lookup k (dict_update d ex)
  = match dict_lookup k (rev ex) with
    | Some v => Some v
    | None => dict_lookup k d
    end.
Proof.
  unfold dict_update.
  induction ex as [|[k0 v0] ex IH]; intros d; cbn [fold_left rev fst snd].
  - reflexivity.
  - rewrite IH, dict_lookup_app. cbn [dict_lookup].
    destruct (dict_lookup k (rev ex)); auto.
    destruct (String.eqb_spec k k0) as [->|Hne].
    + apply dict_lookup_set_same.
    + now apply dict_lookup_set_other.
Qed.

(** X26. [_ref_schema] always builds an object schema whose properties
    are the four instance-reference properties ([path], [pathArray],
    [id], [client_id]) overridden and extended by the extra properties
    (where the extras name a key more than once, which a Python dict does
    not, the last one counts); [required] is in the schema exactly when a
    non-empty list is given. *)
Theorem ref_schema_extends_instance_reference :
  forall (extra : option (list (string * json)))
         (required : option (list json)),
    let ex := match extra with Some l => l | None => [] end in
    let req := match required with Some l => l | None => [] end in
    exists sch props,
      _ref_schema extra required = JObject sch
      /\ dict_lookup "type" sch = Some (JString "object")
      /\ dict_lookup "properties" sch = Some (JObject props)
      /\ (forall k,
            dict_lookup k props
            = match dict_lookup k (rev ex) with
              | Some v => Some v
              | None => dict_lookup k _INSTANCE_REF_PROPS
              end)
      /\ dict_lookup "required" sch
         = match req with [] => None | _ :: _ => Some (JList req) end.
Proof.
  intros extra required ex req. unfold _ref_schema.
  destruct required as [[|y r]|]; destruct extra as [[|x l]|];
    subst ex req; eexists; eexists;
    (split; [reflexivity|]); (split; [reflexivity|]);
    (split; [reflexivity|]); (split; [|reflexivity]); intros k;
    try reflexivity; apply dict_lookup_update.
Qed.

Lemma ref_schema_extends_instance_reference_witness :
  exists sch props,
    _ref_schema (Some [("tag", JObject [("type", JString "string")])])
                (Some [JString "tag"]) = JObject sch
    /\ dict_lookup "properties" sch = Some (JObject props)
    /\ dict_lookup "tag" props = Some (JObject [("type", JString "string")])
    /\ dict_lookup "client_id" props
       = Some (JObject [("type", JString "string")])
    /\ dict_lookup "required" sch = Some (JList [JString "tag"]).
Proof.
  destruct (ref_schema_extends_instance_reference
              (Some [("tag", JObject [("type", JString "string")])])
              (Some [JString "tag"]))
    as (sch & props & Hs & _ & Hp & Hk & Hr).
  exists sch, props. split; [exact Hs|]. split; [exact Hp|].
  split; [rewrite Hk; reflexivity|]. split; [rewrite Hk; reflexivity|].
  exact Hr.
Defined.

(** ** The stdio loop, further *)

Section StdioFurther.

Variable tools : json.
Variable srv : McpServer.

Lemma handle_request_output q out msg e :
  exists new,
    snd (fst (_handle_request tools srv q out msg e)) = (new ++ out)%list
    /\ (length new <= 1)%nat.
Proof.
  unfold _handle_request, _send.
  repeat match goal with
  | |- context [if ?b then _ else _] => destruct b
  | |- context [match ?x with _ => _ end] => destruct x
  end; cbn [fst snd];
    first [ exists []; split; [reflexivity | cbn; lia]
          | eexists [_]; split; [reflexivity | cbn; lia] ].
Qed.

Lemma run_line_output q out line e :
  exists new,
    snd (fst (run_line tools srv q out line e)) = (new ++ out)%list
    /\ (length new <= 1)%nat.
Proof.
  unfold run_line. destruct line as [ | | x | msg].
  - exists []. split; [reflexivity | cbn; lia].
  - exists []. split; [reflexivity | cbn; lia].
  - exists []. split; [reflexivity | cbn; lia].
  - destruct (has_method msg) as [[|] | x | ].
    + apply handle_request_output.
    + exists []. split; [reflexivity | cbn; lia].
    + exists []. split; [reflexivity | cbn; lia].
    + exists []. split; [reflexivity | cbn; lia].
Qed.

(** X27. Standard output only grows, and by at most one reply per line
    read: whatever the input lines, and whether [run] ends normally,
    raises or blocks, what was written before is still there, under at
    most as many new replies as there are lines. *)
Theorem run_output_only_grows :
  forall (lines : list (stdin_line * call_env)) (q : JobQueue)
         (out : list json),
  exists new,
    snd (fst (run tools srv q out lines)) = (new ++ out)%list
    /\ (length new <= length lines)%nat.
Proof.
  induction lines as [|[line e] rest IH]; intros q out.
  - exists []. split; [reflexivity | cbn; lia].
  - cbn [run].
    destruct (run_line_output q out line e) as (n1 & H1 & L1).
    destruct (run_line tools srv q out line e) as [[o out'] q'].
    cbn [fst snd] in H1. subst out'.
    destruct o as [u | x | ].
    + destruct (IH q' (n1 ++ out)%list) as (n2 & H2 & L2).
      exists (n2 ++ n1)%list. split.
      * rewrite H2. now rewrite app_assoc.
      * rewrite length_app. cbn [length]. lia.
    + exists n1. split; [reflexivity | cbn [length]; lia].
    + exists n1. split; [reflexivity | cbn [length]; lia].
Qed.


(** A line on which [json.loads] raises something other than
    [JSONDecodeError] ends the loop with that exception. *)
Lemma loads_exception_ends_the_loop q out e rest x :
  run tools srv q out ((LineLoadsRaises x, e) :: rest) = (Raises x, out, q).
Proof. reflexivity. Qed.

(** X29. Input made only of blank lines, lines that [json.loads] rejects
    with [JSONDecodeError] and lines that it decodes to a JSON object
    without a [method] key is read to its end without a word on standard
    output and without a change to the queue. *)
Theorem unidentifiable_input_is_read_silently :
  forall (lines : list (stdin_line * call_env)) (q : JobQueue)
         (out : list json),
    Forall (fun le =>
              fst le = LineBlank \/ fst le = LineNotJson
              \/ exists o, fst le = LineJson (JObject o)
                           /\ dict_lookup "method" o = None) lines ->
    run tools srv q out lines = (Returns tt, out, q).
Proof.
  induction lines as [|[line e] rest IH]; intros q out H.
  - reflexivity.
  - inversion H as [|le l Hle Hrest]; subst. cbn [fst] in Hle.
    rewrite (run_skips_unidentifiable tools srv q out e rest line Hle).
    apply IH. exact Hrest.
Qed.

End StdioFurther.


Lemma unidentifiable_input_is_read_silently_witness :
  let e := mkCallEnv 0 0 EmptyString 0 [] [] 0 [] [] in
  let lines := [(LineBlank, e); (LineNotJson, e);
                (LineJson (JObject [("id", JInt 1)]), e)] in
  run (JList []) (mkMcpServer 30) JobQueue_init [] lines
  = (Returns tt, [], JobQueue_init).
Proof.
  intros e lines.
  apply (unidentifiable_input_is_read_silently (JList []) (mkMcpServer 30)
           lines JobQueue_init []).
  apply Forall_cons; [left; reflexivity|].
  apply Forall_cons; [right; left; reflexivity|].
  apply Forall_cons; [right; right; eexists; split; reflexivity|].
  apply Forall_nil.
Defined.
